(** * PsydeKick: the tagging rule engine and the compliance/payment calculator

    A shallow embedding of [workflows/tagging.py] and of the pure part of
    [workflows/payments.py], followed by the properties of the specification
    that concern them.

    Conventions of the embedding.
    - A Python [str] is a Rocq [string]; every character stands for one code
      point below 256.
    - A Python [float] is an IEEE-754 binary64 value, [spec_float] with
      [prec = 53] and [emax = 1024].
    - A cell of a data frame read with [dtype=str], or the [content] of a
      response, is a [pyval]: a string or a float (a missing cell is NaN).
    - A raised exception is the [Raise] outcome of the [exc] monad.
    - A data frame is a list of column names and a list of typed rows; the
      frames of the tagging engine, whose columns the code never tests, are
      plain lists of rows.
    - Dates are day numbers and instants are microseconds, both counted from
      1970-01-01 (UTC for instants); a timezone gives the UTC offset in force
      at an instant. *)

From Stdlib Require Import ZArith List String Ascii Bool Lia Permutation Sorted.
From Stdlib Require Import DecimalString.
From Stdlib Require Import Floats.SpecFloat.
Import ListNotations.

Local Open Scope string_scope.
Local Open Scope Z_scope.

(** ** Exceptions *)

Module Exc.

Inductive exn : Type :=
| TypeError
| ValueError
| IndexError
| ReError.

Inductive exc (A : Type) : Type :=
| Ok (a : A)
| Raise (e : exn).

Arguments Ok {A} a.
Arguments Raise {A} e.

Definition bind {A B : Type} (m : exc A) (k : A -> exc B) : exc B :=
  match m with
  | Ok a => k a
  | Raise e => Raise e
  end.

(** [try: m  except: h] with a bare [except]. *)
Definition try_except {A : Type} (m : exc A) (h : exc A) : exc A :=
  match m with
  | Ok a => Ok a
  | Raise _ => h
  end.

Fixpoint mapM {A B : Type} (f : A -> exc B) (l : list A) : exc (list B) :=
  match l with
  | [] => Ok []
  | a :: l' => bind (f a) (fun b => bind (mapM f l') (fun bs => Ok (b :: bs)))
  end.

End Exc.

Import Exc.

Notation "x <- m ;; k" := (Exc.bind m (fun x => k))
  (at level 61, m at next level, right associativity).

(** ** Strings *)

Module PyStr.

Definition code (c : ascii) : N := N_of_ascii c.

Definition is_digit (c : ascii) : bool :=
  ((48 <=? code c) && (code c <=? 57))%N.

Definition digit_value (c : ascii) : Z := Z.of_N (code c) - 48.

(** [str.lower] on code points below 256: A-Z and the Latin-1 capitals
    (0xC0-0xDE without the multiplication sign 0xD7) move up by 32. *)
Definition lower_char (c : ascii) : ascii :=
  let n := code c in
  if (((65 <=? n) && (n <=? 90))
      || ((192 <=? n) && (n <=? 222) && negb (n =? 215)))%N
  then ascii_of_N (n + 32) else c.

Fixpoint lower (s : string) : string :=
  match s with
  | EmptyString => EmptyString
  | String c s' => String (lower_char c) (lower s')
  end.

(** [needle in hay] for two strings. *)
Fixpoint contains (needle hay : string) : bool :=
  if prefix needle hay then true
  else match hay with
       | EmptyString => false
       | String _ hay' => contains needle hay'
       end.

(** [s[0]] and [s[-1]]; an empty string raises [IndexError]. *)
Definition first_char (s : string) : exc ascii :=
  match s with
  | EmptyString => Raise IndexError
  | String c _ => Ok c
  end.

Fixpoint last_char_from (c : ascii) (s : string) : ascii :=
  match s with
  | EmptyString => c
  | String c' s' => last_char_from c' s'
  end.

Definition last_char (s : string) : exc ascii :=
  match s with
  | EmptyString => Raise IndexError
  | String c s' => Ok (last_char_from c s')
  end.

(** [s[:-1]] *)
Fixpoint drop_last (s : string) : string :=
  match s with
  | EmptyString => EmptyString
  | String c EmptyString => EmptyString
  | String c s' => String c (drop_last s')
  end.

(** [s[1:-1]] *)
Definition slice_1_m1 (s : string) : string :=
  match s with
  | EmptyString => EmptyString
  | String _ s' => drop_last s'
  end.

(** [s.split(sep)] for a one-character separator: [split_go sep s] is the
    first field paired with the remaining fields. *)
Fixpoint split_go (sep : ascii) (s : string) : string * list string :=
  match s with
  | EmptyString => (EmptyString, [])
  | String c s' =>
      let '(field, fields) := split_go sep s' in
      if Ascii.eqb c sep then (EmptyString, field :: fields)
      else (String c field, fields)
  end.

Definition split (sep : ascii) (s : string) : list string :=
  let '(field, fields) := split_go sep s in field :: fields.

(** [c] does not occur in [s]. *)
Fixpoint free_of (c : ascii) (s : string) : bool :=
  match s with
  | EmptyString => true
  | String c' s' => negb (Ascii.eqb c' c) && free_of c s'
  end.

End PyStr.

(** ** Floats *)

Module PyFloat.

Definition prec : Z := 53.
Definition emax : Z := 1024.

Definition float : Type := spec_float.

Definition nan : float := S754_nan.

(** The float [m * 2^e]. *)
Definition dyadic (m e : Z) : float := binary_normalize prec emax m e false.

Definition eqb (x y : float) : bool := SFeqb x y.
Definition ltb (x y : float) : bool := SFltb x y.
Definition leb (x y : float) : bool := SFleb x y.
Definition gtb (x y : float) : bool := SFltb y x.
Definition geb (x y : float) : bool := SFleb y x.

Definition is_nan (x : float) : bool :=
  match x with
  | S754_nan => true
  | _ => false
  end.

(** The correctly rounded binary64 nearest to [m * 10^e10], signed. *)
Definition of_decimal (neg : bool) (m : Z) (e10 : Z) : float :=
  match m with
  | Zpos p =>
      if 0 <=? e10
      then binary_round prec emax neg (p * Z.to_pos (10 ^ e10)) 0
      else SFdiv prec emax (S754_finite neg p 0)
                           (S754_finite false (Z.to_pos (10 ^ (- e10))) 0)
  | _ => S754_zero neg
  end.

(** *** [float(s)] for a string

    The code points 0x85 and 0xA0 count as blanks; leading and trailing
    blanks are stripped; single underscores may separate digits; what is
    left is a signed decimal numeral with an optional exponent, or a signed
    [inf], [infinity] or [nan] in any letter case. *)

Definition is_space (c : ascii) : bool :=
  let n := PyStr.code c in
  (((9 <=? n) && (n <=? 13)) || (n =? 32) || (n =? 133) || (n =? 160))%N.

Fixpoint lstrip (s : list ascii) : list ascii :=
  match s with
  | c :: s' => if is_space c then lstrip s' else s
  | [] => []
  end.

Definition strip (s : list ascii) : list ascii :=
  rev (lstrip (rev (lstrip s))).

Definition underscore : ascii := "_"%char.

(** Removal of the underscores; [prev] is the character just read. *)
Fixpoint strip_underscores (prev : ascii) (s : list ascii)
  : option (list ascii) :=
  match s with
  | [] => if Ascii.eqb prev underscore then None else Some []
  | c :: s' =>
      if Ascii.eqb c underscore then
        if PyStr.is_digit prev then strip_underscores c s' else None
      else if Ascii.eqb prev underscore && negb (PyStr.is_digit c) then None
      else option_map (cons c) (strip_underscores c s')
  end.

(** The longest run of digits at the head of [s], its value appended to the
    accumulator [acc], how many digits were read, and the rest. *)
Fixpoint digits (acc : Z) (n : Z) (s : list ascii) : Z * Z * list ascii :=
  match s with
  | c :: s' =>
      if PyStr.is_digit c
      then digits (10 * acc + PyStr.digit_value c) (n + 1) s'
      else (acc, n, s)
  | [] => (acc, n, [])
  end.

Definition sign (s : list ascii) : bool * list ascii :=
  match s with
  | "-"%char :: s' => (true, s')
  | "+"%char :: s' => (false, s')
  | _ => (false, s)
  end.

Definition is_e (c : ascii) : bool :=
  Ascii.eqb c "e"%char || Ascii.eqb c "E"%char.

(** The exponent part, which must reach the end of the numeral. *)
Definition exponent (s : list ascii) : option Z :=
  match s with
  | [] => Some 0
  | c :: s' =>
      if is_e c then
        let '(neg, s'') := sign s' in
        match digits 0 0 s'' with
        | (e, n, []) => if 0 <? n then Some (if neg then - e else e) else None
        | _ => None
        end
      else None
  end.

Definition numeral (neg : bool) (s : list ascii) : option float :=
  let '(ip, ni, s1) := digits 0 0 s in
  let '(m, nf, s2) :=
    match s1 with
    | "."%char :: s1' =>
        let '(m, nf, s2) := digits ip 0 s1' in (m, nf, s2)
    | _ => (ip, 0, s1)
    end in
  if 0 <? ni + nf then
    match exponent s2 with
    | Some e => Some (of_decimal neg m (e - nf))
    | None => None
    end
  else None.

Definition inf_or_nan (neg : bool) (s : list ascii) : option float :=
  let w := PyStr.lower (string_of_list_ascii s) in
  if String.eqb w "inf" || String.eqb w "infinity"
  then Some (S754_infinity neg)
  else if String.eqb w "nan" then Some S754_nan
  else None.

Definition of_string (s : string) : option float :=
  match strip_underscores zero (strip (list_ascii_of_string s)) with
  | None => None
  | Some body =>
      let '(neg, digs) := sign body in
      match numeral neg digs with
      | Some f => Some f
      | None => inf_or_nan neg digs
      end
  end.

End PyFloat.

(** ** The tagging engine: [workflows/tagging.py] *)

Module Tagging.

(** A value met by the rule engine: a string or a float. *)
Inductive pyval : Type :=
| PStr (s : string)
| PFloat (f : PyFloat.float).

(** [isinstance(v, float)] *)
Definition is_float (v : pyval) : bool :=
  match v with
  | PFloat _ => true
  | PStr _ => false
  end.

(** [float(x)]: a float is returned as it is, a string is parsed. *)
Definition py_float (x : pyval) : exc PyFloat.float :=
  match x with
  | PFloat f => Ok f
  | PStr s =>
      match PyFloat.of_string s with
      | Some f => Ok f
      | None => Raise ValueError
      end
  end.

Definition str2float (x : pyval) : pyval :=
  match py_float x with
  | Ok f => PFloat f
  | Raise _ => x
  end.

(** *** The comparisons of Python on strings and floats

    Equality never raises; an ordering between a string and a float, and
    [b in a] for a float [b], raise [TypeError]. *)

Definition py_eq (a b : pyval) : bool :=
  match a, b with
  | PStr s, PStr t => String.eqb s t
  | PFloat x, PFloat y => PyFloat.eqb x y
  | _, _ => false
  end.

Definition py_ne (a b : pyval) : bool := negb (py_eq a b).

Definition py_lt (a b : pyval) : exc bool :=
  match a, b with
  | PStr s, PStr t => Ok (String.ltb s t)
  | PFloat x, PFloat y => Ok (PyFloat.ltb x y)
  | _, _ => Raise TypeError
  end.

Definition py_le (a b : pyval) : exc bool :=
  match a, b with
  | PStr s, PStr t => Ok (String.leb s t)
  | PFloat x, PFloat y => Ok (PyFloat.leb x y)
  | _, _ => Raise TypeError
  end.

Definition py_gt (a b : pyval) : exc bool :=
  match a, b with
  | PStr s, PStr t => Ok (String.ltb t s)
  | PFloat x, PFloat y => Ok (PyFloat.gtb x y)
  | _, _ => Raise TypeError
  end.

Definition py_ge (a b : pyval) : exc bool :=
  match a, b with
  | PStr s, PStr t => Ok (String.leb t s)
  | PFloat x, PFloat y => Ok (PyFloat.geb x y)
  | _, _ => Raise TypeError
  end.

(** [b in a] for a string [a] *)
Definition py_in (b : pyval) (a : string) : exc bool :=
  match b with
  | PStr t => Ok (PyStr.contains t a)
  | PFloat _ => Raise TypeError
  end.

(** [pd.isna(a)] *)
Definition pd_isna (a : pyval) : bool :=
  match a with
  | PFloat f => PyFloat.is_nan f
  | PStr _ => false
  end.

(** *** [handle_between] *)

Definition handle_between (value target : pyval) : exc bool :=
  match target with
  | PFloat _ => Raise TypeError
  | PStr target =>
      c_lo <- PyStr.first_char target ;;
      let lower_inc := Ascii.eqb c_lo "["%char in
      c_hi <- PyStr.last_char target ;;
      let upper_inc := Ascii.eqb c_hi "]"%char in
      match PyStr.split ","%char (PyStr.slice_1_m1 target) with
      | [lo; hi] =>
          lo <- py_float (PStr lo) ;;
          hi <- py_float (PStr hi) ;;
          ok_lo <- (if lower_inc then py_ge value (PFloat lo)
                    else py_gt value (PFloat lo)) ;;
          ok_hi <- (if upper_inc then py_le value (PFloat hi)
                    else py_lt value (PFloat hi)) ;;
          Ok (ok_lo && ok_hi)
      | _ => Raise ValueError
      end
  end.

(** *** [evaluate_condition_logic] *)

Definition operation : Type := pyval -> pyval -> exc bool.

Definition op_empty (a : pyval) : bool := pd_isna a || py_eq a (PStr "").

(** The dictionary [ops], in the order of the source. *)
Definition ops : list (string * operation) :=
  [ ("==", fun a b => Ok (py_eq a b));
    ("!=", fun a b => Ok (py_ne a b));
    ("<", py_lt);
    ("<=", py_le);
    (">", py_gt);
    (">=", py_ge);
    ("contains", fun a b =>
       match a with
       | PStr s => py_in b s
       | PFloat _ => Ok false
       end);
    ("not_contains", fun a b =>
       match a with
       | PStr s => r <- py_in b s ;; Ok (negb r)
       | PFloat _ => Ok false
       end);
    ("empty", fun a _ => Ok (op_empty a));
    ("not_empty", fun a _ => Ok (negb (op_empty a)));
    ("between", fun val tgt => handle_between val tgt) ].

(** [ops.get(operator)] *)
Fixpoint dict_get {V : Type} (d : list (string * V)) (k : string) : option V :=
  match d with
  | [] => None
  | (k', v) :: d' => if String.eqb k' k then Some v else dict_get d' k
  end.

Definition evaluate_condition_logic (value : pyval) (operator : string)
    (target : pyval) : exc bool :=
  match dict_get ops operator with
  | None => Ok false
  | Some func => try_except (func value target) (Ok false)
  end.

(** *** The tables *)

Record Response : Type := {
  question_name : string;
  content : pyval;
  skipped : bool;
  not_seen : bool
}.

Record Condition : Type := {
  cond_id : string;
  cond_group_id : string;
  operator : string;
  value : pyval;
  skip_behavior : string
}.

Record CondQuestion : Type := {
  cq_condition_id : string;
  cq_question_name : string
}.

Record Group : Type := {
  group_id : string;
  group_workflow_id : string;
  group_logical_operator : string
}.

Record Workflow : Type := {
  workflow_id : string;
  workflow_type : string;
  workflow_logical_operator : string;
  workflow_tag_id : string
}.

(** [x in xs] for a list of strings, as [Series.isin] uses it *)
Definition isin (x : string) (xs : list string) : bool :=
  existsb (String.eqb x) xs.

(** [df.empty] for a frame that has its columns *)
Definition empty {A : Type} (df : list A) : bool :=
  match df with
  | [] => true
  | _ :: _ => false
  end.

(** *** [eval_single_condition]

    [eval_responses] is the [for] loop of the function; [target] is the
    variable of that name, which the loop body reassigns, so that its value
    is carried from one response to the next. *)

Fixpoint eval_responses (op : string) (skip_true : bool) (target : pyval)
    (sub : list Response) : exc bool :=
  match sub with
  | [] => Ok false
  | response :: rest =>
      if skipped response then
        if skip_true then Ok true
        else eval_responses op skip_true target rest
      else if not_seen response then
        eval_responses op skip_true target rest
      else
        let val := content response in
        let val_conv := str2float val in
        let target :=
          if negb (String.eqb op "between") && is_float val_conv
          then str2float target else target in
        r <- evaluate_condition_logic val_conv op target ;;
        if r then Ok true else eval_responses op skip_true target rest
  end.

Definition eval_single_condition (cond : Condition)
    (sess_responses : list Response) (cond_qs : list string) : exc bool :=
  let op := operator cond in
  let target := value cond in
  let skip_true := String.eqb (skip_behavior cond) "1" in
  let sub :=
    filter (fun r => isin (question_name r) cond_qs) sess_responses in
  if String.eqb op "empty" && empty sub then Ok true
  else eval_responses op skip_true target sub.

(** *** [eval_condition_group] and [eval_workflow] *)

(** [all(results)] and [any(results)] *)
Definition all (results : list bool) : bool := forallb (fun b => b) results.
Definition any (results : list bool) : bool := existsb (fun b => b) results.

Definition eval_condition_group (group : Group) (conditions : list Condition)
    (cond_questions : list CondQuestion) (sess_responses : list Response)
    : exc bool :=
  let grp_id := group_id group in
  let subset :=
    filter (fun c => String.eqb (cond_group_id c) grp_id) conditions in
  results <-
    mapM (fun cond =>
            let qs :=
              map cq_question_name
                (filter (fun q => String.eqb (cq_condition_id q) (cond_id cond))
                        cond_questions) in
            eval_single_condition cond sess_responses qs)
         subset ;;
  if String.eqb (group_logical_operator group) "AND"
  then Ok (all results)
  else Ok (any results).

Definition eval_workflow (workflow_row : Workflow) (all_groups : list Group)
    (all_conditions : list Condition) (all_cond_questions : list CondQuestion)
    (session_responses : list Response) : exc bool :=
  let wf_groups :=
    filter (fun g => String.eqb (group_workflow_id g) (workflow_id workflow_row))
           all_groups in
  if empty wf_groups then Ok false
  else
    group_results <-
      mapM (fun group_row =>
              eval_condition_group group_row all_conditions
                all_cond_questions session_responses)
           wf_groups ;;
    if String.eqb (workflow_logical_operator workflow_row) "AND"
    then Ok (all group_results)
    else Ok (any group_results).

(** *** Notions used to state the properties *)

(** The responses that a condition reads: the frame [sub] of
    [eval_single_condition]. *)
Definition relevant (cond_qs : list string) (sess_responses : list Response)
  : list Response :=
  filter (fun r => isin (question_name r) cond_qs) sess_responses.

(** A response that is neither skipped nor unseen. *)
Definition live (r : Response) : bool :=
  negb (skipped r) && negb (not_seen r).

(** The content of the response parses as a number. *)
Definition numeric (r : Response) : bool := is_float (str2float (content r)).

(** The comparison value that a response is tested against when it is the
    only one: parsed as a number when the content of the response is one and
    the operator is not [between]. *)
Definition target_for (op : string) (target : pyval) (r : Response) : pyval :=
  if negb (String.eqb op "between") && numeric r
  then str2float target else target.


(** The names in the dictionary [ops]. *)
Definition supported_operators : list string :=
  ["=="; "!="; "<"; "<="; ">"; ">="; "contains"; "not_contains"; "empty";
   "not_empty"; "between"].

(** The operators that give a text answer the same verdict against a
    comparison value and against its reading as a number: equality and its
    negation, the two operators that do not read the value, and every name
    that is not in the dictionary. *)
Definition value_blind (op : string) : Prop :=
  In op ["=="; "!="; "empty"; "not_empty"] \/ ~ In op supported_operators.

(** The reassignment of [target] inside the loop goes unnoticed: there is
    none, or it changes nothing, or the responses that are tested are all
    numbers, or none of them is, or the operator does not tell the value
    from its reading as a number. *)
Definition carry_free (cond : Condition) (sub : list Response) : Prop :=
  operator cond = "between"
  \/ str2float (value cond) = value cond
  \/ (forall r, In r sub -> live r = true -> numeric r = true)
  \/ (forall r, In r sub -> live r = true -> numeric r = false)
  \/ value_blind (operator cond).

(** The value of [target] after the loop body has run on a response that
    is tested, from its value [t] before. *)
Definition carried (op : string) (t : pyval) (r : Response) : pyval :=
  if negb (String.eqb op "between") && is_float (str2float (content r))
  then str2float t else t.

(** A response that the loop passes over. *)
Definition passed_over (skip_true : bool) (r : Response) : bool :=
  if skipped r then negb skip_true else not_seen r.

(** The range string made of two brackets and two bounds. *)
Definition range_string (c_lo : ascii) (lo hi : string) (c_hi : ascii)
  : string :=
  String c_lo (lo ++ "," ++ hi ++ String c_hi "")%string.

(** The verdict of [evaluate_condition_logic], which never raises. *)
Definition holds (value : pyval) (op : string) (target : pyval) : bool :=
  match evaluate_condition_logic value op target with
  | Ok b => b
  | Raise _ => false
  end.

(** What one response makes of the loop when [target] is not carried over:
    a skipped response ends it with [true] under skip-as-true, a response
    that is tested ends it with [true] when the test succeeds. *)
Definition fires (skip_true : bool) (op : string) (target : pyval)
    (r : Response) : bool :=
  if skipped r then skip_true
  else if not_seen r then false
  else holds (str2float (content r)) op (target_for op target r).

(** *** Inputs of the examples *)

Definition condition (op : string) (target : pyval) (skip : string)
  : Condition :=
  {| cond_id := "c1"; cond_group_id := "g1"; operator := op;
     value := target; skip_behavior := skip |}.

Definition answer (q : string) (v : string) : Response :=
  {| question_name := q; content := PStr v;
     skipped := false; not_seen := false |}.

Definition skipped_answer (q : string) : Response :=
  {| question_name := q; content := PStr "SKIPPED";
     skipped := true; not_seen := false |}.

Definition unseen_answer (q : string) : Response :=
  {| question_name := q; content := PStr "CONDITION_SKIPPED";
     skipped := false; not_seen := true |}.

Definition f1_0 : pyval := PFloat (PyFloat.dyadic 1 0).
Definition f2_5 : pyval := PFloat (PyFloat.dyadic 5 (-1)).
Definition f5_0 : pyval := PFloat (PyFloat.dyadic 5 0).

End Tagging.

(** ** The compliance and payment calculator: [workflows/payments.py] *)

Module Payments.

(** *** Data frames *)

Record DataFrame (R : Type) : Type := {
  columns : list string;
  rows : list R
}.

Arguments columns {R} d.
Arguments rows {R} d.

(** [name in df.columns] *)
Definition has_column {R : Type} (name : string) (df : DataFrame R) : bool :=
  existsb (String.eqb name) (columns df).

(** [df.empty]: one of the two axes has length 0. *)
Definition df_empty {R : Type} (df : DataFrame R) : bool :=
  match columns df, rows df with
  | _ :: _, _ :: _ => false
  | _, _ => true
  end.

(** *** Dates and times *)

Definition date : Type := Z.

(** The microseconds of one day. *)
Definition day_us : Z := 86400000000.

(** [time.min] and [time.max], in microseconds after midnight *)
Definition time_min : Z := 0.
Definition time_max : Z := day_us - 1.

(** [datetime.combine(d, t)]: a naive wall-clock time, in microseconds. *)
Definition combine (d : date) (t : Z) : Z := d * day_us + t.

(** A timezone: the UTC offset, in microseconds, in force at an instant. *)
Definition tzinfo : Type := Z -> Z.

(** A zone-aware timestamp, as the column [local_ts] holds them. *)
Record Timestamp : Type := {
  instant : Z;
  zone : tzinfo
}.

(** [ts.normalize().tz_localize(None)], and [ts.date()]: the calendar day of
    the wall-clock time of [ts] in its own zone. *)
Definition local_date (ts : Timestamp) : date :=
  (instant ts + zone ts (instant ts)) / day_us.

(** [pd.date_range(start, end, freq="D")] *)
Definition date_range (start stop : date) : list date :=
  map (fun i => start + Z.of_nat i) (seq 0 (Z.to_nat (stop - start + 1))).

(** *** The tables *)

Record Session : Type := {
  session_id : string;
  within_study_id : string;
  survey_name : string;
  local_ts : Timestamp
}.

Record Rate : Type := {
  rate_id : string;
  reason : string;
  rate_amount : PyFloat.float
}.

Record Schema : Type := {
  schema_name : string;
  schema_rate_id : string;
  num_possible_per_day : Z;
  num_days : Z;
  bonus_rate_id : string;
  bonus_threshold : Z
}.

Record DailyRow : Type := {
  day : date;
  count : Z
}.

Record RateCount : Type := {
  rc_rate_reason : string;
  rc_rate_amount : PyFloat.float;
  rc_count : Z
}.

Definition daily_frame (daily_rows : list DailyRow) : DataFrame DailyRow :=
  {| columns := ["date"; "count"]; rows := daily_rows |}.

(** The column [count] has the dtype int64: [int64 z] is [z] as a signed
    integer of 64 bits, which is how an addition of the column wraps. *)
Definition int64 (z : Z) : Z := (z + 2 ^ 63) mod 2 ^ 64 - 2 ^ 63.

(** [Series.sum] for an int64 column, which adds without a check of the
    overflow, and [Series.size] for row lists *)
Definition sum (l : list Z) : Z :=
  fold_left (fun acc x => int64 (acc + x)) l 0.
Definition size {A : Type} (l : list A) : Z := Z.of_nat (List.length l).

(** [groupby("date").size()]: every day that occurs, with how often. *)
Definition groupby_size (days : list date) : list (date * Z) :=
  map (fun d => (d, size (filter (Z.eqb d) days))) (nodup Z.eq_dec days).

(** The left join of the daily index with the observed counts, followed by
    [fillna(0)]. *)
Definition merge_left (idx : list date) (observed : list (date * Z))
  : list DailyRow :=
  map (fun d =>
         match find (fun p => Z.eqb (fst p) d) observed with
         | Some (_, c) => {| day := d; count := c |}
         | None => {| day := d; count := 0 |}
         end)
      idx.

Section Environment.

(** What the functions read from outside their arguments.
    - [mktime w]: the instant that the zone of the machine gives to the naive
      wall-clock time [w]; [datetime.astimezone] presumes that zone for a
      naive datetime.
    - [now]: the instant of the call, read by [datetime.now].
    - [re_compile_ignorecase pat]: the matcher
      [s => re.compile(pat, re.IGNORECASE).search(s) is not None], which is
      how [Series.str.contains(pat, case=False)] matches with its default
      [regex=True]; compiling the pattern may raise. *)
Variable mktime : Z -> Z.
Variable now : Z.
Variable re_compile_ignorecase : string -> exc (string -> bool).

(** [datetime.combine(d, t).astimezone(tz)]: the conversion to [tz] keeps
    the instant. *)
Definition combine_astimezone (d : date) (t : Z) (tz : tzinfo) : Timestamp :=
  {| instant := mktime (combine d t); zone := tz |}.

(** *** [compute_daily_counts] *)

Definition compute_daily_counts (sessions : DataFrame Session)
    (start_date : date) (days : Z) (tz : tzinfo)
    (reason_filter : option string) : exc (DataFrame DailyRow) :=
  let idx_end_date := start_date + (days - 1) in
  let idx := date_range start_date idx_end_date in
  let zeros := daily_frame (map (fun d => {| day := d; count := 0 |}) idx) in
  if negb (has_column "local_ts" sessions)
     || negb (has_column "survey_name" sessions)
     || df_empty sessions
  then Ok zeros
  else
    let win_start := combine_astimezone start_date time_min tz in
    let win_end := combine_astimezone idx_end_date time_max tz in
    let df_windowed :=
      filter (fun s => (instant win_start <=? instant (local_ts s))
                       && (instant (local_ts s) <=? instant win_end))
             (rows sessions) in
    df_windowed <-
      match reason_filter with
      | None | Some "" => Ok df_windowed
      | Some pat =>
          search <- re_compile_ignorecase pat ;;
          Ok (filter (fun s => search (survey_name s)) df_windowed)
      end ;;
    match df_windowed with
    | _ :: _ =>
        let observed_counts_df :=
          groupby_size (map (fun s => local_date (local_ts s)) df_windowed) in
        Ok (daily_frame (merge_left idx observed_counts_df))
    | [] => Ok zeros
    end.

(** *** [compute_bonus_days] *)

Definition compute_bonus_days (daily_counts : DataFrame DailyRow)
    (threshold : Z) : Z :=
  if (threshold <=? 0)
     || negb (has_column "count" daily_counts)
     || df_empty daily_counts
  then 0
  else size (filter (fun r => threshold <=? count r) (rows daily_counts)).

(** *** [compute_base_rate_counts] *)

Definition compute_base_rate_counts (sessions : DataFrame Session)
    (rates : DataFrame Rate) : DataFrame RateCount :=
  if negb (has_column "survey_name" sessions)
     || df_empty rates
     || negb (has_column "reason" rates)
     || negb (has_column "rate_amount" rates)
  then {| columns := ["rate_reason"; "rate_amount"; "count"]; rows := [] |}
  else
    let survey_name_lc :=
      map (fun s => PyStr.lower (survey_name s)) (rows sessions) in
    {| columns := ["rate_reason"; "rate_amount"; "count"];
       rows :=
         map (fun r_row =>
                let reason := reason r_row in
                let amt := rate_amount r_row in
                let cnt :=
                  match reason with
                  | EmptyString => 0
                  | _ =>
                      size (filter (PyStr.contains (PyStr.lower reason))
                                   survey_name_lc)
                  end in
                {| rc_rate_reason := reason;
                   rc_rate_amount := amt;
                   rc_count := cnt |})
             (rows rates) |}.

(** *** [compute_stats] *)

Definition compute_stats (start_date : date) (tz : tzinfo)
    (schema_row : Schema) (daily : DataFrame DailyRow) : Z * Z :=
  let today_local := local_date {| instant := now; zone := tz |} in
  let days_from_start_to_today := (today_local - start_date) + 1 in
  let num_days_elapsed_in_schema :=
    Z.min days_from_start_to_today (num_days schema_row) in
  let num_days_elapsed_in_schema :=
    if num_days_elapsed_in_schema <? 0 then 0
    else num_days_elapsed_in_schema in
  let num_possible :=
    num_days_elapsed_in_schema * num_possible_per_day schema_row in
  let num_completed :=
    if has_column "count" daily && negb (df_empty daily)
    then
      let relevant_daily_counts :=
        firstn (Z.to_nat num_days_elapsed_in_schema) (rows daily) in
      sum (map count relevant_daily_counts)
    else 0 in
  (num_possible, num_completed).

End Environment.

(** *** Notions used to state the properties *)

(** The sum of a list of integers, without bound. *)
Definition total (l : list Z) : Z := fold_right Z.add 0 l.

(** The days of the schema that have begun by [today_local]. *)
Definition days_elapsed (today_local start_date : date) (schema_row : Schema)
  : Z :=
  Z.max 0 (Z.min (num_days schema_row) (today_local - start_date + 1)).

(** [name] contains [pat] as a substring when letter case is ignored. *)
Definition contains_ci (pat name : string) : Prop :=
  exists before after : string,
    PyStr.lower name = (before ++ PyStr.lower pat ++ after)%string.

(** [counts P l n]: exactly [n] of the elements of [l] satisfy [P]. *)
Inductive counts {A : Type} (P : A -> Prop) : list A -> Z -> Prop :=
| counts_nil : counts P [] 0
| counts_hit a l n : P a -> counts P l n -> counts P (a :: l) (n + 1)
| counts_miss a l n : ~ P a -> counts P l n -> counts P (a :: l) n.

(** [date(y, m, d)] as a day number. *)
Definition ymd (y m d : Z) : date :=
  let y' := if m <=? 2 then y - 1 else y in
  let era := y' / 400 in
  let yoe := y' - era * 400 in
  let doy := (153 * (if 2 <? m then m - 3 else m + 9) + 2) / 5 + d - 1 in
  let doe := yoe * 365 + yoe / 4 - yoe / 100 + doy in
  era * 146097 + doe - 719468.

Definition hour_us : Z := 3600000000.

(** A zone at a constant offset from UTC, in hours. *)
Definition fixed_offset (hours : Z) : tzinfo := fun _ => hours * hour_us.

(** The [mktime] of a machine whose zone is at a constant offset. *)
Definition mktime_fixed (hours : Z) : Z -> Z := fun w => w - hours * hour_us.

(** The wall-clock time of a timestamp in its zone. *)
Definition wall_clock (ts : Timestamp) : Z := instant ts + zone ts (instant ts).

(** *** Inputs of the examples *)

Definition session_columns : list string :=
  ["session_id"; "within_study_id"; "survey_name"; "started_at_utc";
   "local_ts"; "local_day"].

Definition session_at (name : string) (utc_instant : Z) (tz : tzinfo)
  : Session :=
  {| session_id := "s"; within_study_id := "p1"; survey_name := name;
     local_ts := {| instant := utc_instant; zone := tz |} |}.

Definition sessions_frame (l : list Session) : DataFrame Session :=
  {| columns := session_columns; rows := l |}.

(** America/New_York in May 2025: UTC-4. *)
Definition new_york : tzinfo := fixed_offset (-4).

(** One session on 2025-05-06 at 01:00 UTC, which is 2025-05-05 at 21:00 in
    New York. *)
Definition evening_session : Session :=
  session_at "Completed an EMA survey"
    (combine (ymd 2025 5 6) (1 * hour_us)) new_york.

(** Five sessions at 12:00 UTC, one a day from 2025-05-01. *)
Definition five_sessions (tz : tzinfo) : list Session :=
  map (fun i => session_at "Completed an EMA survey"
                  (combine (ymd 2025 5 1 + i) (12 * hour_us)) tz)
      [0; 1; 2; 3; 4].

Definition rates_frame (l : list Rate) : DataFrame Rate :=
  {| columns := ["id"; "reason"; "rate_amount"]; rows := l |}.

Definition rate (r : string) : Rate :=
  {| rate_id := "1"; reason := r; rate_amount := PyFloat.dyadic 2 0 |}.

Definition counts_frame (l : list Z) : DataFrame DailyRow :=
  {| columns := ["count"];
     rows := map (fun c => {| day := 0; count := c |}) l |}.

Definition schema_10_1 : Schema :=
  {| schema_name := "S"; schema_rate_id := "1"; num_possible_per_day := 1;
     num_days := 10; bonus_rate_id := ""; bonus_threshold := 0 |}.

End Payments.

(** ** Exceptions and dictionaries of the callers *)

Module PyRun.

(** The exceptions met outside the evaluation of a condition: those of
    the evaluation itself, [KeyError] for a missing label, column or
    dictionary key, and the [TypeError] of [str.join] on a list that holds
    something else than strings. *)
Inductive run_exn : Type :=
| EvalError (e : exn)
| KeyError (key : string)
| JoinTypeError.

Inductive run (A : Type) : Type :=
| Done (a : A)
| Fail (e : run_exn).

Arguments Done {A} a.
Arguments Fail {A} e.

Definition run_bind {A B : Type} (m : run A) (k : A -> run B) : run B :=
  match m with
  | Done a => k a
  | Fail e => Fail e
  end.

Definition lift {A : Type} (m : exc A) : run A :=
  match m with
  | Ok a => Done a
  | Raise e => Fail (EvalError e)
  end.

Fixpoint run_mapM {A B : Type} (f : A -> run B) (l : list A) : run (list B) :=
  match l with
  | [] => Done []
  | a :: l' =>
      run_bind (f a) (fun b =>
      run_bind (run_mapM f l') (fun bs => Done (b :: bs)))
  end.

(** A dictionary with string keys, in insertion order. *)
Definition dict (V : Type) : Type := list (string * V).

(** [d[k] = v] *)
Fixpoint dict_set {V : Type} (d : dict V) (k : string) (v : V) : dict V :=
  match d with
  | [] => [(k, v)]
  | (k', v') :: d' =>
      if String.eqb k' k then (k, v) :: d' else (k', v') :: dict_set d' k v
  end.

(** [d[k]], which raises [KeyError] for a missing key *)
Definition dict_item {V : Type} (d : dict V) (k : string) : run V :=
  match Tagging.dict_get d k with
  | Some v => Done v
  | None => Fail (KeyError k)
  end.

(** [d.get(k, default)] *)
Definition dict_get_default {V : Type} (d : dict V) (k : string)
    (default : V) : V :=
  match Tagging.dict_get d k with
  | Some v => v
  | None => default
  end.

(** [Series.unique()]: the values in the order of their first occurrence.
    [seen] holds the values met so far. *)
Fixpoint unique_from (seen : list string) (l : list string) : list string :=
  match l with
  | [] => []
  | x :: l' =>
      if Tagging.isin x seen then unique_from seen l'
      else x :: unique_from (x :: seen) l'
  end.

Definition unique (l : list string) : list string := unique_from [] l.

(** [sorted(l)] for strings, which orders them by code points. *)
Fixpoint insert_sorted (x : string) (l : list string) : list string :=
  match l with
  | [] => [x]
  | y :: l' =>
      if String.leb x y then x :: y :: l' else y :: insert_sorted x l'
  end.

Definition sorted (l : list string) : list string :=
  fold_right insert_sorted [] l.

End PyRun.

(** ** The tagging run: the in-memory part of [run_tagging]

    Reading the tables and writing [tagged_sessions.csv] are left out: the
    run takes the tables and returns the column [session_tags].  The
    session identifiers of both tables are strings. *)

Module TaggingRun.

Import Tagging.
Import PyRun.

(** A row of [responses.csv]: the session it belongs to and what the
    evaluation reads of it. *)
Record ResponseRow : Type := {
  resp_session_id : string;
  resp_fields : Response
}.

(** A row of [tags.csv].  The file is read with [dtype=str] and the
    default reading of missing values: a title cell that is empty, or that
    reads [NA], [NaN], [None], [null] and the like, is NaN and no string,
    and [title] is then [None].  The identifiers are taken as filled. *)
Record Tag : Type := {
  tag_id : string;
  title : option string
}.

(** What [tags_df.loc[tag_id, 'title']] gives on a frame indexed by [id]:
    the title cell when one row has the label, the series of the title
    cells when several have it. *)
Inductive loc_value : Type :=
| Scalar (t : option string)
| Series (ts : list (option string)).

Definition tags_loc (tags : list Tag) (label : string) : run loc_value :=
  match filter (fun t => String.eqb (tag_id t) label) tags with
  | [] => Fail (KeyError label)
  | [t] => Done (Scalar (title t))
  | ts => Done (Series (map title ts))
  end.

(** [{str(sid): [] for sid in sessions_df.session_id.astype(str)}] *)
Definition empty_tag_lists (session_ids : list string)
  : dict (list loc_value) :=
  fold_left (fun d sid => dict_set d sid []) session_ids [].

(** [";".join(items)], which raises [TypeError] for an item that is no
    string: NaN or a series *)
Fixpoint titles_of (items : list loc_value) : run (list string) :=
  match items with
  | [] => Done []
  | Scalar (Some t) :: items' =>
      run_bind (titles_of items') (fun ts => Done (t :: ts))
  | Scalar None :: _ => Fail JoinTypeError
  | Series _ :: _ => Fail JoinTypeError
  end.

Definition join_tags (items : list loc_value) : run string :=
  run_bind (titles_of items) (fun ts => Done (String.concat ";" ts)).

Section Run.

Variables (groups_df : list Group) (conditions_df : list Condition)
          (cond_qs_df : list CondQuestion) (tags_df : list Tag)
          (responses_df : list ResponseRow).

(** [responses_df[responses_df.session_id == sid]] *)
Definition session_responses (sid : string) : list Response :=
  map resp_fields
      (filter (fun r => String.eqb (resp_session_id r) sid) responses_df).

(** The loop over the workflows for the session [sid]. *)
Fixpoint tag_session (workflows_df : list Workflow) (sid : string)
    (session_to_tags : dict (list loc_value))
  : run (dict (list loc_value)) :=
  match workflows_df with
  | [] => Done session_to_tags
  | wf_row :: rest =>
      run_bind
        (lift (eval_workflow wf_row groups_df conditions_df cond_qs_df
                 (session_responses sid)))
        (fun fired =>
           if fired then
             run_bind (tags_loc tags_df (workflow_tag_id wf_row))
               (fun tag_title =>
                  run_bind (dict_item session_to_tags sid)
                    (fun tag_list =>
                       tag_session rest sid
                         (dict_set session_to_tags sid
                                   (tag_list ++ [tag_title])%list)))
           else tag_session rest sid session_to_tags)
  end.

(** The loop over the sessions. *)
Fixpoint tag_sessions (workflows_df : list Workflow)
    (session_ids : list string) (session_to_tags : dict (list loc_value))
  : run (dict (list loc_value)) :=
  match session_ids with
  | [] => Done session_to_tags
  | sid :: rest =>
      run_bind (tag_session workflows_df sid session_to_tags)
        (fun d => tag_sessions workflows_df rest d)
  end.

(** [run_tagging] on the loaded tables: [session_ids] is the column
    [session_id] of the sessions, as strings; the result is the column
    [session_tags]. *)
Definition run_tagging (session_ids : list string)
    (workflows : list Workflow) : run (list string) :=
  let workflows_df :=
    filter (fun w => String.eqb (workflow_type w) "1") workflows in
  let session_to_tags := empty_tag_lists session_ids in
  run_bind (tag_sessions workflows_df session_ids session_to_tags)
    (fun session_to_tags =>
       run_mapM (fun x =>
                   run_bind (dict_item session_to_tags x) join_tags)
                session_ids).

(** *** Notions used to state the properties *)

(** The workflow fires on the responses of the session. *)
Definition fires_on (sid : string) (wf_row : Workflow) : bool :=
  match eval_workflow wf_row groups_df conditions_df cond_qs_df
          (session_responses sid) with
  | Ok b => b
  | Raise _ => false
  end.

(** The tagging workflows that fire on a session, in the order of the
    table. *)
Definition fired_workflows (workflows : list Workflow) (sid : string)
  : list Workflow :=
  filter (fires_on sid)
         (filter (fun w => String.eqb (workflow_type w) "1") workflows).

(** The tag of the workflow, when exactly one tag has its [tag_id]. *)
Definition unique_tag (wf_row : Workflow) : option Tag :=
  match filter (fun t => String.eqb (tag_id t) (workflow_tag_id wf_row))
               tags_df with
  | [t] => Some t
  | _ => None
  end.

(** The titles of a list of workflows, each with exactly one tag, which
    has a title. *)
Fixpoint titles_for (wfs : list Workflow) : option (list string) :=
  match wfs with
  | [] => Some []
  | w :: wfs' =>
      match unique_tag w, titles_for wfs' with
      | Some t, Some ts =>
          match title t with
          | Some s => Some (s :: ts)
          | None => None
          end
      | _, _ => None
      end
  end.

End Run.

(** The questions linked to a condition, and the verdicts of a condition,
    a group and a workflow. *)
Definition questions_of (cond_questions : list CondQuestion)
    (cond : Condition) : list string :=
  map cq_question_name
      (filter (fun q => String.eqb (cq_condition_id q) (cond_id cond))
              cond_questions).

Definition condition_holds (cond_questions : list CondQuestion)
    (rs : list Response) (cond : Condition) : bool :=
  match eval_single_condition cond rs (questions_of cond_questions cond) with
  | Ok b => b
  | Raise _ => false
  end.

Definition conditions_of (conditions : list Condition) (group : Group)
  : list Condition :=
  filter (fun c => String.eqb (cond_group_id c) (group_id group)) conditions.

Definition group_holds (conditions : list Condition)
    (cond_questions : list CondQuestion) (rs : list Response)
    (group : Group) : bool :=
  match eval_condition_group group conditions cond_questions rs with
  | Ok b => b
  | Raise _ => false
  end.

Definition groups_of (groups : list Group) (workflow_row : Workflow)
  : list Group :=
  filter (fun g => String.eqb (group_workflow_id g) (workflow_id workflow_row))
         groups.

(** The six ordering and equality operators on two floats. *)
Definition float_compare (op : string) (x y : PyFloat.float) : option bool :=
  if String.eqb op "==" then Some (PyFloat.eqb x y)
  else if String.eqb op "!=" then Some (negb (PyFloat.eqb x y))
  else if String.eqb op "<" then Some (PyFloat.ltb x y)
  else if String.eqb op "<=" then Some (PyFloat.leb x y)
  else if String.eqb op ">" then Some (PyFloat.gtb x y)
  else if String.eqb op ">=" then Some (PyFloat.geb x y)
  else None.

(** The same operators on two strings, in the order of the code points. *)
Definition string_compare (op : string) (s t : string) : option bool :=
  if String.eqb op "==" then Some (String.eqb s t)
  else if String.eqb op "!=" then Some (negb (String.eqb s t))
  else if String.eqb op "<" then Some (String.ltb s t)
  else if String.eqb op "<=" then Some (String.leb s t)
  else if String.eqb op ">" then Some (String.ltb t s)
  else if String.eqb op ">=" then Some (String.leb t s)
  else None.

(** *** Inputs of the examples: the study of [tests/test_tagging.py] *)

Definition workflow (id op tag : string) : Workflow :=
  {| workflow_id := id; workflow_type := "1";
     workflow_logical_operator := op; workflow_tag_id := tag |}.

Definition group (id wf : string) : Group :=
  {| group_id := id; group_workflow_id := wf;
     group_logical_operator := "AND" |}.

Definition rule (id grp op v : string) : Condition :=
  {| cond_id := id; cond_group_id := grp; operator := op;
     value := PStr v; skip_behavior := "0" |}.

Definition link (c q : string) : CondQuestion :=
  {| cq_condition_id := c; cq_question_name := q |}.

Definition study_workflows : list Workflow :=
  [workflow "wf_no" "AND" "tag_no"; workflow "wf_some" "OR" "tag_some";
   workflow "wf_high" "OR" "tag_high"].

Definition study_groups : list Group :=
  [group "grp_no" "wf_no"; group "grp_s1" "wf_some";
   group "grp_s2" "wf_some"; group "grp_h1" "wf_high";
   group "grp_h2" "wf_high"].

Definition study_conditions : list Condition :=
  [rule "cond1" "grp_no" "==" "0"; rule "cond2" "grp_no" "==" "0";
   rule "cond3" "grp_s1" ">" "0"; rule "cond4" "grp_s1" "<" "8";
   rule "cond5" "grp_s1" "<" "8"; rule "cond6" "grp_s2" "==" "0";
   rule "cond7" "grp_s2" ">" "0"; rule "cond8" "grp_h1" ">=" "8";
   rule "cond9" "grp_h2" ">" "7"; rule "cond10" "grp_h2" ">" "0"].

Definition study_links : list CondQuestion :=
  (map (fun c => link c "q_intent")
       ["cond1"; "cond3"; "cond4"; "cond6"; "cond8"; "cond10"]
   ++ map (fun c => link c "q_urge") ["cond2"; "cond5"; "cond7"; "cond9"])%list.

Definition study_tags : list Tag :=
  [{| tag_id := "tag_no"; title := Some "No risk" |};
   {| tag_id := "tag_some"; title := Some "Some risk" |};
   {| tag_id := "tag_high"; title := Some "High risk" |}].

Definition study_session (sid intent urge : string) : list ResponseRow :=
  [{| resp_session_id := sid; resp_fields := answer "q_intent" intent |};
   {| resp_session_id := sid; resp_fields := answer "q_urge" urge |}].

Definition study_responses : list ResponseRow :=
  (study_session "s1" "0" "0" ++ study_session "s2" "1" "5"
   ++ study_session "s3" "0" "1" ++ study_session "s4" "8" "0"
   ++ study_session "s5" "1" "8")%list.

Definition study_sessions : list string := ["s1"; "s2"; "s3"; "s4"; "s5"].

(** The titles of the workflows that fire on a session of the study. *)
Definition study_titles (sid : string) : list string :=
  match titles_for study_tags
          (fired_workflows study_groups study_conditions study_links
                           study_responses study_workflows sid) with
  | Some ts => ts
  | None => []
  end.

End TaggingRun.

(** ** The callers in [workflows/payments.py] *)

Module PaymentsFlow.

Import Payments.
Import PyRun.

(** A cell of the column [within_study_id] as [read_csv] types the column,
    which is read without a [dtype]: a string in a column of dtype object,
    an integer in a column of dtype int64, which the column has when every
    identifier is a whole number.  The cells are filled; a column of
    decimal fractions is left out. *)
Inductive id_cell : Type :=
| IdText (s : string)
| IdInt (n : Z).

(** [str(cell)], which is what [astype(str)] makes of a cell *)
Definition astype_str (c : id_cell) : string :=
  match c with
  | IdText s => s
  | IdInt n => NilZero.string_of_int (Z.to_int n)
  end.

(** [cell == participant_id] for a participant identifier that is a
    string: an integer is equal to no string. *)
Definition id_eqb (c : id_cell) (participant_id : string) : bool :=
  match c with
  | IdText s => String.eqb s participant_id
  | IdInt _ => false
  end.

(** A row of [sessions.csv] as it is loaded: [started_at_utc] is an
    instant. *)
Record RawSession : Type := {
  raw_session_id : string;
  raw_within_study_id : id_cell;
  raw_survey_name : string;
  started_at_utc : Z
}.

(** [pd.DataFrame()] *)
Definition no_frame {R : Type} : DataFrame R := {| columns := []; rows := [] |}.

(** The columns after [df[name] = ...]. *)
Definition with_column (name : string) (cols : list string) : list string :=
  if existsb (String.eqb name) cols then cols else (cols ++ [name])%list.

(** *** [get_valid_participants] *)

Definition get_valid_participants (sessions : DataFrame RawSession)
  : list string :=
  if negb (has_column "within_study_id" sessions)
     || Tagging.empty (rows sessions)
  then []
  else sorted (unique (map (fun s => astype_str (raw_within_study_id s))
                           (rows sessions))).

(** *** [filter_sessions_by_participant] *)

Definition filter_sessions_by_participant (sessions : DataFrame RawSession)
    (participant_id : option string) (tz : tzinfo) : DataFrame Session :=
  match participant_id with
  | None => no_frame
  | Some participant_id =>
      if negb (has_column "within_study_id" sessions) then no_frame
      else
        let df :=
          filter (fun s => id_eqb (raw_within_study_id s) participant_id)
                 (rows sessions) in
        if negb (has_column "started_at_utc" sessions) then no_frame
        else
          {| columns :=
               with_column "local_day"
                 (with_column "local_ts" (columns sessions));
             rows :=
               map (fun s =>
                      {| session_id := raw_session_id s;
                         within_study_id := astype_str (raw_within_study_id s);
                         survey_name := raw_survey_name s;
                         local_ts := {| instant := started_at_utc s;
                                        zone := tz |} |})
                   df |}
  end.

(** *** [get_rate_reason] and [get_rate_amount] *)

Definition get_rate_reason (rates : DataFrame Rate) (rate_id : string)
  : string :=
  if negb (has_column "id" rates)
     || negb (has_column "reason" rates)
     || df_empty rates
     || String.eqb rate_id ""
  then ""
  else
    match filter (fun r => String.eqb (Payments.rate_id r) rate_id)
                 (rows rates) with
    | r :: _ => reason r
    | [] => ""
    end.

Definition get_rate_amount (rates_df : DataFrame Rate) (rate_id : string)
  : PyFloat.float :=
  if df_empty rates_df
     || negb (has_column "id" rates_df)
     || negb (has_column "rate_amount" rates_df)
     || String.eqb rate_id ""
  then S754_zero false
  else
    match filter (fun r => String.eqb (Payments.rate_id r) rate_id)
                 (rows rates_df) with
    | r :: _ => rate_amount r
    | [] => S754_zero false
    end.

(** *** [perform_payment_calculations] *)

(** [pd.Series(values, index=keys).to_dict()] and a dictionary
    comprehension: a key met again takes the later value. *)
Definition to_dict {V : Type} (items : list (string * V)) : dict V :=
  fold_left (fun d kv => dict_set d (fst kv) (snd kv)) items [].

Definition perform_payment_calculations
    (all_sessions_df : option (DataFrame RawSession))
    (participant_id : option string) (rates_df : DataFrame Rate)
    (user_tz : tzinfo) : run (DataFrame Session * dict Z) :=
  match all_sessions_df, participant_id with
  | Some sessions, Some pid =>
      if df_empty rates_df then Done (no_frame, [])
      else
        let df_part :=
          filter_sessions_by_participant sessions (Some pid) user_tz in
        if negb (has_column "reason" rates_df) then Fail (KeyError "reason")
        else
          let auto_counts_dict :=
            to_dict (map (fun r => (r, 0))
                         (unique (map reason (rows rates_df)))) in
          if negb (df_empty df_part) then
            let auto_counts_table :=
              compute_base_rate_counts df_part rates_df in
            if negb (df_empty auto_counts_table) then
              Done (df_part,
                    to_dict (map (fun row => (rc_rate_reason row, rc_count row))
                                 (rows auto_counts_table)))
            else Done (df_part, auto_counts_dict)
          else Done (df_part, auto_counts_dict)
  | _, _ => Done (no_frame, [])
  end.

Section Machine.

(** The zone of the machine, as in [Payments]. *)
Variable mktime : Z -> Z.

(** *** [has_sessions_after_end] *)

Definition has_sessions_after_end (sessions : DataFrame Session)
    (start_date : date) (days : Z) (tz : tzinfo) : bool :=
  if negb (has_column "local_ts" sessions) || df_empty sessions then false
  else
    let end_dt_inclusive :=
      combine_astimezone mktime (start_date + (days - 1)) time_max tz in
    existsb (fun s => instant end_dt_inclusive <? instant (local_ts s))
            (rows sessions).

End Machine.

Section Tab.

(** The zone of the machine, the instant of the call and the regular
    expressions, as in [Payments]. *)
Variable mktime : Z -> Z.
Variable now : Z.
Variable re_compile_ignorecase : string -> exc (string -> bool).

(** *** The numbers of a schema tab in [render_compliance_charts_ui]

    The body of the loop over the schemas, up to the numbers that the tab
    shows: the bonus days, the possible and the completed sessions. *)
Definition schema_tab_numbers (df_part : DataFrame Session)
    (rates_df : DataFrame Rate) (start_date : date) (user_tz : tzinfo)
    (schema_row : Schema) : exc (Z * (Z * Z)) :=
  let days := num_days schema_row in
  let threshold := bonus_threshold schema_row in
  let rate_id_for_reason := schema_rate_id schema_row in
  let reason := get_rate_reason rates_df rate_id_for_reason in
  daily <-
    compute_daily_counts mktime re_compile_ignorecase df_part start_date
      days user_tz
      (match reason with
       | EmptyString => None
       | _ => Some reason
       end) ;;
  let bonus_days_achieved := compute_bonus_days daily threshold in
  Ok (bonus_days_achieved,
      compute_stats now start_date user_tz schema_row daily).

End Tab.

(** *** The participant that [render_participant_and_settings_ui] selects

    The identifier chosen from the text typed in the input field. *)
Definition selected_participant (valid_ids : list string)
    (participant_input_val : string) : option string :=
  match participant_input_val with
  | EmptyString => None
  | _ =>
      let matched_ids :=
        filter (fun pid => PyStr.contains (PyStr.lower participant_input_val)
                                          (PyStr.lower pid))
               valid_ids in
      match matched_ids with
      | [pid] => Some pid
      | _ => None
      end
  end.

(** *** Notions used to state the properties *)

(** The sessions of a participant whose survey name contains the reason,
    whatever the case of the letters. *)
Definition session_for (pid reason : string) (s : RawSession) : Prop :=
  raw_within_study_id s = IdText pid
  /\ contains_ci reason (raw_survey_name s).

(** The order of the code points on strings. *)
Definition str_le (a b : string) : Prop := String.leb a b = true.

(** *** Inputs of the examples *)

Definition raw_columns : list string :=
  ["session_id"; "within_study_id"; "survey_name"; "started_at_utc"].

Definition raw_session (pid name : string) (utc_instant : Z) : RawSession :=
  {| raw_session_id := "s"; raw_within_study_id := IdText pid;
     raw_survey_name := name; started_at_utc := utc_instant |}.

(** A session of a table whose identifiers are all numbers. *)
Definition numbered_session (pid : Z) (name : string) (utc_instant : Z)
  : RawSession :=
  {| raw_session_id := "s"; raw_within_study_id := IdInt pid;
     raw_survey_name := name; started_at_utc := utc_instant |}.

Definition raw_frame (l : list RawSession) : DataFrame RawSession :=
  {| columns := raw_columns; rows := l |}.

End PaymentsFlow.

(** * Properties of lists *)

Module ListFacts.

Lemma filter_none {A : Type} (f : A -> bool) (l : list A) :
  (forall a, In a l -> f a = false) -> filter f l = [].
Proof.
  induction l as [|a l IH]; intros H; cbn [filter]; [reflexivity|].
  rewrite (H a (or_introl eq_refl)). apply IH.
  intros a' Hin. apply H. now right.
Qed.

Lemma filter_all {A : Type} (f : A -> bool) (l : list A) :
  (forall a, f a = true) -> filter f l = l.
Proof.
  intros H. induction l as [|a l IH]; cbn [filter]; [reflexivity|].
  now rewrite H, IH.
Qed.

Lemma filter_filter {A : Type} (f g : A -> bool) (l : list A) :
  filter f (filter g l) = filter (fun a => g a && f a) l.
Proof.
  induction l as [|a l IH]; cbn [filter]; [reflexivity|].
  destruct (g a); cbn [filter andb]; [destruct (f a)|]; now rewrite IH.
Qed.

Lemma existsb_Permutation {A : Type} (f : A -> bool) (l l' : list A) :
  Permutation l l' -> existsb f l = existsb f l'.
Proof.
  intros Hperm. apply eq_true_iff_eq. rewrite !existsb_exists.
  split; intros [x [Hin Hx]]; exists x; split; try assumption.
  - now apply (Permutation_in _ Hperm).
  - now apply (Permutation_in _ (Permutation_sym Hperm)).
Qed.

Lemma filter_Permutation {A : Type} (f : A -> bool) (l l' : list A) :
  Permutation l l' -> Permutation (filter f l) (filter f l').
Proof.
  induction 1 as [|a l l' _ IH|a b l|l l' l'' _ IH1 _ IH2]; cbn [filter].
  - constructor.
  - destruct (f a); [now constructor|assumption].
  - destruct (f a), (f b); try apply Permutation_refl; now constructor.
  - now transitivity (filter f l').
Qed.

End ListFacts.

(** * Properties of the string functions *)

Module PyStrTheory.

Import PyStr.

Local Open Scope string_scope.

Lemma append_assoc (s t u : string) : (s ++ t) ++ u = s ++ t ++ u.
Proof.
  induction s as [|c s IH]; cbn; [reflexivity|now rewrite IH].
Qed.

Lemma last_char_from_app (c c' : ascii) (s t : string) :
  last_char_from c (s ++ String c' t) = last_char_from c' t.
Proof.
  revert c. induction s as [|a s IH]; intros c; cbn; [reflexivity|apply IH].
Qed.

Lemma drop_last_snoc (s : string) (c : ascii) :
  drop_last (s ++ String c "") = s.
Proof.
  induction s as [|a s IH]; [reflexivity|].
  cbn [append drop_last]. rewrite IH.
  destruct s; reflexivity.
Qed.

Lemma split_go_free (sep : ascii) (s : string) :
  free_of sep s = true -> split_go sep s = (s, []).
Proof.
  induction s as [|c s IH]; cbn; [reflexivity|].
  intros H. apply andb_true_iff in H. destruct H as [Hc Hs].
  rewrite (IH Hs). apply negb_true_iff in Hc. now rewrite Hc.
Qed.

Lemma split_two (sep : ascii) (s t : string) :
  free_of sep s = true -> free_of sep t = true ->
  split sep (s ++ String sep t) = [s; t].
Proof.
  intros Hs Ht. unfold split.
  enough (H : split_go sep (s ++ String sep t) = (s, [t])) by now rewrite H.
  induction s as [|c s IH]; cbn.
  - rewrite (split_go_free _ _ Ht), Ascii.eqb_refl. reflexivity.
  - cbn in Hs. apply andb_true_iff in Hs. destruct Hs as [Hc Hs].
    rewrite (IH Hs). apply negb_true_iff in Hc. now rewrite Hc.
Qed.

(** [prefix] and [contains] decide what their names say. *)
Lemma prefix_spec (p s : string) :
  prefix p s = true <-> exists t, s = p ++ t.
Proof.
  revert s. induction p as [|a p IH]; intros s.
  - destruct s; cbn; split; eauto.
  - destruct s as [|b s]; cbn.
    + split; [discriminate|]. intros [t H]. discriminate.
    + destruct (ascii_dec a b) as [->|Hne].
      * rewrite IH. split; intros [t H]; exists t; congruence.
      * split; [discriminate|]. intros [t H]. congruence.
Qed.

Lemma contains_spec (needle hay : string) :
  contains needle hay = true
  <-> exists before after, hay = before ++ needle ++ after.
Proof.
  induction hay as [|c hay IH]; cbn [contains].
  - destruct (prefix needle "") eqn:Hp.
    + split; [|reflexivity]. intros _.
      apply prefix_spec in Hp. destruct Hp as [t Ht]. now exists "", t.
    + split; [discriminate|]. intros [before [after H]].
      destruct before; [|discriminate]. cbn in H.
      assert (Hp' : prefix needle "" = true) by (apply prefix_spec; eauto).
      congruence.
  - destruct (prefix needle (String c hay)) eqn:Hp.
    + split; [|reflexivity]. intros _.
      apply prefix_spec in Hp. destruct Hp as [t Ht]. now exists "", t.
    + rewrite IH. split.
      * intros [before [after H]]. exists (String c before), after.
        cbn. now rewrite H.
      * intros [before [after H]]. destruct before as [|b before].
        -- cbn in H.
           assert (Hp' : prefix needle (String c hay) = true)
             by (apply prefix_spec; eauto).
           congruence.
        -- cbn in H. injection H as _ H. eauto.
Qed.

End PyStrTheory.

(** * Properties of the tagging engine *)

Module TaggingTheory.

Import Tagging.

(** ** The operators *)

Lemma evaluate_condition_logic_holds (value : pyval) (op : string)
    (target : pyval) :
  evaluate_condition_logic value op target = Ok (holds value op target).
Proof.
  unfold holds, evaluate_condition_logic.
  destruct (dict_get ops op) as [func|]; [|reflexivity].
  destruct (func value target); reflexivity.
Qed.

Lemma dict_get_ops_supported (op : string) :
  ~ In op supported_operators -> dict_get ops op = None.
Proof.
  intros Hout. unfold ops. cbn [dict_get].
  repeat match goal with
         | |- context [String.eqb ?k op] =>
             destruct (String.eqb_spec k op) as [Heq|_];
             [exfalso; apply Hout; rewrite <- Heq; cbn; tauto|]
         end.
  reflexivity.
Qed.

Lemma str2float_idempotent (x : pyval) : str2float (str2float x) = str2float x.
Proof.
  destruct x as [s|f]; [|reflexivity].
  unfold str2float. cbn [py_float].
  destruct (PyFloat.of_string s) eqn:Hs; cbn [py_float]; [reflexivity|].
  now rewrite Hs.
Qed.

(** ** The loop over the responses *)

Section Loop.

Variables (op : string) (skip_true : bool) (target : pyval).

(** The loop under an invariant of [target] that keeps the verdict of
    every response that is tested. *)
Lemma eval_responses_same_verdicts (Inv : pyval -> Prop)
    (sub : list Response) :
  (forall t r, Inv t -> In r sub -> live r = true ->
     holds (str2float (content r)) op (carried op t r)
     = holds (str2float (content r)) op (target_for op target r)
     /\ Inv (carried op t r)) ->
  forall t, Inv t ->
    eval_responses op skip_true t sub
    = Ok (existsb (fires skip_true op target) sub).
Proof.
  induction sub as [|r rest IH]; intros Hstep t Ht; [reflexivity|].
  assert (Hrest : forall t' r', Inv t' -> In r' rest -> live r' = true ->
            holds (str2float (content r')) op (carried op t' r')
            = holds (str2float (content r')) op (target_for op target r')
            /\ Inv (carried op t' r'))
    by (intros t' r' Ht' Hin; apply Hstep; [assumption|now right]).
  cbn [eval_responses existsb]. unfold fires at 1.
  destruct (skipped r) eqn:Hsk.
  - destruct skip_true eqn:Hst; [reflexivity|]. cbn [orb]. now apply IH.
  - destruct (not_seen r) eqn:Hns.
    + cbn [orb]. now apply IH.
    + destruct (Hstep t r Ht (or_introl eq_refl)) as [Hcar Hinv].
      { unfold live. now rewrite Hsk, Hns. }
      fold (carried op t r).
      rewrite evaluate_condition_logic_holds, Hcar. clear Hcar.
      cbn [bind].
      destruct (holds (str2float (content r)) op (target_for op target r));
        [reflexivity|].
      cbn [orb]. now apply IH.
Qed.

Lemma eval_responses_invariant (Inv : pyval -> Prop) (sub : list Response) :
  (forall t r, Inv t -> In r sub -> live r = true ->
     carried op t r = target_for op target r /\ Inv (carried op t r)) ->
  forall t, Inv t ->
    eval_responses op skip_true t sub
    = Ok (existsb (fires skip_true op target) sub).
Proof.
  intros Hstep. apply eval_responses_same_verdicts.
  intros t r Ht Hin Hlive. destruct (Hstep t r Ht Hin Hlive) as [Heq Hinv].
  split; [now rewrite Heq|exact Hinv].
Qed.

End Loop.

(** A text answer against a value and against the number it reads as. *)
Lemma holds_value_blind (op : string) (s : string) (target : pyval) :
  value_blind op -> PyFloat.of_string s = None ->
  holds (PStr s) op (str2float target) = holds (PStr s) op target.
Proof.
  intros Hblind Hs. destruct target as [w|f]; [|reflexivity].
  unfold str2float. cbn [py_float].
  destruct (PyFloat.of_string w) as [f|] eqn:Hw; [|reflexivity].
  assert (Hne : String.eqb s w = false)
    by (apply String.eqb_neq; intros ->; congruence).
  unfold holds, evaluate_condition_logic.
  destruct Hblind as [Hin | Hout].
  - cbn [In] in Hin.
    destruct Hin as [<- | [<- | [<- | [<- | []]]]];
      cbn [dict_get ops String.eqb Ascii.eqb Bool.eqb try_except];
      unfold py_ne, py_eq; rewrite ?Hne; reflexivity.
  - now rewrite (dict_get_ops_supported op Hout).
Qed.

Lemma eval_responses_carry_free (cond : Condition) (skip_true : bool)
    (sub : list Response) :
  carry_free cond sub ->
  eval_responses (operator cond) skip_true (value cond) sub
  = Ok (existsb (fires skip_true (operator cond) (value cond)) sub).
Proof.
  unfold carry_free.
  intros [Hop | [Hfix | [Hnum | [Hstr | Hblind]]]].
  - apply eval_responses_invariant with (Inv := fun t => t = value cond);
      [|reflexivity].
    intros t r -> _ _. unfold carried, target_for. rewrite Hop. now split.
  - apply eval_responses_invariant with (Inv := fun t => t = value cond);
      [|reflexivity].
    intros t r -> _ _. unfold carried, target_for, numeric. rewrite Hfix.
    destruct (_ && _); now split.
  - destruct (String.eqb (operator cond) "between") eqn:Hop.
    + apply eval_responses_invariant with (Inv := fun t => t = value cond);
        [|reflexivity].
      intros t r -> _ _. unfold carried, target_for. rewrite Hop. now split.
    + apply eval_responses_invariant
        with (Inv := fun t => t = value cond \/ t = str2float (value cond));
        [|now left].
      intros t r Ht Hin Hlive. unfold carried, target_for.
      generalize (Hnum r Hin Hlive). unfold numeric. intros ->.
      rewrite Hop. cbn [negb andb].
      destruct Ht as [-> | ->]; rewrite ?str2float_idempotent; split; auto.
  - apply eval_responses_invariant with (Inv := fun t => t = value cond);
      [|reflexivity].
    intros t r -> Hin Hlive. unfold carried, target_for.
    generalize (Hstr r Hin Hlive). unfold numeric. intros ->.
    rewrite andb_false_r. now split.
  - apply eval_responses_same_verdicts
      with (Inv := fun t => t = value cond \/ t = str2float (value cond));
      [|now left].
    intros t r Ht _ _. unfold carried, target_for, numeric.
    destruct (negb (String.eqb (operator cond) "between")) eqn:Hop;
      cbn [andb].
    + destruct (str2float (content r)) as [s|f] eqn:Hc; cbn [is_float].
      * assert (Hs : PyFloat.of_string s = None).
        { destruct (content r) as [s'|f']; unfold str2float in Hc;
            cbn [py_float] in Hc; [|discriminate].
          destruct (PyFloat.of_string s') eqn:Hs'; [discriminate|].
          injection Hc as <-. exact Hs'. }
        split; [|exact Ht].
        destruct Ht as [-> | ->]; [reflexivity|].
        now apply holds_value_blind.
      * destruct Ht as [-> | ->]; rewrite ?str2float_idempotent;
          split; auto.
    + split; [|exact Ht]. apply negb_false_iff, String.eqb_eq in Hop.
      exfalso. destruct Hblind as [Hin | Hout].
      * rewrite Hop in Hin. cbn [In] in Hin.
        repeat (destruct Hin as [Hin|Hin]; [discriminate|]). exact Hin.
      * apply Hout. rewrite Hop. cbn. tauto.
Qed.

Lemma eval_single_condition_carry_free (cond : Condition)
    (rs : list Response) (qs : list string) :
  carry_free cond (relevant qs rs) ->
  eval_single_condition cond rs qs
  = Ok ((String.eqb (operator cond) "empty" && empty (relevant qs rs))
        || existsb (fires (String.eqb (skip_behavior cond) "1")
                      (operator cond) (value cond))
             (relevant qs rs)).
Proof.
  intros Hfree. unfold eval_single_condition. fold (relevant qs rs).
  destruct (_ && _); [reflexivity|].
  now rewrite eval_responses_carry_free.
Qed.

(** ** Permutations of the responses *)


Lemma empty_Permutation {A : Type} (l l' : list A) :
  Permutation l l' -> empty l = empty l'.
Proof.
  intros Hperm. destruct l as [|a l], l' as [|a' l']; try reflexivity.
  - now apply Permutation_nil in Hperm.
  - now apply Permutation_sym, Permutation_nil in Hperm.
Qed.



Lemma relevant_nil_no_question (qs : list string) (rs : list Response) :
  relevant qs rs = [] <->
  (forall r, In r rs -> isin (question_name r) qs = false).
Proof.
  unfold relevant. induction rs as [|r rs IH]; cbn [filter].
  - split; [intros _ r []|reflexivity].
  - destruct (isin (question_name r) qs) eqn:Hq.
    + split; [discriminate|].
      intros H. rewrite (H r (or_introl eq_refl)) in Hq. discriminate.
    + rewrite IH. split.
      * intros H r' [<-|Hin]; auto.
      * intros H r' Hin. apply H. now right.
Qed.

(** ** C1: one condition over several responses *)




(** ** C4: the [between] operator *)

Lemma handle_between_range_string (v flo fhi : PyFloat.float)
    (c_lo c_hi : ascii) (lo hi : string) :
  PyStr.free_of ","%char lo = true ->
  PyStr.free_of ","%char hi = true ->
  PyFloat.of_string lo = Some flo ->
  PyFloat.of_string hi = Some fhi ->
  handle_between (PFloat v) (PStr (range_string c_lo lo hi c_hi))
  = Ok ((if Ascii.eqb c_lo "["%char then PyFloat.geb v flo
         else PyFloat.gtb v flo)
        && (if Ascii.eqb c_hi "]"%char then PyFloat.leb v fhi
            else PyFloat.ltb v fhi)).
Proof.
  intros Hlo Hhi Hflo Hfhi.
  unfold handle_between, range_string.
  cbn [PyStr.first_char PyStr.last_char PyStr.slice_1_m1 bind].
  change ("," ++ hi ++ String c_hi "")%string
    with (String ","%char (hi ++ String c_hi ""))%string.
  rewrite !PyStrTheory.last_char_from_app. cbn [PyStr.last_char_from].
  replace (lo ++ String ","%char (hi ++ String c_hi ""))%string
    with ((lo ++ String ","%char hi) ++ String c_hi "")%string
    by (rewrite PyStrTheory.append_assoc; reflexivity).
  rewrite PyStrTheory.drop_last_snoc.
  rewrite (PyStrTheory.split_two _ _ _ Hlo Hhi).
  cbn [py_float]. rewrite Hflo, Hfhi. cbn [bind].
  destruct (Ascii.eqb c_lo "["), (Ascii.eqb c_hi "]"); reflexivity.
Qed.

(** C4.  [handle_between] reads a range string made of an opening bracket,
    two bounds separated by a comma and a closing bracket, and tests each
    bound on its own: an opening square bracket makes the lower bound
    inclusive and a closing one the upper bound, any other bracket makes
    the bound exclusive.  So 1.0 is in [[1,5]] and not in [(1,5)], 5.0 is
    not in [[1,5)], and 2.5 is in [(1,5)]. *)
Theorem handle_between_brackets :
  (forall (v flo fhi : PyFloat.float) (lo hi : string),
     PyStr.free_of ","%char lo = true ->
     PyStr.free_of ","%char hi = true ->
     PyFloat.of_string lo = Some flo ->
     PyFloat.of_string hi = Some fhi ->
     handle_between (PFloat v) (PStr (range_string "[" lo hi "]"))
     = Ok (PyFloat.geb v flo && PyFloat.leb v fhi)
     /\ handle_between (PFloat v) (PStr (range_string "[" lo hi ")"))
        = Ok (PyFloat.geb v flo && PyFloat.ltb v fhi)
     /\ handle_between (PFloat v) (PStr (range_string "(" lo hi "]"))
        = Ok (PyFloat.gtb v flo && PyFloat.leb v fhi)
     /\ handle_between (PFloat v) (PStr (range_string "(" lo hi ")"))
        = Ok (PyFloat.gtb v flo && PyFloat.ltb v fhi))
  /\ handle_between f1_0 (PStr "[1,5]") = Ok true
  /\ handle_between f5_0 (PStr "[1,5)") = Ok false
  /\ handle_between f1_0 (PStr "(1,5)") = Ok false
  /\ handle_between f2_5 (PStr "(1,5)") = Ok true.
Proof.
  split.
  - intros v flo fhi lo hi Hlo Hhi Hflo Hfhi.
    repeat split;
      rewrite (handle_between_range_string v flo fhi _ _ lo hi
                 Hlo Hhi Hflo Hfhi);
      reflexivity.
  - repeat split; vm_compute; reflexivity.
Qed.

Lemma handle_between_brackets_witness :
  handle_between (PFloat (PyFloat.dyadic 3 0)) (PStr "[2.5,3)") = Ok false
  /\ handle_between (PFloat (PyFloat.dyadic 3 0)) (PStr "(2.5,3]") = Ok true.
Proof.
  destruct handle_between_brackets as [Hgen _].
  destruct (Hgen (PyFloat.dyadic 3 0) (PyFloat.dyadic 5 (-1))
              (PyFloat.dyadic 3 0) "2.5" "3")
    as [_ [Hco [Hoc _]]]; try reflexivity.
  split; [exact Hco|exact Hoc].
Defined.

(** ** C5: empty collections *)

(** C5.  A condition with the operator [empty] that reads no response is
    true; a group without conditions is true under [AND] and false under
    [OR]; a workflow without groups is false, whatever its operator. *)
Theorem empty_collections :
  (forall cond rs qs,
     operator cond = "empty" ->
     (forall r, In r rs -> isin (question_name r) qs = false) ->
     eval_single_condition cond rs qs = Ok true)
  /\ (forall group conditions cond_questions rs,
        (forall c, In c conditions -> cond_group_id c <> group_id group) ->
        (group_logical_operator group = "AND" ->
         eval_condition_group group conditions cond_questions rs = Ok true)
        /\ (group_logical_operator group = "OR" ->
            eval_condition_group group conditions cond_questions rs
            = Ok false))
  /\ (forall workflow_row groups conditions cond_questions rs,
        (forall g, In g groups ->
                   group_workflow_id g <> workflow_id workflow_row) ->
        eval_workflow workflow_row groups conditions cond_questions rs
        = Ok false).
Proof.
  split; [|split].
  - intros cond rs qs Hop Hnone. unfold eval_single_condition.
    rewrite Hop. fold (relevant qs rs).
    apply relevant_nil_no_question in Hnone. rewrite Hnone. reflexivity.
  - intros group conditions cond_questions rs Hnone.
    unfold eval_condition_group.
    rewrite ListFacts.filter_none
      by (intros c Hin; apply String.eqb_neq; now apply Hnone).
    cbn [mapM bind].
    split; intros ->; reflexivity.
  - intros workflow_row groups conditions cond_questions rs Hnone.
    unfold eval_workflow.
    rewrite ListFacts.filter_none
      by (intros g Hin; apply String.eqb_neq; now apply Hnone).
    reflexivity.
Qed.

Lemma empty_collections_witness :
  eval_single_condition (condition "empty" (PFloat PyFloat.nan) "0")
    [answer "other" "3"] ["q"] = Ok true
  /\ eval_condition_group
       {| group_id := "g2"; group_workflow_id := "w1";
          group_logical_operator := "AND" |}
       [condition "==" (PStr "0") "0"] [] [answer "q" "0"] = Ok true
  /\ eval_condition_group
       {| group_id := "g2"; group_workflow_id := "w1";
          group_logical_operator := "OR" |}
       [condition "==" (PStr "0") "0"] [] [answer "q" "0"] = Ok false
  /\ eval_workflow
       {| workflow_id := "w2"; workflow_type := "1";
          workflow_logical_operator := "AND"; workflow_tag_id := "t" |}
       [{| group_id := "g1"; group_workflow_id := "w1";
           group_logical_operator := "AND" |}]
       [condition "==" (PStr "0") "0"] [] [answer "q" "0"] = Ok false.
Proof.
  destruct empty_collections as [Hcond [Hgroup Hwf]].
  split; [|split; [|split]].
  - apply Hcond; [reflexivity|].
    intros r [<-|[]]. reflexivity.
  - apply Hgroup; [|reflexivity].
    intros c [<-|[]]. discriminate.
  - apply Hgroup; [|reflexivity].
    intros c [<-|[]]. discriminate.
  - apply Hwf. intros g [<-|[]]. discriminate.
Defined.

(** ** C6: skipped and unseen responses *)

Lemma eval_responses_skipped_true (op : string) (target : pyval)
    (sub : list Response) :
  (exists r, In r sub /\ skipped r = true) ->
  eval_responses op true target sub = Ok true.
Proof.
  intros [r [Hin Hsk]]. revert target.
  induction sub as [|r' rest IH]; intros target; [destruct Hin|].
  cbn [eval_responses].
  destruct (skipped r') eqn:Hsk'; [reflexivity|].
  destruct Hin as [-> | Hin]; [congruence|].
  destruct (not_seen r'); [now apply IH|].
  rewrite evaluate_condition_logic_holds. cbn [bind].
  destruct (holds _ _ _); [reflexivity|now apply IH].
Qed.

Lemma eval_responses_passed_over (op : string) (skip_true : bool)
    (target : pyval) (sub : list Response) :
  eval_responses op skip_true target
    (filter (fun r => negb (passed_over skip_true r)) sub)
  = eval_responses op skip_true target sub.
Proof.
  revert target. induction sub as [|r rest IH]; intros target; [reflexivity|].
  cbn [filter]. unfold passed_over at 1.
  destruct (skipped r) eqn:Hsk.
  - destruct skip_true; cbn [negb eval_responses]; rewrite Hsk.
    + reflexivity.
    + apply IH.
  - destruct (not_seen r) eqn:Hns; cbn [negb eval_responses];
      rewrite Hsk, Hns.
    + apply IH.
    + destruct (evaluate_condition_logic _ _ _) as [[|]|e]; cbn [bind];
        [reflexivity|apply IH|reflexivity].
Qed.

Lemma relevant_filter (qs : list string) (f : Response -> bool)
    (rs : list Response) :
  relevant qs (filter f rs) = filter f (relevant qs rs).
Proof.
  unfold relevant. induction rs as [|r rs IH]; cbn [filter]; [reflexivity|].
  destruct (f r) eqn:Hf, (isin (question_name r) qs) eqn:Hq;
    cbn [filter]; rewrite ?Hf, ?Hq, IH; reflexivity.
Qed.

(** C6, amended.  When skipped counts as true, a skipped response that the
    condition reads makes [eval_single_condition] true, and the loop ends
    at it.  A skipped response when skipped does not count as true, and an
    unseen response that is not skipped, are passed over by the loop:
    taking them away does not change the result, provided that the
    operator is not [empty] or that a response is left.  When the only
    response read is skipped, the result is the skip flag, for every
    operator. *)
Theorem skipped_and_unseen_responses :
  (forall cond rs qs r,
     In r (relevant qs rs) -> skipped r = true ->
     skip_behavior cond = "1" ->
     eval_single_condition cond rs qs = Ok true)
  /\ (forall op target r rest,
        skipped r = true ->
        eval_responses op true target (r :: rest) = Ok true)
  /\ (forall cond rs qs,
        let skip_true := String.eqb (skip_behavior cond) "1" in
        let kept := filter (fun r => negb (passed_over skip_true r)) rs in
        operator cond <> "empty" \/ relevant qs kept <> [] ->
        eval_single_condition cond rs qs = eval_single_condition cond kept qs)
  /\ (forall cond rs qs r,
        relevant qs rs = [r] -> skipped r = true ->
        eval_single_condition cond rs qs
        = Ok (String.eqb (skip_behavior cond) "1")).
Proof.
  split; [|split; [|split]].
  - intros cond rs qs r Hin Hsk Hflag. unfold eval_single_condition.
    fold (relevant qs rs). rewrite Hflag. cbn [String.eqb Ascii.eqb Bool.eqb].
    destruct (_ && _); [reflexivity|].
    apply eval_responses_skipped_true. eauto.
  - intros op target r rest Hsk. cbn [eval_responses]. now rewrite Hsk.
  - intros cond rs qs skip_true kept Hleft. unfold eval_single_condition.
    fold (relevant qs rs) (relevant qs kept) skip_true.
    assert (Hkept : relevant qs kept
                    = filter (fun r => negb (passed_over skip_true r))
                        (relevant qs rs))
      by apply relevant_filter.
    assert (Hguard : String.eqb (operator cond) "empty"
                     && empty (relevant qs rs) = false
                     /\ String.eqb (operator cond) "empty"
                        && empty (relevant qs kept) = false).
    { destruct Hleft as [Hop | Hne].
      - apply String.eqb_neq in Hop. now rewrite Hop.
      - assert (Hne' : relevant qs rs <> []).
        { intros Hnil. apply Hne. rewrite Hkept, Hnil. reflexivity. }
        destruct (relevant qs rs), (relevant qs kept); try congruence.
        now rewrite !andb_false_r. }
    destruct Hguard as [-> ->].
    rewrite Hkept. symmetry. apply eval_responses_passed_over.
  - intros cond rs qs r Hsub Hsk. unfold eval_single_condition.
    fold (relevant qs rs). rewrite Hsub. cbn [empty eval_responses].
    rewrite andb_false_r, Hsk.
    destruct (String.eqb (skip_behavior cond) "1"); reflexivity.
Qed.

Lemma skipped_and_unseen_responses_witness :
  eval_single_condition (condition "==" (PStr "0") "1")
    [answer "q" "4"; skipped_answer "q"] ["q"] = Ok true
  /\ eval_responses "==" true (PStr "0") [skipped_answer "q"; answer "q" "4"]
     = Ok true
  /\ eval_single_condition (condition "==" (PStr "0") "0")
       [skipped_answer "q"; unseen_answer "q"; answer "q" "0"] ["q"]
     = eval_single_condition (condition "==" (PStr "0") "0")
         [answer "q" "0"] ["q"]
  /\ eval_single_condition (condition "empty" (PFloat PyFloat.nan) "0")
       [skipped_answer "q"] ["q"] = Ok false.
Proof.
  destruct skipped_and_unseen_responses as [Hset [Hnow [Hdrop Honly]]].
  split; [|split; [|split]].
  - apply (Hset _ _ _ (skipped_answer "q")); [|reflexivity|reflexivity].
    right; left; reflexivity.
  - apply Hnow. reflexivity.
  - apply (Hdrop (condition "==" (PStr "0") "0")
             [skipped_answer "q"; unseen_answer "q"; answer "q" "0"] ["q"]).
    left. discriminate.
  - apply (Honly (condition "empty" (PFloat PyFloat.nan) "0")
             [skipped_answer "q"] ["q"] (skipped_answer "q"));
      reflexivity.
Defined.

(** C6 as it is stated fails for the operator [empty]: a response that is
    unseen, or skipped when skipped does not count as true, is not tested,
    but it is a response all the same, and with it the operator no longer
    finds the question unanswered.  It also fails for a response that is
    both skipped and unseen, which counts as skipped. *)
Lemma passed_over_response_counts_for_empty :
  eval_single_condition (condition "empty" (PFloat PyFloat.nan) "0")
    [] ["q"] = Ok true
  /\ eval_single_condition (condition "empty" (PFloat PyFloat.nan) "0")
       [unseen_answer "q"] ["q"] = Ok false
  /\ eval_single_condition (condition "empty" (PFloat PyFloat.nan) "0")
       [skipped_answer "q"] ["q"] = Ok false
  /\ eval_single_condition (condition "==" (PStr "0") "1") [] ["q"]
     = Ok false
  /\ eval_single_condition (condition "==" (PStr "0") "1")
       [{| question_name := "q"; content := PStr "SKIPPED";
           skipped := true; not_seen := true |}] ["q"] = Ok true.
Proof.
  repeat split.
Qed.

(** ** C7: no exception leaves [evaluate_condition_logic] *)

Lemma eval_responses_total (op : string) (skip_true : bool) (target : pyval)
    (sub : list Response) :
  exists b, eval_responses op skip_true target sub = Ok b.
Proof.
  revert target. induction sub as [|r rest IH]; intros target;
    cbn [eval_responses]; [now exists false|].
  destruct (skipped r); [destruct skip_true; [now exists true|apply IH]|].
  destruct (not_seen r); [apply IH|].
  rewrite evaluate_condition_logic_holds. cbn [bind].
  destruct (holds _ _ _); [now exists true|apply IH].
Qed.

(** C7.  [evaluate_condition_logic] returns a boolean for every value,
    operator name and target, and never raises: a name that is not in the
    dictionary gives [false], and so does every exception that the
    operator raises, such as a range string that cannot be read or an
    ordering between a string and a number.  The evaluation of a condition
    over the responses therefore never raises either. *)
Theorem evaluate_condition_logic_never_raises :
  (forall (value : pyval) (operator : string) (target : pyval),
     (exists b, evaluate_condition_logic value operator target = Ok b)
     /\ (~ In operator supported_operators ->
         evaluate_condition_logic value operator target = Ok false)
     /\ (forall func e,
           dict_get ops operator = Some func ->
           func value target = Raise e ->
           evaluate_condition_logic value operator target = Ok false))
  /\ (forall cond rs qs, exists b, eval_single_condition cond rs qs = Ok b)
  /\ (handle_between f1_0 (PStr "1,5") = Raise ValueError
      /\ evaluate_condition_logic f1_0 "between" (PStr "1,5") = Ok false)
  /\ (py_lt (PStr "abc") f1_0 = Raise TypeError
      /\ evaluate_condition_logic (PStr "abc") "<" f1_0 = Ok false).
Proof.
  split; [|split; [|split]].
  - intros value operator target. split; [|split].
    + exists (holds value operator target).
      apply evaluate_condition_logic_holds.
    + intros Hout. unfold evaluate_condition_logic.
      now rewrite (dict_get_ops_supported _ Hout).
    + intros func e Hget Hraise. unfold evaluate_condition_logic.
      now rewrite Hget, Hraise.
  - intros cond rs qs. unfold eval_single_condition.
    destruct (_ && _); [now exists true|apply eval_responses_total].
  - split; reflexivity.
  - split; reflexivity.
Qed.

Lemma evaluate_condition_logic_never_raises_witness :
  evaluate_condition_logic (PStr "3") "approx" (PStr "3") = Ok false
  /\ evaluate_condition_logic (PStr "x") "between" (PStr "[1,5]") = Ok false.
Proof.
  destruct evaluate_condition_logic_never_raises as [Hgen _].
  split.
  - apply (Hgen (PStr "3") "approx" (PStr "3")).
    cbn. intros H.
    repeat (destruct H as [H|H]; [discriminate|]). exact H.
  - apply (proj2 (proj2 (Hgen (PStr "x") "between" (PStr "[1,5]")))
             (fun val tgt => handle_between val tgt) TypeError);
      reflexivity.
Defined.

End TaggingTheory.

(** * Properties of the compliance and payment calculator *)

Module PaymentsTheory.

Import Payments.

(** ** Counting *)

Lemma size_cons {A : Type} (a : A) (l : list A) : size (a :: l) = size l + 1.
Proof.
  unfold size. cbn [List.length]. lia.
Qed.

Lemma size_filter_map {A B : Type} (f : B -> bool) (g : A -> B)
    (l : list A) :
  size (filter f (map g l)) = size (filter (fun a => f (g a)) l).
Proof.
  induction l as [|a l IH]; cbn [map filter]; [reflexivity|].
  destruct (f (g a)); rewrite ?size_cons, IH; reflexivity.
Qed.

Lemma counts_filter {A : Type} (P : A -> Prop) (f : A -> bool) (l : list A) :
  (forall a, f a = true <-> P a) -> counts P l (size (filter f l)).
Proof.
  intros Hf. induction l as [|a l IH]; cbn [filter]; [constructor|].
  destruct (f a) eqn:Ha.
  - rewrite size_cons. constructor; [now apply Hf|assumption].
  - constructor; [|assumption]. intros HP. apply Hf in HP. congruence.
Qed.

Lemma counts_unique {A : Type} (P : A -> Prop) (l : list A) (n m : Z) :
  counts P l n -> counts P l m -> n = m.
Proof.
  intros Hn. revert m.
  induction Hn as [|a l n Ha _ IH|a l n Ha _ IH]; intros m Hm;
    inversion Hm; subst; try contradiction; auto.
  f_equal. now apply IH.
Qed.

Lemma contains_ci_lower (pat name : string) :
  PyStr.contains (PyStr.lower pat) (PyStr.lower name) = true
  <-> contains_ci pat name.
Proof.
  apply PyStrTheory.contains_spec.
Qed.

(** ** C3: possible and completed sessions *)

Lemma int64_small (z : Z) : - 2 ^ 63 <= z < 2 ^ 63 -> int64 z = z.
Proof.
  intros Hz. unfold int64. rewrite Z.mod_small; lia.
Qed.

Lemma int64_add_l (a b : Z) : int64 (int64 a + b) = int64 (a + b).
Proof.
  unfold int64. f_equal.
  replace ((a + 2 ^ 63) mod 2 ^ 64 - 2 ^ 63 + b + 2 ^ 63)
    with ((a + 2 ^ 63) mod 2 ^ 64 + b) by lia.
  rewrite Zplus_mod_idemp_l. f_equal. lia.
Qed.

(** The additions of [Series.sum] wrap one by one; the result is the sum
    of the column as a signed integer of 64 bits. *)
Lemma sum_int64 (l : list Z) : sum l = int64 (fold_right Z.add 0 l).
Proof.
  unfold sum.
  assert (H : forall acc,
            fold_left (fun acc x => int64 (acc + x)) l (int64 acc)
            = int64 (acc + fold_right Z.add 0 l)).
  { induction l as [|x l IH]; intros acc; cbn [fold_left fold_right].
    - now rewrite Z.add_0_r.
    - rewrite int64_add_l, IH. f_equal. lia. }
  exact (H 0).
Qed.

(** C3, amended.  With the day of the call as [today], [compute_stats]
    returns as possible the elapsed days times the sessions possible per
    day, and as completed the sum of the counts of the first elapsed rows
    as the int64 column adds them: the sum itself when it lies between
    [-2^63] and [2^63 - 1], and otherwise the sum reduced to that range
    modulo [2^64].  The elapsed days are
    [min(num_days, today - start_date + 1)], and 0 when that is negative.
    Both numbers are 0 when [today] is before the start date; with 10 days
    of 1 session, 6 are possible 5 days after the start and 10 once the
    window is over. *)
Theorem compute_stats_elapsed_days (now : Z) (start_date : date)
    (tz : tzinfo) (schema_row : Schema) (daily : DataFrame DailyRow) :
  has_column "count" daily = true ->
  let today := local_date {| instant := now; zone := tz |} in
  let elapsed := days_elapsed today start_date schema_row in
  let counted :=
    fold_right Z.add 0
      (map count (firstn (Z.to_nat elapsed) (rows daily))) in
  compute_stats now start_date tz schema_row daily
  = (elapsed * num_possible_per_day schema_row,
     (counted + 2 ^ 63) mod 2 ^ 64 - 2 ^ 63)
  /\ (- 2 ^ 63 <= counted < 2 ^ 63 ->
      compute_stats now start_date tz schema_row daily
      = (elapsed * num_possible_per_day schema_row, counted))
  /\ (today < start_date ->
      compute_stats now start_date tz schema_row daily = (0, 0))
  /\ (num_days schema_row = 10 -> num_possible_per_day schema_row = 1 ->
      (today = start_date + 5 ->
       fst (compute_stats now start_date tz schema_row daily) = 6)
      /\ (start_date + 9 <= today ->
          fst (compute_stats now start_date tz schema_row daily) = 10)).
Proof.
  intros Hcol today elapsed counted.
  assert (Hmain : compute_stats now start_date tz schema_row daily
                  = (elapsed * num_possible_per_day schema_row,
                     (counted + 2 ^ 63) mod 2 ^ 64 - 2 ^ 63)).
  { unfold compute_stats. fold today. rewrite Hcol. cbn [andb].
    assert (Hel : (if Z.min (today - start_date + 1) (num_days schema_row) <? 0
                   then 0
                   else Z.min (today - start_date + 1) (num_days schema_row))
                  = elapsed).
    { unfold elapsed, days_elapsed.
      destruct (Z.ltb_spec (Z.min (today - start_date + 1)
                              (num_days schema_row)) 0); lia. }
    rewrite Hel. f_equal.
    unfold df_empty. unfold has_column in Hcol.
    destruct (columns daily) as [|c cs]; [discriminate|].
    destruct (rows daily) as [|r rs] eqn:Hrows; cbn [negb].
    - unfold counted. rewrite firstn_nil. reflexivity.
    - rewrite sum_int64. reflexivity. }
  split; [exact Hmain|]. split; [|split].
  - intros Hrange. rewrite Hmain. f_equal.
    exact (int64_small counted Hrange).
  - intros Hbefore. rewrite Hmain.
    assert (Hz : elapsed = 0) by (unfold elapsed, days_elapsed; lia).
    unfold counted. rewrite Hz. reflexivity.
  - intros Hdays Hper. rewrite Hmain. cbn [fst]. rewrite Hper.
    unfold elapsed, days_elapsed. rewrite Hdays. split; intros; lia.
Qed.

Lemma compute_stats_elapsed_days_witness :
  compute_stats (combine (ymd 2025 5 9) (12 * hour_us)) (ymd 2025 5 10)
    (fixed_offset 0) schema_10_1 (counts_frame [1; 0; 2]) = (0, 0)
  /\ compute_stats (combine (ymd 2025 5 6) (9 * hour_us)) (ymd 2025 5 1)
       (fixed_offset 0) schema_10_1 (counts_frame [1; 0; 2]) = (6, 3)
  /\ compute_stats (combine (ymd 2025 5 20) 0) (ymd 2025 4 1)
       (fixed_offset 0) schema_10_1 (counts_frame [1; 0; 2]) = (10, 3).
Proof.
  split; [|split].
  - apply (proj1 (proj2 (proj2 (compute_stats_elapsed_days
                                  (combine (ymd 2025 5 9) (12 * hour_us))
                                  (ymd 2025 5 10) (fixed_offset 0)
                                  schema_10_1 (counts_frame [1; 0; 2])
                                  eq_refl)))).
    vm_compute. reflexivity.
  - apply (proj1 (proj2 (compute_stats_elapsed_days
                           (combine (ymd 2025 5 6) (9 * hour_us))
                           (ymd 2025 5 1) (fixed_offset 0) schema_10_1
                           (counts_frame [1; 0; 2]) eq_refl))).
    vm_compute. split; [discriminate|reflexivity].
  - apply (proj1 (proj2 (compute_stats_elapsed_days
                           (combine (ymd 2025 5 20) 0) (ymd 2025 4 1)
                           (fixed_offset 0) schema_10_1
                           (counts_frame [1; 0; 2]) eq_refl))).
    vm_compute. split; [discriminate|reflexivity].
Defined.

(** C3 as it is stated fails where the int64 additions overflow: of two
    counts [2^62], after two days and more, the completed sessions are
    [-2^63] and the sum of the two counts is [2^63]. *)
Lemma compute_stats_completed_wraps :
  compute_stats (combine (ymd 2025 5 6) (9 * hour_us)) (ymd 2025 5 1)
    (fixed_offset 0) schema_10_1 (counts_frame [2 ^ 62; 2 ^ 62])
  = (6, - 2 ^ 63)
  /\ days_elapsed (ymd 2025 5 6) (ymd 2025 5 1) schema_10_1 = 6
  /\ fold_right Z.add 0
       (map count (firstn 6 (rows (counts_frame [2 ^ 62; 2 ^ 62]))))
     = 2 ^ 63
  /\ snd (compute_stats (combine (ymd 2025 5 6) (9 * hour_us)) (ymd 2025 5 1)
            (fixed_offset 0) schema_10_1 (counts_frame [2 ^ 62; 2 ^ 62]))
     <> fold_right Z.add 0
          (map count (firstn 6 (rows (counts_frame [2 ^ 62; 2 ^ 62])))).
Proof.
  split; [|split; [|split]]; vm_compute; try reflexivity. discriminate.
Qed.

(** ** C9: bonus days *)

(** C9.  For a positive threshold [compute_bonus_days] returns the number
    of rows whose count is at least the threshold; it returns 0 when the
    threshold is 0 or negative and when the table has no rows.  The counts
    0, 1, 5, 2 give 2 bonus days for the threshold 2 and none for the
    threshold 0. *)
Theorem compute_bonus_days_threshold :
  (forall (daily_counts : DataFrame DailyRow) (threshold : Z),
     has_column "count" daily_counts = true ->
     (0 < threshold ->
      counts (fun r => threshold <= count r) (rows daily_counts)
        (compute_bonus_days daily_counts threshold))
     /\ (threshold <= 0 -> compute_bonus_days daily_counts threshold = 0)
     /\ (rows daily_counts = [] ->
         compute_bonus_days daily_counts threshold = 0))
  /\ compute_bonus_days (counts_frame [0; 1; 5; 2]) 2 = 2
  /\ compute_bonus_days (counts_frame [0; 1; 5; 2]) 0 = 0.
Proof.
  split; [|split; reflexivity].
  intros daily_counts threshold Hcol. unfold compute_bonus_days.
  rewrite Hcol. cbn [negb orb]. rewrite orb_false_r.
  split; [|split].
  - intros Hpos.
    destruct (Z.leb_spec threshold 0) as [Hle|_]; [lia|]. cbn [orb].
    unfold df_empty, has_column in *.
    destruct (columns daily_counts) as [|c cs]; [discriminate|].
    destruct (rows daily_counts) as [|r rs] eqn:Hrows; [constructor|].
    apply counts_filter. intros a. apply Z.leb_le.
  - intros Hle. apply Z.leb_le in Hle. now rewrite Hle.
  - intros Hrows. unfold df_empty. rewrite Hrows.
    destruct (threshold <=? 0); [reflexivity|].
    destruct (columns daily_counts); reflexivity.
Qed.

Lemma compute_bonus_days_threshold_witness :
  counts (fun r => 2 <= count r) (rows (counts_frame [0; 1; 5; 2]))
    (compute_bonus_days (counts_frame [0; 1; 5; 2]) 2)
  /\ compute_bonus_days (counts_frame [3; 4]) (-1) = 0
  /\ compute_bonus_days (counts_frame []) 2 = 0.
Proof.
  destruct compute_bonus_days_threshold as [Hgen _].
  split; [|split].
  - apply (Hgen (counts_frame [0; 1; 5; 2]) 2); reflexivity.
  - apply (proj1 (proj2 (Hgen (counts_frame [3; 4]) (-1) eq_refl))). lia.
  - apply (proj2 (proj2 (Hgen (counts_frame []) 2 eq_refl))). reflexivity.
Defined.

(** ** C8 and C10: sessions counted for a rate *)

Lemma rate_count_row (sessions : DataFrame Session) (rates : DataFrame Rate) :
  has_column "survey_name" sessions = true ->
  df_empty rates = false ->
  has_column "reason" rates = true ->
  has_column "rate_amount" rates = true ->
  rows (compute_base_rate_counts sessions rates)
  = map (fun r_row =>
           {| rc_rate_reason := reason r_row;
              rc_rate_amount := rate_amount r_row;
              rc_count :=
                match reason r_row with
                | EmptyString => 0
                | _ =>
                    size (filter
                            (fun s => PyStr.contains
                                        (PyStr.lower (reason r_row))
                                        (PyStr.lower (survey_name s)))
                            (rows sessions))
                end |})
        (rows rates).
Proof.
  intros Hname Hrates Hreason Hamount. unfold compute_base_rate_counts.
  rewrite Hname, Hrates, Hreason, Hamount. cbn [negb orb rows].
  apply map_ext. intros r_row. f_equal.
  destruct (reason r_row); [reflexivity|].
  apply size_filter_map.
Qed.

(** C8, amended.  For a sessions table with survey names and a rates table
    that is not empty, [compute_base_rate_counts] produces one row for each
    rate, in the order of the rates; for a rate whose reason is not the
    empty string, the count of that row is the number of sessions whose
    survey name contains the reason as a substring when letter case is
    ignored.  One session is counted under every rate that it matches. *)
Theorem compute_base_rate_counts_substring :
  (forall (sessions : DataFrame Session) (rates : DataFrame Rate),
     has_column "survey_name" sessions = true ->
     df_empty rates = false ->
     has_column "reason" rates = true ->
     has_column "rate_amount" rates = true ->
     Forall2
       (fun r_row row =>
          rc_rate_reason row = reason r_row
          /\ (reason r_row <> "" ->
              counts (fun s => contains_ci (reason r_row) (survey_name s))
                (rows sessions) (rc_count row)))
       (rows rates) (rows (compute_base_rate_counts sessions rates)))
  /\ map rc_count
       (rows (compute_base_rate_counts
                (sessions_frame [session_at "Daily EMA bonus" 0 new_york])
                (rates_frame [rate "ema"; rate "Bonus"; rate "weekly"])))
     = [1; 1; 0].
Proof.
  split; [|reflexivity].
  intros sessions rates Hname Hrates Hreason Hamount.
  rewrite (rate_count_row _ _ Hname Hrates Hreason Hamount).
  induction (rows rates) as [|r_row l IH]; cbn [map]; constructor;
    [|exact IH].
  cbn [rc_rate_reason rc_count]. split; [reflexivity|].
  intros Hne. destruct (reason r_row) eqn:Hr; [congruence|].
  apply counts_filter. intros sess. apply contains_ci_lower.
Qed.

Lemma compute_base_rate_counts_substring_witness :
  Forall2
    (fun r_row row =>
       rc_rate_reason row = reason r_row
       /\ (reason r_row <> "" ->
           counts (fun s => contains_ci (reason r_row) (survey_name s))
             (five_sessions new_york) (rc_count row)))
    [rate "ema survey"]
    (rows (compute_base_rate_counts (sessions_frame (five_sessions new_york))
             (rates_frame [rate "ema survey"]))).
Proof.
  destruct compute_base_rate_counts_substring as [Hgen _].
  apply (Hgen (sessions_frame (five_sessions new_york))
           (rates_frame [rate "ema survey"]));
    reflexivity.
Defined.

(** C8 as it is stated fails for a rate without a reason: every survey
    name contains the empty string, so one session out of one contains the
    reason, and the count of the rate is 0. *)
Lemma compute_base_rate_counts_no_reason :
  counts (fun s => contains_ci "" (survey_name s))
    (rows (sessions_frame [session_at "Daily EMA" 0 new_york])) 1
  /\ map rc_count
       (rows (compute_base_rate_counts
                (sessions_frame [session_at "Daily EMA" 0 new_york])
                (rates_frame [rate ""]))) = [0].
Proof.
  split; [|reflexivity].
  apply (counts_hit _ _ [] 0); [|constructor].
  now exists ""%string, (PyStr.lower "Daily EMA").
Qed.

(** C10.  A rate whose reason is the empty string gets the count 0: every
    row of the result with an empty reason has the count 0, and when the
    tables have their columns every such rate has its row; and yet the
    empty string is contained in every survey name. *)
Theorem compute_base_rate_counts_empty_reason :
  forall (sessions : DataFrame Session) (rates : DataFrame Rate),
    (forall row,
       In row (rows (compute_base_rate_counts sessions rates)) ->
       rc_rate_reason row = "" -> rc_count row = 0)
    /\ (has_column "survey_name" sessions = true ->
        df_empty rates = false ->
        has_column "reason" rates = true ->
        has_column "rate_amount" rates = true ->
        forall r_row,
          In r_row (rows rates) -> reason r_row = "" ->
          In {| rc_rate_reason := ""; rc_rate_amount := rate_amount r_row;
                rc_count := 0 |}
             (rows (compute_base_rate_counts sessions rates)))
    /\ (forall name, contains_ci "" name).
Proof.
  intros sessions rates. split; [|split].
  - intros row Hin Hr. unfold compute_base_rate_counts in Hin.
    destruct (_ || _); [destruct Hin|]. cbn [rows] in Hin.
    apply in_map_iff in Hin. destruct Hin as [r_row [<- _]].
    cbn [rc_rate_reason rc_count] in *. now rewrite Hr.
  - intros Hname Hrates Hreason Hamount r_row Hin Hr.
    rewrite (rate_count_row _ _ Hname Hrates Hreason Hamount).
    apply in_map_iff. exists r_row. split; [|assumption].
    now rewrite Hr.
  - intros name. now exists ""%string, (PyStr.lower name).
Qed.

Lemma compute_base_rate_counts_empty_reason_witness :
  In {| rc_rate_reason := ""; rc_rate_amount := PyFloat.dyadic 2 0;
        rc_count := 0 |}
     (rows (compute_base_rate_counts (sessions_frame (five_sessions new_york))
              (rates_frame [rate "ema"; rate ""]))).
Proof.
  apply (proj1 (proj2 (compute_base_rate_counts_empty_reason
                         (sessions_frame (five_sessions new_york))
                         (rates_frame [rate "ema"; rate ""])))
           eq_refl eq_refl eq_refl eq_refl (rate ""));
    [right; left; reflexivity|reflexivity].
Defined.

(** ** C2: daily counts *)

Lemma date_range_In (start stop d : date) :
  In d (date_range start stop) <-> start <= d <= stop.
Proof.
  unfold date_range. rewrite in_map_iff. split.
  - intros [i [<- Hi]]. apply in_seq in Hi. lia.
  - intros Hd. exists (Z.to_nat (d - start)). split; [lia|].
    apply in_seq. lia.
Qed.

Lemma find_groupby_size (days : list date) (d : date) :
  match find (fun p => Z.eqb (fst p) d) (groupby_size days) with
  | Some (_, c) => c
  | None => 0
  end = size (filter (Z.eqb d) days).
Proof.
  unfold groupby_size.
  assert (Hnone : ~ In d (nodup Z.eq_dec days) ->
                  size (filter (Z.eqb d) days) = 0).
  { rewrite nodup_In. intros Hout.
    rewrite ListFacts.filter_none; [reflexivity|].
    intros a Hin. apply Z.eqb_neq. intros <-. contradiction. }
  revert Hnone. generalize (nodup Z.eq_dec days) as keys.
  induction keys as [|k keys IH]; intros Hnone; cbn [map find fst].
  - symmetry. apply Hnone. intros [].
  - destruct (Z.eqb_spec k d) as [->|Hne]; [reflexivity|].
    apply IH. intros Hout. apply Hnone. intros [Heq|Hin]; auto.
Qed.

Lemma merge_left_groupby_size (idx days : list date) :
  merge_left idx (groupby_size days)
  = map (fun d => {| day := d; count := size (filter (Z.eqb d) days) |}) idx.
Proof.
  unfold merge_left. apply map_ext. intros d.
  rewrite <- (find_groupby_size days d).
  destruct (find _ _) as [[d' c]|]; reflexivity.
Qed.

Lemma local_date_bounds (ts : Timestamp) (start stop : date) :
  start <= local_date ts <= stop
  <-> combine start time_min <= wall_clock ts <= combine stop time_max.
Proof.
  unfold local_date, wall_clock, combine, time_min, time_max, day_us.
  set (w := instant ts + zone ts (instant ts)).
  pose proof (Z.div_mod w 86400000000 ltac:(lia)) as Hdm.
  pose proof (Z.mod_pos_bound w 86400000000 ltac:(lia)) as Hmod.
  split; intros [H1 H2]; split; nia.
Qed.

(** On a machine whose zone is the zone of the timestamps, at a constant
    offset from UTC, the table has one row for each of the [days] days from
    [start_date], and the count of a row is the number of sessions that
    took place on that day in that zone, among those that the filter on
    the reason keeps: these sessions all lie in the window.  The filter
    keeps what the compiled pattern finds, whatever that is. *)
Lemma compute_daily_counts_same_zone (hours : Z) re
    (sessions : DataFrame Session) (start_date : date) (days : Z)
    (reason_filter : option string) (search : string -> bool) :
  has_column "local_ts" sessions = true ->
  has_column "survey_name" sessions = true ->
  (forall s, In s (rows sessions) ->
     zone (local_ts s) (instant (local_ts s)) = hours * hour_us) ->
  match reason_filter with
  | None | Some "" => Ok (fun _ => true)
  | Some pat => re pat
  end = Ok search ->
  compute_daily_counts (mktime_fixed hours) re sessions start_date days
    (fixed_offset hours) reason_filter
  = Ok (daily_frame
          (map (fun d =>
                  {| day := d;
                     count :=
                       size (filter
                               (fun s => search (survey_name s)
                                         && Z.eqb (local_date (local_ts s)) d)
                               (rows sessions)) |})
               (date_range start_date (start_date + (days - 1))))).
Proof.
  intros Hts Hname Hzone Hsearch. unfold compute_daily_counts.
  rewrite Hts, Hname. cbn [negb orb combine_astimezone instant].
  set (stop := start_date + (days - 1)).
  set (in_window := fun s : Session =>
         (mktime_fixed hours (combine start_date time_min)
          <=? instant (local_ts s))
         && (instant (local_ts s)
             <=? mktime_fixed hours (combine stop time_max))).
  set (windowed := filter in_window (rows sessions)).
  set (kept := filter (fun s => search (survey_name s)) windowed).
  assert (Hwin : forall s, In s (rows sessions) ->
            in_window s = true
            <-> start_date <= local_date (local_ts s) <= stop).
  { intros s Hin. rewrite local_date_bounds. unfold in_window, wall_clock.
    rewrite (Hzone s Hin), andb_true_iff, !Z.leb_le.
    unfold mktime_fixed. lia. }
  assert (Hcount : forall d, In d (date_range start_date stop) ->
            size (filter (Z.eqb d)
                    (map (fun s => local_date (local_ts s)) kept))
            = size (filter (fun s => search (survey_name s)
                                     && Z.eqb (local_date (local_ts s)) d)
                      (rows sessions))).
  { intros d Hd. apply date_range_In in Hd.
    rewrite size_filter_map. unfold kept, windowed.
    rewrite !ListFacts.filter_filter.
    f_equal. apply filter_ext_in. intros s Hin.
    rewrite (Z.eqb_sym d).
    destruct (Z.eqb_spec (local_date (local_ts s)) d) as [Heq|_];
      [|now rewrite !andb_false_r].
    rewrite andb_true_r.
    assert (Hs : in_window s = true) by (apply Hwin; [assumption|lia]).
    now rewrite Hs. }
  assert (Hzero : kept = [] ->
            map (fun d => {| day := d; count := 0 |})
              (date_range start_date stop)
            = map (fun d =>
                     {| day := d;
                        count :=
                          size (filter
                                  (fun s =>
                                     search (survey_name s)
                                     && Z.eqb (local_date (local_ts s)) d)
                                  (rows sessions)) |})
                (date_range start_date stop)).
  { intros Hnil. apply map_ext_in. intros d Hd.
    rewrite <- (Hcount d Hd), Hnil. reflexivity. }
  destruct (df_empty sessions) eqn:Hempty.
  - f_equal. unfold daily_frame. f_equal. apply Hzero.
    unfold kept, windowed, df_empty, has_column in *.
    destruct (columns sessions); [discriminate Hts|].
    destruct (rows sessions); [reflexivity|discriminate].
  - assert (Hkept : match reason_filter with
                    | None | Some "" => Ok windowed
                    | Some pat =>
                        search0 <- re pat ;;
                        Ok (filter (fun s => search0 (survey_name s)) windowed)
                    end = Ok kept).
    { unfold kept.
      destruct reason_filter as [[|c pat]|].
      - injection Hsearch as <-. f_equal. symmetry.
        apply ListFacts.filter_all. reflexivity.
      - rewrite Hsearch. reflexivity.
      - injection Hsearch as <-. f_equal. symmetry.
        apply ListFacts.filter_all. reflexivity. }
    rewrite Hkept. cbn [bind].
    destruct kept as [|s0 rest] eqn:Hk.
    + f_equal. unfold daily_frame. f_equal. now apply Hzero.
    + f_equal. unfold daily_frame. f_equal.
      rewrite merge_left_groupby_size. apply map_ext_in. intros d Hd.
      f_equal. apply Hcount. exact Hd.
Qed.

(** The scenario of the specification, on a machine whose zone is the zone
    of the timestamps: five sessions, one a day from 2025-05-01. *)
Example compute_daily_counts_five_sessions re :
  compute_daily_counts (mktime_fixed 0) re
    (sessions_frame (five_sessions (fixed_offset 0)))
    (ymd 2025 5 1) 5 (fixed_offset 0) None
  = Ok (daily_frame
          (map (fun i => {| day := ymd 2025 5 1 + i; count := 1 |})
               [0; 1; 2; 3; 4]))
  /\ compute_daily_counts (mktime_fixed 0) re
       (sessions_frame (five_sessions (fixed_offset 0)))
       (ymd 2025 5 2) 4 (fixed_offset 0) None
     = Ok (daily_frame
             (map (fun i => {| day := ymd 2025 5 2 + i; count := 1 |})
                  [0; 1; 2; 3])).
Proof.
  split; vm_compute; reflexivity.
Qed.

(** C2 at an input where the code departs from it.  The machine runs on
    UTC and the timestamps are in New York time.  A session of 2025-05-05,
    21:00 in New York, lies in the window of four days from 2025-05-02 in
    that zone, and the row of 2025-05-05 has the count 0; on a machine in
    New York time the same call counts it. *)
Theorem compute_daily_counts_machine_zone re :
  local_date (local_ts evening_session) = ymd 2025 5 5
  /\ combine (ymd 2025 5 2) time_min <= wall_clock (local_ts evening_session)
     <= combine (ymd 2025 5 2 + (4 - 1)) time_max
  /\ compute_daily_counts (mktime_fixed 0) re
       (sessions_frame [evening_session]) (ymd 2025 5 2) 4 new_york None
     = Ok (daily_frame
             [ {| day := ymd 2025 5 2; count := 0 |};
               {| day := ymd 2025 5 3; count := 0 |};
               {| day := ymd 2025 5 4; count := 0 |};
               {| day := ymd 2025 5 5; count := 0 |} ])
  /\ compute_daily_counts (mktime_fixed (-4)) re
       (sessions_frame [evening_session]) (ymd 2025 5 2) 4 new_york None
     = Ok (daily_frame
             [ {| day := ymd 2025 5 2; count := 0 |};
               {| day := ymd 2025 5 3; count := 0 |};
               {| day := ymd 2025 5 4; count := 0 |};
               {| day := ymd 2025 5 5; count := 1 |} ]).
Proof.
  split; [reflexivity|].
  split; [split; vm_compute; discriminate|].
  split; vm_compute; reflexivity.
Qed.

End PaymentsTheory.

(** * Further properties of the tagging engine *)

Module TaggingRunTheory.

Import Tagging.
Import PyRun.
Import TaggingRun.

(** ** Conditions, groups and workflows never raise *)

Lemma mapM_total {A B : Type} (f : A -> exc B) (g : A -> B) (l : list A) :
  (forall a, f a = Ok (g a)) -> mapM f l = Ok (map g l).
Proof.
  intros Hf. induction l as [|a l IH]; cbn [mapM map]; [reflexivity|].
  now rewrite Hf, IH.
Qed.

Lemma all_map {A : Type} (g : A -> bool) (l : list A) :
  all (map g l) = forallb g l.
Proof.
  unfold all. induction l as [|a l IH]; cbn; [reflexivity|now rewrite IH].
Qed.

Lemma any_map {A : Type} (g : A -> bool) (l : list A) :
  any (map g l) = existsb g l.
Proof.
  unfold any. induction l as [|a l IH]; cbn; [reflexivity|now rewrite IH].
Qed.

Lemma eval_single_condition_ok (cond_questions : list CondQuestion)
    (rs : list Response) (cond : Condition) :
  eval_single_condition cond rs (questions_of cond_questions cond)
  = Ok (condition_holds cond_questions rs cond).
Proof.
  unfold condition_holds.
  destruct (eval_single_condition cond rs (questions_of cond_questions cond))
    as [b|e] eqn:He; [reflexivity|].
  exfalso. unfold eval_single_condition in He.
  destruct (_ && _); [discriminate|].
  destruct (TaggingTheory.eval_responses_total
              (operator cond) (String.eqb (skip_behavior cond) "1")
              (value cond)
              (filter (fun r => isin (question_name r)
                                  (questions_of cond_questions cond)) rs))
    as [b Hb].
  congruence.
Qed.

Lemma eval_condition_group_ok (conditions : list Condition)
    (cond_questions : list CondQuestion) (rs : list Response)
    (group : Group) :
  eval_condition_group group conditions cond_questions rs
  = Ok (if String.eqb (group_logical_operator group) "AND"
        then forallb (condition_holds cond_questions rs)
               (conditions_of conditions group)
        else existsb (condition_holds cond_questions rs)
               (conditions_of conditions group)).
Proof.
  unfold eval_condition_group. fold (conditions_of conditions group).
  rewrite (mapM_total _ (condition_holds cond_questions rs))
    by (intros c; apply eval_single_condition_ok).
  cbn [bind]. rewrite all_map, any_map.
  destruct (String.eqb _ _); reflexivity.
Qed.

Lemma eval_workflow_ok (groups : list Group) (conditions : list Condition)
    (cond_questions : list CondQuestion) (rs : list Response)
    (workflow_row : Workflow) :
  eval_workflow workflow_row groups conditions cond_questions rs
  = Ok (negb (empty (groups_of groups workflow_row))
        && (if String.eqb (workflow_logical_operator workflow_row) "AND"
            then forallb (group_holds conditions cond_questions rs)
                   (groups_of groups workflow_row)
            else existsb (group_holds conditions cond_questions rs)
                   (groups_of groups workflow_row))).
Proof.
  unfold eval_workflow. fold (groups_of groups workflow_row).
  destruct (empty (groups_of groups workflow_row)); [reflexivity|].
  rewrite (mapM_total _ (group_holds conditions cond_questions rs)).
  - cbn [bind negb andb]. rewrite all_map, any_map.
    destruct (String.eqb _ _); reflexivity.
  - intros g. unfold group_holds. now rewrite eval_condition_group_ok.
Qed.

(** ** Groups and workflows combine their parts with [all] and [any] *)

(** X1.  A group whose operator is [AND] is true exactly when every one
    of its conditions is true; with any other operator, whatever its
    spelling, it is true exactly when one of its conditions is true. *)
Theorem eval_condition_group_and_or (group : Group)
    (conditions : list Condition) (cond_questions : list CondQuestion)
    (rs : list Response) :
  (group_logical_operator group = "AND" ->
   (eval_condition_group group conditions cond_questions rs = Ok true
    <-> forall c, In c conditions -> cond_group_id c = group_id group ->
          eval_single_condition c rs (questions_of cond_questions c)
          = Ok true))
  /\ (group_logical_operator group <> "AND" ->
      (eval_condition_group group conditions cond_questions rs = Ok true
       <-> exists c, In c conditions /\ cond_group_id c = group_id group
                     /\ eval_single_condition c rs
                          (questions_of cond_questions c) = Ok true)).
Proof.
  rewrite eval_condition_group_ok. unfold conditions_of. split.
  - intros ->. cbn [String.eqb Ascii.eqb Bool.eqb andb].
    split.
    + intros H. injection H as H. intros c Hin Hg.
      rewrite eval_single_condition_ok. f_equal.
      apply (proj1 (forallb_forall _ _) H). apply filter_In.
      split; [assumption|]. now apply String.eqb_eq.
    + intros H. f_equal. apply forallb_forall. intros c Hc.
      apply filter_In in Hc. destruct Hc as [Hin Hg].
      apply String.eqb_eq in Hg.
      specialize (H c Hin Hg). rewrite eval_single_condition_ok in H.
      now injection H.
  - intros Hop. apply String.eqb_neq in Hop. rewrite Hop. split.
    + intros H. injection H as H. apply existsb_exists in H.
      destruct H as [c [Hc Hholds]]. apply filter_In in Hc.
      destruct Hc as [Hin Hg]. apply String.eqb_eq in Hg.
      exists c. rewrite eval_single_condition_ok, Hholds. auto.
    + intros [c [Hin [Hg H]]]. f_equal. apply existsb_exists. exists c.
      split.
      * apply filter_In. split; [assumption|]. now apply String.eqb_eq.
      * rewrite eval_single_condition_ok in H. now injection H.
Qed.

Lemma eval_condition_group_and_or_witness :
  eval_condition_group
    {| group_id := "g1"; group_workflow_id := "w1";
       group_logical_operator := "and" |}
    [condition "==" (PStr "0") "0"; condition ">" (PStr "5") "0"]
    [{| cq_condition_id := "c1"; cq_question_name := "q" |}]
    [answer "q" "0"] = Ok true
  /\ eval_condition_group
       {| group_id := "g1"; group_workflow_id := "w1";
          group_logical_operator := "AND" |}
       [condition "==" (PStr "0") "0"; condition "<" (PStr "5") "0"]
       [{| cq_condition_id := "c1"; cq_question_name := "q" |}]
       [answer "q" "0"] = Ok true.
Proof.
  split.
  - apply (proj2 (eval_condition_group_and_or _ _ _ _)); [discriminate|].
    exists (condition "==" (PStr "0") "0").
    split; [left; reflexivity|split; reflexivity].
  - apply (proj1 (eval_condition_group_and_or _ _ _ _)); [reflexivity|].
    intros c [<-|[<-|[]]] _; reflexivity.
Defined.

(** X2.  A workflow that has groups is true, under [AND], exactly when
    every one of its groups is true, and under any other operator exactly
    when one of its groups is true; a workflow is never true without a
    group of its own. *)
Theorem eval_workflow_and_or (workflow_row : Workflow) (groups : list Group)
    (conditions : list Condition) (cond_questions : list CondQuestion)
    (rs : list Response) :
  (workflow_logical_operator workflow_row = "AND" ->
   (eval_workflow workflow_row groups conditions cond_questions rs = Ok true
    <-> (exists g, In g groups
                   /\ group_workflow_id g = workflow_id workflow_row)
        /\ forall g, In g groups ->
             group_workflow_id g = workflow_id workflow_row ->
             eval_condition_group g conditions cond_questions rs = Ok true))
  /\ (workflow_logical_operator workflow_row <> "AND" ->
      (eval_workflow workflow_row groups conditions cond_questions rs
       = Ok true
       <-> exists g, In g groups
                     /\ group_workflow_id g = workflow_id workflow_row
                     /\ eval_condition_group g conditions cond_questions rs
                        = Ok true)).
Proof.
  rewrite eval_workflow_ok. unfold groups_of.
  set (mine := fun g => String.eqb (group_workflow_id g)
                          (workflow_id workflow_row)).
  assert (Hmine : forall g, In g (filter mine groups)
                    <-> In g groups
                        /\ group_workflow_id g = workflow_id workflow_row).
  { intros g. rewrite filter_In. unfold mine. now rewrite String.eqb_eq. }
  assert (Hholds : forall g b,
            group_holds conditions cond_questions rs g = b
            <-> eval_condition_group g conditions cond_questions rs = Ok b).
  { intros g b. unfold group_holds. rewrite eval_condition_group_ok.
    split; [now intros ->|now intros H; injection H]. }
  split.
  - intros ->. cbn [String.eqb Ascii.eqb Bool.eqb].
    split.
    + intros H. injection H as H. apply andb_true_iff in H.
      destruct H as [Hne Hall]. split.
      * assert (Hex : exists g, In g (filter mine groups)).
        { revert Hne. destruct (filter mine groups) as [|g l];
            [discriminate|]. intros _. exists g. now left. }
        destruct Hex as [g Hg]. exists g. now apply Hmine.
      * intros g Hin Hg. apply Hholds.
        apply (proj1 (forallb_forall _ _) Hall). apply Hmine. auto.
    + intros [[g Hg] Hall]. f_equal. apply andb_true_iff. split.
      * apply Hmine in Hg. now destruct (filter mine groups).
      * apply forallb_forall. intros g' Hg'. apply Hholds.
        apply Hmine in Hg'. now apply Hall.
  - intros Hop. apply String.eqb_neq in Hop. rewrite Hop. split.
    + intros H. injection H as H. apply andb_true_iff in H.
      destruct H as [_ Hex]. apply existsb_exists in Hex.
      destruct Hex as [g [Hg Hb]]. exists g. apply Hmine in Hg.
      apply Hholds in Hb. tauto.
    + intros [g [Hin [Hg Hb]]]. f_equal.
      assert (Hg' : In g (filter mine groups)) by (apply Hmine; auto).
      apply andb_true_iff. split.
      * now destruct (filter mine groups).
      * apply existsb_exists. exists g. split; [assumption|].
        now apply Hholds.
Qed.

Lemma eval_workflow_and_or_witness :
  eval_workflow
    {| workflow_id := "w1"; workflow_type := "1";
       workflow_logical_operator := "OR"; workflow_tag_id := "t" |}
    [{| group_id := "g1"; group_workflow_id := "w1";
        group_logical_operator := "AND" |}]
    [condition "==" (PStr "0") "0"]
    [{| cq_condition_id := "c1"; cq_question_name := "q" |}]
    [answer "q" "0"] = Ok true
  /\ eval_workflow
       {| workflow_id := "w1"; workflow_type := "1";
          workflow_logical_operator := "AND"; workflow_tag_id := "t" |}
       [{| group_id := "g1"; group_workflow_id := "w1";
           group_logical_operator := "AND" |}]
       [condition "==" (PStr "0") "0"]
       [{| cq_condition_id := "c1"; cq_question_name := "q" |}]
       [answer "q" "0"] = Ok true.
Proof.
  split.
  - apply (proj2 (eval_workflow_and_or _ _ _ _ _)); [discriminate|].
    eexists. split; [left; reflexivity|split; reflexivity].
  - apply (proj1 (eval_workflow_and_or _ _ _ _ _)); [reflexivity|].
    split.
    + eexists. split; [left; reflexivity|reflexivity].
    + intros g [<-|[]] _. reflexivity.
Defined.

(** ** The order of the configuration tables *)

Lemma forallb_Permutation {A : Type} (f : A -> bool) (l l' : list A) :
  Permutation l l' -> forallb f l = forallb f l'.
Proof.
  intros Hperm. apply eq_true_iff_eq. rewrite !forallb_forall.
  split; intros H x Hin; apply H.
  - now apply (Permutation_in _ (Permutation_sym Hperm)).
  - now apply (Permutation_in _ Hperm).
Qed.

Lemma forallb_ext_in {A : Type} (f g : A -> bool) (l : list A) :
  (forall a, In a l -> f a = g a) -> forallb f l = forallb g l.
Proof.
  induction l as [|a l IH]; intros H; cbn [forallb]; [reflexivity|].
  rewrite (H a (or_introl eq_refl)), IH; [reflexivity|].
  intros a' Hin. apply H. now right.
Qed.

Lemma existsb_ext_in {A : Type} (f g : A -> bool) (l : list A) :
  (forall a, In a l -> f a = g a) -> existsb f l = existsb g l.
Proof.
  induction l as [|a l IH]; intros H; cbn [existsb]; [reflexivity|].
  rewrite (H a (or_introl eq_refl)), IH; [reflexivity|].
  intros a' Hin. apply H. now right.
Qed.

Lemma eval_single_condition_questions (cond : Condition)
    (rs : list Response) (qs qs' : list string) :
  (forall x, isin x qs = isin x qs') ->
  eval_single_condition cond rs qs = eval_single_condition cond rs qs'.
Proof.
  intros Hqs. unfold eval_single_condition.
  now rewrite (filter_ext _ (fun r => isin (question_name r) qs'))
    by (intros r; apply Hqs).
Qed.

Lemma condition_holds_Permutation (cqs cqs' : list CondQuestion)
    (rs : list Response) (cond : Condition) :
  Permutation cqs cqs' ->
  condition_holds cqs rs cond = condition_holds cqs' rs cond.
Proof.
  intros Hperm. unfold condition_holds.
  rewrite (eval_single_condition_questions cond rs
             (questions_of cqs cond) (questions_of cqs' cond));
    [reflexivity|].
  intros x. unfold isin, questions_of.
  apply ListFacts.existsb_Permutation, Permutation_map,
    ListFacts.filter_Permutation, Hperm.
Qed.

Lemma group_holds_Permutation (conditions conditions' : list Condition)
    (cqs cqs' : list CondQuestion) (rs : list Response) (group : Group) :
  Permutation conditions conditions' -> Permutation cqs cqs' ->
  group_holds conditions cqs rs group = group_holds conditions' cqs' rs group.
Proof.
  intros Hc Hq. unfold group_holds. rewrite !eval_condition_group_ok.
  unfold conditions_of.
  rewrite (forallb_Permutation _ _ _
             (ListFacts.filter_Permutation _ _ _ Hc)),
          (ListFacts.existsb_Permutation _ _ _
             (ListFacts.filter_Permutation _ _ _ Hc)).
  rewrite (forallb_ext_in (condition_holds cqs rs)
             (condition_holds cqs' rs)),
          (existsb_ext_in (condition_holds cqs rs)
             (condition_holds cqs' rs));
    try (intros c _; now apply condition_holds_Permutation).
  reflexivity.
Qed.

(** X3.  The order of the rows of the configuration tables does not
    matter: a group and a workflow evaluate to the same result when the
    groups, the conditions and the links from conditions to questions are
    permuted. *)
Theorem configuration_order_irrelevant (groups groups' : list Group)
    (conditions conditions' : list Condition)
    (cqs cqs' : list CondQuestion) (rs : list Response) :
  Permutation groups groups' ->
  Permutation conditions conditions' ->
  Permutation cqs cqs' ->
  (forall group,
     eval_condition_group group conditions cqs rs
     = eval_condition_group group conditions' cqs' rs)
  /\ (forall workflow_row,
        eval_workflow workflow_row groups conditions cqs rs
        = eval_workflow workflow_row groups' conditions' cqs' rs).
Proof.
  intros Hg Hc Hq.
  assert (Hgroup : forall group,
            group_holds conditions cqs rs group
            = group_holds conditions' cqs' rs group)
    by (intros group; now apply group_holds_Permutation).
  split.
  - intros group. generalize (Hgroup group). unfold group_holds.
    rewrite !eval_condition_group_ok. now intros ->.
  - intros workflow_row. rewrite !eval_workflow_ok. unfold groups_of.
    pose proof (ListFacts.filter_Permutation
                  (fun g => String.eqb (group_workflow_id g)
                              (workflow_id workflow_row)) _ _ Hg) as Hf.
    rewrite <- (TaggingTheory.empty_Permutation _ _ Hf),
            <- (forallb_Permutation _ _ _ Hf),
            <- (ListFacts.existsb_Permutation _ _ _ Hf).
    rewrite (forallb_ext_in (group_holds conditions cqs rs)
               (group_holds conditions' cqs' rs)),
            (existsb_ext_in (group_holds conditions cqs rs)
               (group_holds conditions' cqs' rs));
      try (intros g _; apply Hgroup).
    reflexivity.
Qed.

Lemma configuration_order_irrelevant_witness :
  eval_workflow
    {| workflow_id := "w1"; workflow_type := "1";
       workflow_logical_operator := "AND"; workflow_tag_id := "t" |}
    [{| group_id := "g1"; group_workflow_id := "w1";
        group_logical_operator := "AND" |};
     {| group_id := "g2"; group_workflow_id := "w1";
        group_logical_operator := "OR" |}]
    [condition "==" (PStr "0") "0"; condition "<" (PStr "5") "0"]
    [{| cq_condition_id := "c1"; cq_question_name := "q" |}]
    [answer "q" "0"]
  = eval_workflow
      {| workflow_id := "w1"; workflow_type := "1";
         workflow_logical_operator := "AND"; workflow_tag_id := "t" |}
      [{| group_id := "g2"; group_workflow_id := "w1";
          group_logical_operator := "OR" |};
       {| group_id := "g1"; group_workflow_id := "w1";
          group_logical_operator := "AND" |}]
      [condition "<" (PStr "5") "0"; condition "==" (PStr "0") "0"]
      [{| cq_condition_id := "c1"; cq_question_name := "q" |}]
      [answer "q" "0"].
Proof.
  apply (configuration_order_irrelevant _ _ _ _ _ _ _
           (perm_swap _ _ _) (perm_swap _ _ _) (Permutation_refl _)).
Defined.

(** ** Conditions without questions *)

Lemma eval_single_condition_no_question (cond : Condition)
    (rs : list Response) :
  eval_single_condition cond rs []
  = Ok (String.eqb (operator cond) "empty").
Proof.
  unfold eval_single_condition.
  rewrite ListFacts.filter_none by reflexivity.
  cbn [empty eval_responses]. rewrite andb_true_r.
  destruct (String.eqb _ _); reflexivity.
Qed.

(** X4.  A condition without a row in the table of links reads no
    response: it is true when its operator is [empty] and false otherwise,
    whatever the session holds; so an [AND] group that holds such a
    condition with another operator is false for every session. *)
Theorem condition_without_questions (group : Group)
    (conditions : list Condition) (cond_questions : list CondQuestion)
    (rs : list Response) (c : Condition) :
  In c conditions ->
  cond_group_id c = group_id group ->
  (forall q, In q cond_questions -> cq_condition_id q <> cond_id c) ->
  eval_single_condition c rs (questions_of cond_questions c)
  = Ok (String.eqb (operator c) "empty")
  /\ (operator c <> "empty" -> group_logical_operator group = "AND" ->
      eval_condition_group group conditions cond_questions rs = Ok false).
Proof.
  intros Hin Hg Hnone.
  assert (Hqs : questions_of cond_questions c = []).
  { unfold questions_of. rewrite ListFacts.filter_none; [reflexivity|].
    intros q Hq. apply String.eqb_neq. now apply Hnone. }
  assert (Hc : eval_single_condition c rs (questions_of cond_questions c)
               = Ok (String.eqb (operator c) "empty"))
    by (rewrite Hqs; apply eval_single_condition_no_question).
  split; [exact Hc|].
  intros Hop Hand. rewrite eval_condition_group_ok, Hand.
  cbn [String.eqb Ascii.eqb Bool.eqb]. f_equal.
  apply not_true_is_false. intros Hall.
  assert (Hmine : In c (conditions_of conditions group)).
  { apply filter_In. split; [assumption|]. now apply String.eqb_eq. }
  pose proof (proj1 (forallb_forall _ _) Hall c Hmine) as Hholds.
  rewrite eval_single_condition_ok in Hc. injection Hc as Hc.
  rewrite Hholds in Hc. symmetry in Hc. apply String.eqb_eq in Hc.
  contradiction.
Qed.

Lemma condition_without_questions_witness :
  eval_condition_group
    {| group_id := "g1"; group_workflow_id := "w1";
       group_logical_operator := "AND" |}
    [condition "==" (PStr "0") "0"]
    [{| cq_condition_id := "c9"; cq_question_name := "q" |}]
    [answer "q" "0"] = Ok false.
Proof.
  apply (condition_without_questions
           {| group_id := "g1"; group_workflow_id := "w1";
              group_logical_operator := "AND" |}
           [condition "==" (PStr "0") "0"]
           [{| cq_condition_id := "c9"; cq_question_name := "q" |}]
           [answer "q" "0"] (condition "==" (PStr "0") "0"));
    try reflexivity; try discriminate.
  - left; reflexivity.
  - intros q [<-|[]]. discriminate.
Defined.

(** ** What the operators compare *)

Lemma eval_single_condition_one (cond : Condition) (rs : list Response)
    (qs : list string) (r : Response) :
  relevant qs rs = [r] -> live r = true ->
  eval_single_condition cond rs qs
  = evaluate_condition_logic (str2float (content r)) (operator cond)
      (target_for (operator cond) (value cond) r).
Proof.
  intros Hsub Hlive. unfold eval_single_condition.
  fold (relevant qs rs). rewrite Hsub. cbn [empty eval_responses].
  rewrite andb_false_r.
  unfold live in Hlive. apply andb_true_iff in Hlive.
  destruct Hlive as [Hsk Hns].
  apply negb_true_iff in Hsk, Hns. rewrite Hsk, Hns.
  fold (numeric r). fold (target_for (operator cond) (value cond) r).
  rewrite TaggingTheory.evaluate_condition_logic_holds. cbn [bind].
  destruct (holds _ _ _); reflexivity.
Qed.

(** X5.  How the comparison operators read the only response of a
    condition whose value is a string.  When the answer and the value both
    parse as numbers, they are compared as numbers; when the answer is a
    number and the value is not, only [!=] holds; when the answer is not a
    number, the answer and the value are compared as strings, code point
    by code point, even when the value looks like a number. *)
Theorem comparison_of_one_response (cond : Condition) (rs : list Response)
    (qs : list string) (r : Response) (v : string) :
  relevant qs rs = [r] -> live r = true -> value cond = PStr v ->
  (forall x y b,
     str2float (content r) = PFloat x -> PyFloat.of_string v = Some y ->
     float_compare (operator cond) x y = Some b ->
     eval_single_condition cond rs qs = Ok b)
  /\ (forall x,
        str2float (content r) = PFloat x -> PyFloat.of_string v = None ->
        In (operator cond) ["=="; "!="; "<"; "<="; ">"; ">="] ->
        eval_single_condition cond rs qs
        = Ok (String.eqb (operator cond) "!="))
  /\ (forall s b,
        str2float (content r) = PStr s ->
        string_compare (operator cond) s v = Some b ->
        eval_single_condition cond rs qs = Ok b).
Proof.
  intros Hsub Hlive Hv.
  rewrite (eval_single_condition_one cond rs qs r Hsub Hlive).
  unfold target_for, numeric. rewrite Hv. split; [|split].
  - intros x y b Hx Hy Hcmp. rewrite Hx.
    assert (Hop : operator cond <> "between").
    { intros Hop. rewrite Hop in Hcmp. discriminate. }
    apply String.eqb_neq in Hop. rewrite Hop. cbn [negb andb is_float].
    unfold str2float. cbn [py_float]. rewrite Hy.
    unfold float_compare in Hcmp.
    repeat match type of Hcmp with
           | context [String.eqb (operator cond) ?k] =>
               destruct (String.eqb_spec (operator cond) k) as [Hk|_];
               [rewrite Hk; injection Hcmp as <-; reflexivity|]
           end.
    discriminate.
  - intros x Hx Hy Hop. rewrite Hx. unfold str2float. cbn [py_float].
    rewrite Hy.
    cbn [In] in Hop.
    repeat (destruct Hop as [Hop|Hop]; [rewrite <- Hop; reflexivity|]).
    destruct Hop.
  - intros s b Hs Hcmp. rewrite Hs. cbn [is_float].
    rewrite andb_false_r.
    unfold string_compare in Hcmp.
    repeat match type of Hcmp with
           | context [String.eqb (operator cond) ?k] =>
               destruct (String.eqb_spec (operator cond) k) as [Hk|_];
               [rewrite Hk; injection Hcmp as <-; reflexivity|]
           end.
    discriminate.
Qed.

Lemma comparison_of_one_response_witness :
  eval_single_condition (condition "==" (PStr "1") "0")
    [answer "q" "1.0"] ["q"] = Ok true
  /\ eval_single_condition (condition "<" (PStr "high") "0")
       [answer "q" "3"] ["q"] = Ok false
  /\ eval_single_condition (condition "<" (PStr "5") "0")
       [answer "q" "10 or more"] ["q"] = Ok true.
Proof.
  split; [|split].
  - apply (proj1 (comparison_of_one_response
                    (condition "==" (PStr "1") "0") [answer "q" "1.0"]
                    ["q"] (answer "q" "1.0") "1" eq_refl eq_refl eq_refl)
             (PyFloat.dyadic 1 0) (PyFloat.dyadic 1 0) true);
      reflexivity.
  - apply (proj1 (proj2 (comparison_of_one_response
                    (condition "<" (PStr "high") "0") [answer "q" "3"]
                    ["q"] (answer "q" "3") "high" eq_refl eq_refl eq_refl))
             (PyFloat.dyadic 3 0));
      try reflexivity.
    right; right; left; reflexivity.
  - apply (proj2 (proj2 (comparison_of_one_response
                    (condition "<" (PStr "5") "0") [answer "q" "10 or more"]
                    ["q"] (answer "q" "10 or more") "5"
                    eq_refl eq_refl eq_refl))
             "10 or more" true);
      reflexivity.
Defined.

Lemma holds_contains_number (f : PyFloat.float) (target : pyval) :
  holds (PFloat f) "contains" target = false
  /\ holds (PFloat f) "not_contains" target = false.
Proof.
  split; reflexivity.
Qed.

Lemma holds_between_text (s : string) (target : pyval) :
  holds (PStr s) "between" target = false.
Proof.
  unfold holds, evaluate_condition_logic.
  cbn [dict_get ops String.eqb Ascii.eqb Bool.eqb].
  unfold handle_between.
  destruct target as [t|f]; [|reflexivity].
  destruct (PyStr.first_char t); [|reflexivity].
  destruct (PyStr.last_char t); [|reflexivity].
  cbn [bind].
  destruct (PyStr.split "," (PyStr.slice_1_m1 t)) as [|lo [|hi [|x l]]];
    try reflexivity.
  destruct (py_float (PStr lo)); [|reflexivity].
  destruct (py_float (PStr hi)); [|reflexivity].
  cbn [bind]. destruct (Ascii.eqb a "["); reflexivity.
Qed.

(** X6.  The operators that need one kind of answer never hold of the
    other kind.  When every answer that is tested parses as a number, a
    condition with [contains] or [not_contains] is false, even if the
    digits of an answer contain the value; when no answer that is tested
    parses as a number, a condition with [between] is false.  Only a
    skipped answer under skip-as-true makes such a condition true. *)
Theorem operators_need_their_kind (cond : Condition) (rs : list Response)
    (qs : list string) :
  ((operator cond = "contains" \/ operator cond = "not_contains") ->
   (forall r, In r (relevant qs rs) -> live r = true -> numeric r = true) ->
   eval_single_condition cond rs qs
   = Ok (String.eqb (skip_behavior cond) "1"
         && existsb skipped (relevant qs rs)))
  /\ (operator cond = "between" ->
      (forall r, In r (relevant qs rs) -> live r = true ->
                 numeric r = false) ->
      eval_single_condition cond rs qs
      = Ok (String.eqb (skip_behavior cond) "1"
            && existsb skipped (relevant qs rs))).
Proof.
  assert (Hskip : forall (sub : list Response) sk op target,
            (forall r, In r sub -> live r = true ->
               holds (str2float (content r)) op (target_for op target r)
               = false) ->
            existsb (fires sk op target) sub = sk && existsb skipped sub).
  { intros sub sk op target. induction sub as [|r sub IH]; intros H.
    - now rewrite andb_false_r.
    - cbn [existsb]. rewrite IH by (intros r' Hin; apply H; now right).
      specialize (H r (or_introl eq_refl)). unfold fires, live in *.
      destruct (skipped r), (not_seen r); cbn in *;
        rewrite ?H by reflexivity; destruct sk; reflexivity. }
  split.
  - intros Hop Hnum.
    rewrite TaggingTheory.eval_single_condition_carry_free
      by (right; right; left; exact Hnum).
    assert (Hne : String.eqb (operator cond) "empty" = false)
      by (destruct Hop as [-> | ->]; reflexivity).
    rewrite Hne. cbn [andb orb]. f_equal. apply Hskip.
    intros r Hin Hlive. specialize (Hnum r Hin Hlive). unfold numeric in Hnum.
    destruct (str2float (content r)) as [s|f]; [discriminate|].
    destruct Hop as [-> | ->]; apply holds_contains_number.
  - intros Hop Hstr.
    rewrite TaggingTheory.eval_single_condition_carry_free
      by (left; exact Hop).
    rewrite Hop. cbn [String.eqb Ascii.eqb Bool.eqb andb orb]. f_equal.
    apply Hskip.
    intros r Hin Hlive. specialize (Hstr r Hin Hlive). unfold numeric in Hstr.
    destruct (str2float (content r)) as [s|f]; [|discriminate].
    apply holds_between_text.
Qed.

Lemma operators_need_their_kind_witness :
  eval_single_condition (condition "contains" (PStr "1") "0")
    [answer "q" "15"; answer "q" "21"] ["q"] = Ok false
  /\ eval_single_condition (condition "between" (PStr "[a,z]") "0")
       [answer "q" "m"] ["q"] = Ok false.
Proof.
  split.
  - apply (proj1 (operators_need_their_kind
                    (condition "contains" (PStr "1") "0")
                    [answer "q" "15"; answer "q" "21"] ["q"]));
      [left; reflexivity|].
    intros r [<-|[<-|[]]] _; reflexivity.
  - apply (proj2 (operators_need_their_kind
                    (condition "between" (PStr "[a,z]") "0")
                    [answer "q" "m"] ["q"]));
      [reflexivity|].
    intros r [<-|[]] _; reflexivity.
Defined.

(** X7.  On the only answer of a condition, [!=] is the negation of [==]
    and [not_empty] the negation of [empty], whatever the answer and the
    value are; [not_contains] is the negation of [contains] when the
    answer is a text and the value a string. *)
Theorem negated_operators (target : pyval) (skip : string)
    (rs : list Response) (qs : list string) (r : Response) :
  relevant qs rs = [r] -> live r = true ->
  (forall b,
     eval_single_condition (condition "==" target skip) rs qs = Ok b ->
     eval_single_condition (condition "!=" target skip) rs qs
     = Ok (negb b))
  /\ (forall b,
        eval_single_condition (condition "empty" target skip) rs qs = Ok b ->
        eval_single_condition (condition "not_empty" target skip) rs qs
        = Ok (negb b))
  /\ (forall s v b,
        str2float (content r) = PStr s -> target = PStr v ->
        eval_single_condition (condition "contains" target skip) rs qs
        = Ok b ->
        eval_single_condition (condition "not_contains" target skip) rs qs
        = Ok (negb b)).
Proof.
  intros Hsub Hlive.
  rewrite !(fun c => eval_single_condition_one c rs qs r Hsub Hlive).
  cbn [operator value condition]. unfold target_for.
  cbn [String.eqb Ascii.eqb Bool.eqb negb andb].
  split; [|split].
  - intros b H. injection H as <-. reflexivity.
  - intros b H. injection H as <-. reflexivity.
  - intros s v b Hs Hv. unfold numeric. rewrite Hs, Hv.
    cbn [is_float]. intros H. injection H as <-. reflexivity.
Qed.

Lemma negated_operators_witness :
  eval_single_condition (condition "!=" (PStr "yes") "0")
    [answer "q" "no"] ["q"] = Ok true
  /\ eval_single_condition (condition "not_contains" (PStr "pain") "0")
       [answer "q" "no pain today"] ["q"] = Ok false.
Proof.
  split.
  - apply (proj1 (negated_operators (PStr "yes") "0" [answer "q" "no"]
                    ["q"] (answer "q" "no") eq_refl eq_refl) false).
    reflexivity.
  - apply (proj2 (proj2 (negated_operators (PStr "pain") "0"
                           [answer "q" "no pain today"] ["q"]
                           (answer "q" "no pain today") eq_refl eq_refl))
             "no pain today" "pain" true);
      reflexivity.
Defined.

(** X8.  On the only answer of a condition, the operator [empty] holds
    exactly when the answer is the empty string or is not a number (NaN):
    a missing cell, or a text such as [nan] that parses to NaN. *)
Theorem empty_of_one_response (cond : Condition) (rs : list Response)
    (qs : list string) (r : Response) :
  relevant qs rs = [r] -> live r = true -> operator cond = "empty" ->
  (eval_single_condition cond rs qs = Ok true
   <-> content r = PStr ""
       \/ str2float (content r) = PFloat S754_nan)
  /\ exists b, eval_single_condition cond rs qs = Ok b.
Proof.
  intros Hsub Hlive Hop.
  rewrite (eval_single_condition_one cond rs qs r Hsub Hlive), Hop.
  cbn [evaluate_condition_logic dict_get ops String.eqb Ascii.eqb Bool.eqb
       try_except].
  split; [|eauto].
  unfold op_empty, str2float.
  destruct (content r) as [s|f]; cbn [py_float].
  - destruct (PyFloat.of_string s) as [f|] eqn:Hs; cbn [pd_isna py_eq].
    + rewrite orb_false_r. split.
      * intros H. injection H as H. right.
        destruct f; try discriminate. reflexivity.
      * intros [H|H].
        -- injection H as ->. discriminate Hs.
        -- injection H as ->. reflexivity.
    + cbn [orb]. split.
      * intros H. injection H as H. left. f_equal.
        now apply String.eqb_eq.
      * intros [H|H]; [|discriminate].
        injection H as ->. reflexivity.
  - cbn [pd_isna py_eq]. rewrite orb_false_r. split.
    + intros H. injection H as H. right.
      destruct f; try discriminate. reflexivity.
    + intros [H|H]; [discriminate|]. injection H as ->. reflexivity.
Qed.

Lemma empty_of_one_response_witness :
  eval_single_condition (condition "empty" (PFloat PyFloat.nan) "0")
    [answer "q" "NaN"] ["q"] = Ok true.
Proof.
  apply (proj1 (empty_of_one_response
                  (condition "empty" (PFloat PyFloat.nan) "0")
                  [answer "q" "NaN"] ["q"] (answer "q" "NaN")
                  eq_refl eq_refl eq_refl)).
  right. reflexivity.
Defined.

(** ** The run over the sessions *)

Lemma dict_get_set_same {V : Type} (d : dict V) (k : string) (v : V) :
  dict_get (dict_set d k v) k = Some v.
Proof.
  induction d as [|[k' v'] d IH]; cbn [dict_set dict_get].
  - now rewrite String.eqb_refl.
  - destruct (String.eqb k' k) eqn:Hk; cbn [dict_get].
    + now rewrite String.eqb_refl.
    + now rewrite Hk.
Qed.

Lemma dict_get_set_other {V : Type} (d : dict V) (k k' : string) (v : V) :
  k' <> k -> dict_get (dict_set d k v) k' = dict_get d k'.
Proof.
  intros Hne. apply String.eqb_neq in Hne.
  induction d as [|[k0 v0] d IH]; cbn [dict_set dict_get].
  - rewrite String.eqb_sym. now rewrite Hne.
  - destruct (String.eqb k0 k) eqn:Hk; cbn [dict_get].
    + apply String.eqb_eq in Hk. subst k0.
      rewrite String.eqb_sym. now rewrite Hne.
    + destruct (String.eqb k0 k'); [reflexivity|apply IH].
Qed.

Lemma isin_In (x : string) (l : list string) : isin x l = true <-> In x l.
Proof.
  unfold isin. rewrite existsb_exists. split.
  - intros [y [Hy He]]. apply String.eqb_eq in He. now subst.
  - intros H. exists x. split; [assumption|apply String.eqb_refl].
Qed.

Lemma empty_tag_lists_get (ids : list string) (k : string) :
  dict_get (empty_tag_lists ids) k = if isin k ids then Some [] else None.
Proof.
  unfold empty_tag_lists.
  enough (forall d : dict (list loc_value),
            (forall k' v, dict_get d k' = Some v -> v = []) ->
            dict_get (fold_left (fun d sid => dict_set d sid []) ids d) k
            = if isin k ids then Some []
              else dict_get d k) as H.
  { rewrite H; [reflexivity|]. intros k' v Hv. discriminate Hv. }
  induction ids as [|sid ids IH]; intros d Hd; cbn [fold_left].
  - reflexivity.
  - rewrite IH.
    + unfold isin. cbn [existsb]. fold (isin k ids).
      destruct (isin k ids); [now rewrite orb_true_r|].
      destruct (String.eqb k sid) eqn:Hk; cbn [orb].
      * apply String.eqb_eq in Hk. subst. apply dict_get_set_same.
      * apply String.eqb_neq in Hk. now apply dict_get_set_other.
    + intros k' v.
      destruct (String.eqb k' sid) eqn:Hk.
      * apply String.eqb_eq in Hk. subst.
        rewrite dict_get_set_same. congruence.
      * apply String.eqb_neq in Hk.
        rewrite dict_get_set_other by assumption. apply Hd.
Qed.

Lemma run_mapM_ext_in {A B : Type} (f g : A -> run B) (l : list A) :
  (forall a, In a l -> f a = g a) -> run_mapM f l = run_mapM g l.
Proof.
  induction l as [|a l IH]; intros H; cbn [run_mapM]; [reflexivity|].
  rewrite (H a) by now left.
  rewrite IH; [reflexivity|]. intros b Hb. apply H. now right.
Qed.

Lemma run_mapM_Done {A B : Type} (g : A -> B) (l : list A) :
  run_mapM (fun a => Done (g a)) l = Done (map g l).
Proof.
  induction l as [|a l IH]; cbn [run_mapM map run_bind]; [reflexivity|].
  now rewrite IH.
Qed.

Lemma titles_of_scalars (ts : list string) :
  titles_of (map (fun t => Scalar (Some t)) ts) = Done ts.
Proof.
  induction ts as [|t ts IH]; cbn [titles_of map]; [reflexivity|].
  now rewrite IH.
Qed.

Lemma join_tags_scalars (ts : list string) :
  join_tags (map (fun t => Scalar (Some t)) ts)
  = Done (String.concat ";" ts).
Proof. unfold join_tags. now rewrite titles_of_scalars. Qed.

Lemma flat_map_absent {A B : Type} (f : A -> list B) (l : list A) :
  (forall a, In a l -> f a = []) -> flat_map f l = [].
Proof.
  induction l as [|a l IH]; intros H; cbn [flat_map]; [reflexivity|].
  rewrite (H a) by now left. rewrite IH; [reflexivity|].
  intros b Hb. apply H. now right.
Qed.

Lemma flat_map_once {B : Type} (ids : list string) (sid : string)
    (L : list B) :
  NoDup ids -> In sid ids ->
  flat_map (fun s => if String.eqb s sid then L else []) ids = L.
Proof.
  induction ids as [|a ids IH]; intros Hnd Hin; [destruct Hin|].
  inversion Hnd as [|? ? Hna Hnd']; subst. cbn [flat_map].
  destruct (String.eqb a sid) eqn:Ha.
  - apply String.eqb_eq in Ha. subst a.
    rewrite flat_map_absent; [apply app_nil_r|].
    intros b Hb. destruct (String.eqb b sid) eqn:Hb'; [|reflexivity].
    apply String.eqb_eq in Hb'. now subst.
  - cbn [app]. apply IH; [assumption|].
    destruct Hin as [->|Hin]; [|assumption].
    now rewrite String.eqb_refl in Ha.
Qed.

Section RunFacts.

Variables (groups_df : list Group) (conditions_df : list Condition)
          (cond_qs_df : list CondQuestion) (tags_df : list Tag)
          (responses_df : list ResponseRow).

Local Abbreviation fires_here :=
  (fires_on groups_df conditions_df cond_qs_df responses_df).
Local Abbreviation tag_session_here :=
  (tag_session groups_df conditions_df cond_qs_df tags_df responses_df).
Local Abbreviation tag_sessions_here :=
  (tag_sessions groups_df conditions_df cond_qs_df tags_df responses_df).

Lemma eval_workflow_fires (sid : string) (wf_row : Workflow) :
  lift (eval_workflow wf_row groups_df conditions_df cond_qs_df
          (session_responses responses_df sid))
  = Done (fires_here sid wf_row).
Proof. unfold fires_on. now rewrite eval_workflow_ok. Qed.

(** One session: the values looked up for the workflows that fire are
    appended to the list of the session, the other lists are untouched. *)
Lemma tag_session_values (wfs : list Workflow) (sid : string) :
  forall (vals l : list loc_value) (d : dict (list loc_value)),
  run_mapM (fun w => tags_loc tags_df (workflow_tag_id w))
           (filter (fires_here sid) wfs) = Done vals ->
  dict_get d sid = Some l ->
  exists d',
    tag_session_here wfs sid d = Done d'
    /\ dict_get d' sid = Some (l ++ vals)%list
    /\ forall k, k <> sid -> dict_get d' k = dict_get d k.
Proof.
  induction wfs as [|w wfs IH]; intros vals l d Hvals Hd;
    cbn [filter tag_session] in *.
  - cbn [run_mapM] in Hvals. injection Hvals as <-.
    exists d. rewrite app_nil_r. auto.
  - rewrite eval_workflow_fires. cbn [run_bind].
    destruct (fires_here sid w).
    + cbn [run_mapM] in Hvals.
      destruct (tags_loc tags_df (workflow_tag_id w)) as [v|e];
        cbn [run_bind] in *; [|discriminate].
      destruct (run_mapM _ (filter _ wfs)) as [vs|e] eqn:Hvs;
        cbn [run_bind] in Hvals; [|discriminate].
      injection Hvals as <-.
      unfold dict_item. rewrite Hd. cbn [run_bind].
      destruct (IH vs (l ++ [v])%list (dict_set d sid (l ++ [v])%list)
                  eq_refl (dict_get_set_same _ _ _))
        as [d' [Hrun [Hsid Hother]]].
      exists d'. split; [exact Hrun|]. split.
      * rewrite Hsid. now rewrite <- app_assoc.
      * intros k Hk. rewrite Hother by assumption.
        now apply dict_get_set_other.
    + now apply IH.
Qed.

(** All the sessions: the list of a key is extended once for each
    occurrence of the key among the session identifiers. *)
Lemma tag_sessions_values (wfs : list Workflow)
    (vals : string -> list loc_value) (ids : list string) :
  forall d : dict (list loc_value),
  (forall sid, In sid ids ->
     run_mapM (fun w => tags_loc tags_df (workflow_tag_id w))
              (filter (fires_here sid) wfs) = Done (vals sid)) ->
  (forall sid, In sid ids -> dict_get d sid <> None) ->
  exists d',
    tag_sessions_here wfs ids d = Done d'
    /\ forall k,
         dict_get d' k
         = option_map
             (fun l => (l ++ flat_map (fun s => if String.eqb s k
                                                then vals k else []) ids)%list)
             (dict_get d k).
Proof.
  induction ids as [|sid ids IH]; intros d Hvals Hkeys;
    cbn [tag_sessions flat_map].
  - exists d. split; [reflexivity|]. intros k.
    destruct (dict_get d k); cbn [option_map]; [|reflexivity].
    now rewrite app_nil_r.
  - destruct (dict_get d sid) as [l|] eqn:Hd;
      [|exfalso; apply (Hkeys sid); [now left|assumption]].
    destruct (tag_session_values wfs sid (vals sid) l d
                (Hvals sid (or_introl eq_refl)) Hd)
      as [d1 [Hrun [Hsid Hother]]].
    rewrite Hrun. cbn [run_bind].
    destruct (IH d1) as [d' [Hrun' Hget]].
    + intros s Hs. apply Hvals. now right.
    + intros s Hs. destruct (String.eqb s sid) eqn:He.
      * apply String.eqb_eq in He. subst. rewrite Hsid. discriminate.
      * apply String.eqb_neq in He. rewrite Hother by assumption.
        apply Hkeys. now right.
    + exists d'. split; [exact Hrun'|]. intros k. rewrite Hget.
      destruct (String.eqb sid k) eqn:He.
      * apply String.eqb_eq in He. subst k. rewrite Hsid, Hd.
        cbn [option_map]. now rewrite <- app_assoc.
      * apply String.eqb_neq in He.
        rewrite Hother by (intros ->; now apply He).
        reflexivity.
Qed.

(** The run, when every lookup of a tag succeeds. *)
Lemma run_tagging_values (session_ids : list string)
    (workflows : list Workflow) (vals : string -> list loc_value) :
  (forall sid, In sid session_ids ->
     run_mapM (fun w => tags_loc tags_df (workflow_tag_id w))
              (fired_workflows groups_df conditions_df cond_qs_df
                               responses_df workflows sid)
     = Done (vals sid)) ->
  run_tagging groups_df conditions_df cond_qs_df tags_df responses_df
              session_ids workflows
  = run_mapM (fun sid =>
                join_tags (flat_map (fun s => if String.eqb s sid
                                              then vals sid else [])
                                    session_ids))
             session_ids.
Proof.
  intros Hvals. unfold run_tagging.
  destruct (tag_sessions_values
              (filter (fun w => String.eqb (workflow_type w) "1") workflows)
              vals session_ids (empty_tag_lists session_ids))
    as [d' [Hrun Hget]].
  - exact Hvals.
  - intros sid Hin. rewrite empty_tag_lists_get.
    apply isin_In in Hin. rewrite Hin. discriminate.
  - rewrite Hrun. cbn [run_bind]. apply run_mapM_ext_in.
    intros sid Hin. unfold dict_item. rewrite Hget, empty_tag_lists_get.
    apply isin_In in Hin. rewrite Hin. cbn [option_map run_bind app].
    reflexivity.
Qed.

Lemma titles_for_values (wfs : list Workflow) (ts : list string) :
  titles_for tags_df wfs = Some ts ->
  run_mapM (fun w => tags_loc tags_df (workflow_tag_id w)) wfs
  = Done (map (fun t => Scalar (Some t)) ts).
Proof.
  revert ts. induction wfs as [|w wfs IH]; intros ts H;
    cbn [titles_for run_mapM] in *.
  - injection H as <-. reflexivity.
  - unfold unique_tag in H.
    destruct (filter (fun t => String.eqb (tag_id t) (workflow_tag_id w))
                     tags_df) as [|t [|t' rest]] eqn:Hf;
      try discriminate.
    destruct (titles_for tags_df wfs) as [ts'|]; [|discriminate].
    destruct (title t) as [s|] eqn:Ht; [|discriminate].
    injection H as <-.
    replace (tags_loc tags_df (workflow_tag_id w))
      with (Done (Scalar (Some s)))
      by (unfold tags_loc; now rewrite Hf, Ht).
    cbn [run_bind]. rewrite (IH ts' eq_refl). reflexivity.
Qed.

End RunFacts.

(** X9.  When the session identifiers are distinct and each workflow that
    fires on a session has exactly one tag row, whose title cell is
    filled, the run succeeds and the tags of a session are the titles of
    the tagging workflows that fire on the responses of that session, in
    the order of the workflows table and joined with semicolons. *)
Theorem run_tagging_titles (groups_df : list Group)
    (conditions_df : list Condition) (cond_qs_df : list CondQuestion)
    (tags_df : list Tag) (responses_df : list ResponseRow)
    (session_ids : list string) (workflows : list Workflow)
    (titles : string -> list string) :
  NoDup session_ids ->
  (forall sid, In sid session_ids ->
     titles_for tags_df
       (fired_workflows groups_df conditions_df cond_qs_df responses_df
                        workflows sid)
     = Some (titles sid)) ->
  run_tagging groups_df conditions_df cond_qs_df tags_df responses_df
              session_ids workflows
  = Done (map (fun sid => String.concat ";" (titles sid)) session_ids).
Proof.
  intros Hnd Htitles.
  rewrite (run_tagging_values groups_df conditions_df cond_qs_df tags_df
             responses_df session_ids workflows
             (fun sid => map (fun t => Scalar (Some t)) (titles sid))).
  - rewrite <- run_mapM_Done. apply run_mapM_ext_in. intros sid Hin.
    rewrite flat_map_once by assumption. apply join_tags_scalars.
  - intros sid Hin. apply titles_for_values. now apply Htitles.
Qed.

Lemma run_tagging_titles_witness :
  run_tagging study_groups study_conditions study_links study_tags
              study_responses study_sessions study_workflows
  = Done ["No risk"; "Some risk"; "Some risk"; "High risk"; "High risk"].
Proof.
  apply (run_tagging_titles study_groups study_conditions study_links
           study_tags study_responses study_sessions study_workflows
           study_titles).
  - repeat constructor; cbn; intuition discriminate.
  - intros sid [<-|[<-|[<-|[<-|[<-|[]]]]]]; vm_compute; reflexivity.
Defined.

(** ** Repeated sessions, missing tags and ambiguous tags *)

Lemma flat_map_count {B : Type} (ids : list string) (sid : string)
    (L : list B) :
  flat_map (fun s => if String.eqb s sid then L else []) ids
  = List.concat (repeat L (count_occ string_dec ids sid)).
Proof.
  induction ids as [|a ids IH]; cbn [flat_map count_occ]; [reflexivity|].
  destruct (string_dec a sid) as [->|Hne].
  - rewrite String.eqb_refl. cbn [repeat List.concat]. now rewrite IH.
  - apply String.eqb_neq in Hne. rewrite Hne. exact IH.
Qed.

Lemma concat_repeat_map {A B : Type} (f : A -> B) (L : list A) (n : nat) :
  List.concat (repeat (map f L) n) = map f (List.concat (repeat L n)).
Proof.
  induction n as [|n IH]; cbn [repeat List.concat]; [reflexivity|].
  now rewrite IH, map_app.
Qed.

Lemma run_mapM_fails {A B : Type} (f : A -> run B) (l : list A)
    (e : run_exn) :
  run_mapM f l = Fail e -> exists a, In a l /\ f a = Fail e.
Proof.
  induction l as [|a l IH]; cbn [run_mapM]; [discriminate|].
  destruct (f a) as [b|e'] eqn:Hf; cbn [run_bind].
  - destruct (run_mapM f l) as [bs|e'']; cbn [run_bind]; [discriminate|].
    intros H. injection H as <-.
    destruct (IH eq_refl) as [a' [Hin Ha']].
    exists a'. split; [now right|assumption].
  - intros H. injection H as <-. exists a. split; [now left|assumption].
Qed.

Lemma run_mapM_succeeds {A B : Type} (f : A -> run B) (l : list A) :
  (forall a, In a l -> exists b, f a = Done b) ->
  exists bs, run_mapM f l = Done bs.
Proof.
  induction l as [|a l IH]; intros H; cbn [run_mapM]; [eauto|].
  destruct (H a (or_introl eq_refl)) as [b ->].
  destruct IH as [bs ->]; [intros a' Ha'; apply H; now right|].
  cbn [run_bind]. eauto.
Qed.

Lemma run_mapM_In {A B : Type} (f : A -> run B) (l : list A) (bs : list B)
    (a : A) :
  run_mapM f l = Done bs -> In a l -> exists b, f a = Done b /\ In b bs.
Proof.
  revert bs. induction l as [|a' l IH]; intros bs H Hin; [destruct Hin|].
  cbn [run_mapM] in H.
  destruct (f a') as [b|e] eqn:Hf; cbn [run_bind] in H; [|discriminate].
  destruct (run_mapM f l) as [bs'|e]; cbn [run_bind] in H; [|discriminate].
  injection H as <-. destruct Hin as [<-|Hin].
  - exists b. split; [assumption|now left].
  - destruct (IH bs' eq_refl Hin) as [b' [Hb' Hin']].
    exists b'. split; [assumption|now right].
Qed.

Lemma filter_nil_no_match {A : Type} (f : A -> bool) (l : list A) :
  filter f l = [] -> forall a, In a l -> f a = false.
Proof.
  intros H a Hin. destruct (f a) eqn:Hf; [|reflexivity].
  assert (Hin' : In a (filter f l)) by now apply filter_In.
  rewrite H in Hin'. destruct Hin'.
Qed.

Section RunOutcomes.

Variables (groups_df : list Group) (conditions_df : list Condition)
          (cond_qs_df : list CondQuestion) (tags_df : list Tag)
          (responses_df : list ResponseRow).

Local Abbreviation fired :=
  (fired_workflows groups_df conditions_df cond_qs_df responses_df).
Local Abbreviation run_here :=
  (run_tagging groups_df conditions_df cond_qs_df tags_df responses_df).
Local Abbreviation lookup :=
  (run_mapM (fun w => tags_loc tags_df (workflow_tag_id w))).
Local Abbreviation tags_of w :=
  (filter (fun t => String.eqb (tag_id t) (workflow_tag_id w)) tags_df).

(** X10.  A session identifier that occurs several times among the
    sessions shares one list of tags: when each workflow that fires has
    exactly one tag row, whose title cell is filled, every row of the
    session gets the titles of its workflows once for each occurrence of
    the identifier. *)
Theorem run_tagging_repeated_sessions (session_ids : list string)
    (workflows : list Workflow) (titles : string -> list string) :
  (forall sid, In sid session_ids ->
     titles_for tags_df (fired workflows sid) = Some (titles sid)) ->
  run_here session_ids workflows
  = Done (map (fun sid =>
                 String.concat ";"
                   (List.concat (repeat (titles sid)
                                   (count_occ string_dec session_ids sid))))
              session_ids).
Proof.
  intros Htitles.
  rewrite (run_tagging_values groups_df conditions_df cond_qs_df tags_df
             responses_df session_ids workflows
             (fun sid => map (fun t => Scalar (Some t)) (titles sid))).
  - rewrite <- run_mapM_Done. apply run_mapM_ext_in. intros sid Hin.
    rewrite flat_map_count, concat_repeat_map. apply join_tags_scalars.
  - intros sid Hin. apply titles_for_values. now apply Htitles.
Qed.

Lemma lookup_fails (wfs : list Workflow) (e : run_exn) :
  lookup wfs = Fail e ->
  exists w, In w wfs /\ e = KeyError (workflow_tag_id w) /\ tags_of w = [].
Proof.
  intros H. apply run_mapM_fails in H. destruct H as [w [Hin Hw]].
  exists w. split; [assumption|]. unfold tags_loc in Hw.
  destruct (tags_of w) as [|t [|t' rest]]; try discriminate.
  injection Hw as <-. split; reflexivity.
Qed.

Lemma tag_session_fails (wfs : list Workflow) (sid : string) (e : run_exn) :
  forall (l : list loc_value) (d : dict (list loc_value)),
  lookup (filter (fires_on groups_df conditions_df cond_qs_df responses_df
                           sid) wfs) = Fail e ->
  dict_get d sid = Some l ->
  tag_session groups_df conditions_df cond_qs_df tags_df responses_df
              wfs sid d = Fail e.
Proof.
  induction wfs as [|w wfs IH]; intros l d Hfail Hd;
    cbn [filter tag_session] in *; [discriminate|].
  rewrite eval_workflow_fires. cbn [run_bind].
  destruct (fires_on _ _ _ _ sid w).
  - cbn [run_mapM] in Hfail.
    destruct (tags_loc tags_df (workflow_tag_id w)) as [v|e'];
      cbn [run_bind] in *; [|congruence].
    unfold dict_item. rewrite Hd. cbn [run_bind].
    apply (IH (l ++ [v])%list); [|apply dict_get_set_same].
    destruct (run_mapM _ (filter _ wfs)) as [vs|e'];
      cbn [run_bind] in Hfail; congruence.
  - now apply (IH l).
Qed.

Lemma tag_sessions_fails (wfs : list Workflow) (ids : list string) :
  forall d : dict (list loc_value),
  (forall sid, In sid ids -> dict_get d sid <> None) ->
  (exists sid e,
     In sid ids
     /\ lookup (filter (fires_on groups_df conditions_df cond_qs_df
                                 responses_df sid) wfs) = Fail e) ->
  exists sid e,
    In sid ids
    /\ lookup (filter (fires_on groups_df conditions_df cond_qs_df
                                responses_df sid) wfs) = Fail e
    /\ tag_sessions groups_df conditions_df cond_qs_df tags_df responses_df
                    wfs ids d = Fail e.
Proof.
  induction ids as [|sid ids IH]; intros d Hkeys [sid0 [e0 [Hin0 Hfail0]]];
    [destruct Hin0|].
  cbn [tag_sessions].
  destruct (dict_get d sid) as [l|] eqn:Hd;
    [|exfalso; apply (Hkeys sid); [now left|assumption]].
  destruct (lookup (filter (fires_on groups_df conditions_df cond_qs_df
                                     responses_df sid) wfs))
    as [vals|e] eqn:Hsid.
  - destruct (tag_session_values groups_df conditions_df cond_qs_df tags_df
                responses_df wfs sid vals l d Hsid Hd)
      as [d1 [Hrun [Hsame Hother]]].
    rewrite Hrun. cbn [run_bind].
    destruct (IH d1) as [sid' [e' [Hin' [Hfail' Hrun']]]].
    + intros s Hs. destruct (String.eqb s sid) eqn:He.
      * apply String.eqb_eq in He. subst. rewrite Hsame. discriminate.
      * apply String.eqb_neq in He. rewrite Hother by assumption.
        apply Hkeys. now right.
    + exists sid0, e0. split; [|assumption].
      destruct Hin0 as [->|Hin0]; [congruence|assumption].
    + exists sid', e'. split; [now right|]. split; assumption.
  - exists sid, e. split; [now left|]. split; [assumption|].
    now rewrite (tag_session_fails wfs sid e l d Hsid Hd).
Qed.

(** X11.  When a workflow that fires on one of the sessions names a tag
    that the tags table does not have, the whole run stops with a
    [KeyError] on such a tag identifier: no session gets its tags. *)
Theorem run_tagging_missing_tag (session_ids : list string)
    (workflows : list Workflow) (sid : string) (w : Workflow) :
  In sid session_ids -> In w (fired workflows sid) ->
  (forall t, In t tags_df -> tag_id t <> workflow_tag_id w) ->
  exists sid' w',
    In sid' session_ids /\ In w' (fired workflows sid')
    /\ (forall t, In t tags_df -> tag_id t <> workflow_tag_id w')
    /\ run_here session_ids workflows = Fail (KeyError (workflow_tag_id w')).
Proof.
  intros Hin Hw Hmissing.
  assert (Hfail : exists e, lookup (fired workflows sid) = Fail e).
  { destruct (lookup (fired workflows sid)) as [vals|e] eqn:Hl; [|eauto].
    destruct (run_mapM_In _ _ _ w Hl Hw) as [v [Hv _]].
    unfold tags_loc in Hv. rewrite ListFacts.filter_none in Hv;
      [discriminate|].
    intros t Ht. apply String.eqb_neq. now apply Hmissing. }
  destruct Hfail as [e Hfail].
  destruct (tag_sessions_fails
              (filter (fun w => String.eqb (workflow_type w) "1") workflows)
              session_ids (empty_tag_lists session_ids))
    as [sid' [e' [Hin' [Hfail' Hrun]]]].
  - intros s Hs. rewrite empty_tag_lists_get.
    apply isin_In in Hs. rewrite Hs. discriminate.
  - exists sid, e. split; assumption.
  - destruct (lookup_fails _ _ Hfail') as [w' [Hw' [-> Hnone]]].
    exists sid', w'. split; [assumption|]. split; [exact Hw'|]. split.
    + intros t Ht. apply String.eqb_neq.
      exact (filter_nil_no_match _ _ Hnone t Ht).
    + unfold run_tagging. rewrite Hrun. reflexivity.
Qed.

Lemma tags_loc_found (w : Workflow) :
  tags_of w <> [] -> exists v, tags_loc tags_df (workflow_tag_id w) = Done v.
Proof.
  intros H. unfold tags_loc.
  destruct (tags_of w) as [|t [|t' rest]]; [now destruct H|eauto|eauto].
Qed.

Lemma lookups_all_or_fail (wfs : list Workflow) (ids : list string) :
  (forall sid, In sid ids ->
     exists vals,
       lookup (filter (fires_on groups_df conditions_df cond_qs_df
                                responses_df sid) wfs) = Done vals)
  \/ (exists sid e,
        In sid ids
        /\ lookup (filter (fires_on groups_df conditions_df cond_qs_df
                                    responses_df sid) wfs) = Fail e).
Proof.
  induction ids as [|sid ids [IH|[sid' [e [Hin He]]]]].
  - left. intros sid [].
  - destruct (lookup (filter (fires_on groups_df conditions_df cond_qs_df
                                       responses_df sid) wfs))
      as [vals|e] eqn:Hl.
    + left. intros s [<-|Hs]; [eauto|now apply IH].
    + right. exists sid, e. split; [now left|assumption].
  - right. exists sid', e. split; [now right|assumption].
Qed.

(** The values of the tags of the workflows that fire on a session. *)
Lemma run_tagging_looked_up (session_ids : list string)
    (workflows : list Workflow) :
  (forall sid, In sid session_ids ->
     exists vals, lookup (fired workflows sid) = Done vals) ->
  exists vals : string -> list loc_value,
    (forall sid, In sid session_ids ->
       lookup (fired workflows sid) = Done (vals sid))
    /\ run_here session_ids workflows
       = run_mapM (fun sid =>
                     join_tags (flat_map (fun s => if String.eqb s sid
                                                   then vals sid else [])
                                         session_ids))
                  session_ids.
Proof.
  intros Hall.
  exists (fun sid => match lookup (fired workflows sid) with
                     | Done v => v
                     | Fail _ => []
                     end).
  assert (H : forall sid, In sid session_ids ->
                lookup (fired workflows sid)
                = Done (match lookup (fired workflows sid) with
                        | Done v => v
                        | Fail _ => []
                        end)).
  { intros sid Hin. destruct (Hall sid Hin) as [vals ->]. reflexivity. }
  split; [exact H|].
  now apply run_tagging_values.
Qed.

(** An item that [str.join] refuses: NaN or a series. *)
Lemma join_tags_no_string (items : list loc_value) (v : loc_value) :
  In v items -> v = Scalar None \/ (exists ts, v = Series ts) ->
  join_tags items = Fail JoinTypeError.
Proof.
  unfold join_tags. intros Hin Hv.
  induction items as [|[[t|]|ts'] items IH]; [destruct Hin| | |];
    cbn [titles_of run_bind]; try reflexivity.
  destruct Hin as [<-|Hin];
    [destruct Hv as [Hv|[ts Hv]]; discriminate Hv|].
  specialize (IH Hin).
  destruct (titles_of items) as [l|e]; cbn [run_bind] in *;
    [discriminate IH|exact IH].
Qed.

Lemma join_tags_series (items : list loc_value)
    (ts : list (option string)) :
  In (Series ts) items -> join_tags items = Fail JoinTypeError.
Proof.
  intros Hin. apply (join_tags_no_string items (Series ts) Hin).
  right. now exists ts.
Qed.

Lemma join_tags_fails (items : list loc_value) (e : run_exn) :
  join_tags items = Fail e ->
  e = JoinTypeError
  /\ (In (Scalar None) items \/ exists ts, In (Series ts) items).
Proof.
  unfold join_tags.
  induction items as [|[[t|]|ts] items IH]; cbn [titles_of run_bind].
  - discriminate.
  - destruct (titles_of items) as [l|e']; cbn [run_bind] in *;
      [discriminate|].
    intros H. destruct (IH H) as [He [Hnone|[ts Hts]]].
    + split; [assumption|]. left. now right.
    + split; [assumption|]. right. exists ts. now right.
  - intros H. injection H as <-. split; [reflexivity|]. left. now left.
  - intros H. injection H as <-. split; [reflexivity|].
    right. exists ts. now left.
Qed.

Lemma run_mapM_one_failure {A B : Type} (f : A -> run B) (l : list A)
    (e : run_exn) :
  (forall a e', In a l -> f a = Fail e' -> e' = e) ->
  (exists a, In a l /\ f a = Fail e) ->
  run_mapM f l = Fail e.
Proof.
  intros Honly [a [Hin Ha]].
  destruct (run_mapM f l) as [bs|e'] eqn:Hrun.
  - destruct (run_mapM_In f l bs a Hrun Hin) as [b [Hb _]]. congruence.
  - destruct (run_mapM_fails f l e' Hrun) as [a' [Hin' Ha']].
    now rewrite (Honly a' e' Hin' Ha').
Qed.

Lemma run_mapM_In_inv {A B : Type} (f : A -> run B) (l : list A)
    (bs : list B) (b : B) :
  run_mapM f l = Done bs -> In b bs -> exists a, In a l /\ f a = Done b.
Proof.
  revert bs. induction l as [|a l IH]; intros bs H Hin; cbn [run_mapM] in H.
  - injection H as <-. destruct Hin.
  - destruct (f a) as [b'|e] eqn:Hf; cbn [run_bind] in H; [|discriminate].
    destruct (run_mapM f l) as [bs'|e]; cbn [run_bind] in H; [|discriminate].
    injection H as <-. destruct Hin as [<-|Hin].
    + exists a. split; [now left|assumption].
    + destruct (IH bs' eq_refl Hin) as [a' [Ha' Hfa']].
      exists a'. split; [now right|assumption].
Qed.

(** X12.  When every workflow that fires has a tag but one of them has
    its tag identifier on two or more rows of the tags table, the lookup
    gives a series in place of a title and the run stops, after all the
    sessions were evaluated, with the [TypeError] of [str.join]. *)
Theorem run_tagging_ambiguous_tag (session_ids : list string)
    (workflows : list Workflow) (sid : string) (w : Workflow)
    (t1 t2 : Tag) (rest : list Tag) :
  (forall sid' w', In sid' session_ids -> In w' (fired workflows sid') ->
     exists t, In t tags_df /\ tag_id t = workflow_tag_id w') ->
  In sid session_ids -> In w (fired workflows sid) ->
  tags_of w = t1 :: t2 :: rest ->
  run_here session_ids workflows = Fail JoinTypeError.
Proof.
  intros Hpresent Hin Hw Htwo.
  destruct (run_tagging_looked_up session_ids workflows)
    as [vals [Hvals ->]].
  { intros sid' Hin'. apply run_mapM_succeeds. intros w' Hw'.
    apply tags_loc_found. intros Hnone.
    destruct (Hpresent sid' w' Hin' Hw') as [t [Ht Hid]].
    apply (filter_nil_no_match _ _ Hnone) in Ht.
    apply String.eqb_neq in Ht. now apply Ht. }
  apply run_mapM_one_failure.
  - intros s e _ He. now destruct (join_tags_fails _ _ He).
  - exists sid. split; [assumption|].
    apply (join_tags_series _ (map title (t1 :: t2 :: rest))).
    apply in_flat_map. exists sid. split; [assumption|].
    rewrite String.eqb_refl.
    destruct (run_mapM_In _ _ _ w (Hvals sid Hin) Hw) as [v [Hv Hv']].
    unfold tags_loc in Hv. rewrite Htwo in Hv. injection Hv as <-.
    exact Hv'.
Qed.

(** X13.  The run can stop in three ways only, each on the tag of a
    workflow that fires on one of the sessions: a [KeyError] on a tag
    identifier that the tags table does not have, and the [TypeError] of
    [str.join] either for a tag identifier that two or more rows have or
    for a tag whose only row has no title.  The evaluation of the
    conditions never stops it. *)
Theorem run_tagging_failure_modes (session_ids : list string)
    (workflows : list Workflow) (e : run_exn) :
  run_here session_ids workflows = Fail e ->
  exists sid w,
    In sid session_ids /\ In w (fired workflows sid)
    /\ ((e = KeyError (workflow_tag_id w) /\ tags_of w = [])
        \/ (e = JoinTypeError /\ (2 <= List.length (tags_of w))%nat)
        \/ (e = JoinTypeError
            /\ exists t, tags_of w = [t] /\ title t = None)).
Proof.
  intros Hrun.
  destruct (lookups_all_or_fail
              (filter (fun w => String.eqb (workflow_type w) "1") workflows)
              session_ids) as [Hall|Hfail].
  - destruct (run_tagging_looked_up session_ids workflows Hall)
      as [vals [Hvals Heq]].
    rewrite Heq in Hrun. apply run_mapM_fails in Hrun.
    destruct Hrun as [sid [Hin Hjoin]].
    apply join_tags_fails in Hjoin. destruct Hjoin as [-> Hitem].
    assert (Hv : exists v, In v (vals sid)
                           /\ (v = Scalar None \/ exists ts, v = Series ts)).
    { destruct Hitem as [Hnone|[ts Hts]].
      - apply in_flat_map in Hnone. destruct Hnone as [s [Hs Hnone]].
        destruct (String.eqb s sid); [|destruct Hnone].
        exists (Scalar None). split; [assumption|now left].
      - apply in_flat_map in Hts. destruct Hts as [s [Hs Hts]].
        destruct (String.eqb s sid); [|destruct Hts].
        exists (Series ts). split; [assumption|right; now exists ts]. }
    destruct Hv as [v [Hv Hkind]].
    destruct (run_mapM_In_inv _ _ _ _ (Hvals sid Hin) Hv) as [w [Hw Hloc]].
    exists sid, w. split; [assumption|]. split; [assumption|]. right.
    unfold tags_loc in Hloc.
    destruct (tags_of w) as [|t [|t' rest]]; [discriminate| |].
    + right. split; [reflexivity|]. exists t. split; [reflexivity|].
      injection Hloc as Hloc.
      destruct Hkind as [->|[ts ->]]; [|discriminate].
      now injection Hloc.
    + left. split; [reflexivity|].
      cbn [List.length]. apply le_n_S, le_n_S, Nat.le_0_l.
  - destruct (tag_sessions_fails
                (filter (fun w => String.eqb (workflow_type w) "1")
                        workflows)
                session_ids (empty_tag_lists session_ids))
      as [sid [e' [Hin [Hfail' Hrun']]]]; [|exact Hfail|].
    { intros s Hs. rewrite empty_tag_lists_get.
      apply isin_In in Hs. rewrite Hs. discriminate. }
    unfold run_tagging in Hrun. rewrite Hrun' in Hrun.
    cbn [run_bind] in Hrun. injection Hrun as <-.
    destruct (lookup_fails _ _ Hfail') as [w [Hw [-> Hnone]]].
    exists sid, w. split; [assumption|]. split; [exact Hw|]. left.
    split; [reflexivity|assumption].
Qed.

(** X29.  When every workflow that fires has a tag but one of them has a
    single tag row whose title cell is missing, the lookup gives NaN in
    place of a title and the run stops, after all the sessions were
    evaluated, with the [TypeError] of [str.join]. *)
Theorem run_tagging_missing_title (session_ids : list string)
    (workflows : list Workflow) (sid : string) (w : Workflow) (t : Tag) :
  (forall sid' w', In sid' session_ids -> In w' (fired workflows sid') ->
     exists t', In t' tags_df /\ tag_id t' = workflow_tag_id w') ->
  In sid session_ids -> In w (fired workflows sid) ->
  tags_of w = [t] -> title t = None ->
  run_here session_ids workflows = Fail JoinTypeError.
Proof.
  intros Hpresent Hin Hw Hone Hnone.
  destruct (run_tagging_looked_up session_ids workflows)
    as [vals [Hvals ->]].
  { intros sid' Hin'. apply run_mapM_succeeds. intros w' Hw'.
    apply tags_loc_found. intros Hnil.
    destruct (Hpresent sid' w' Hin' Hw') as [t' [Ht' Hid]].
    apply (filter_nil_no_match _ _ Hnil) in Ht'.
    apply String.eqb_neq in Ht'. now apply Ht'. }
  apply run_mapM_one_failure.
  - intros s e _ He. now destruct (join_tags_fails _ _ He).
  - exists sid. split; [assumption|].
    apply (join_tags_no_string _ (Scalar None)); [|now left].
    apply in_flat_map. exists sid. split; [assumption|].
    rewrite String.eqb_refl.
    destruct (run_mapM_In _ _ _ w (Hvals sid Hin) Hw) as [v [Hv Hv']].
    unfold tags_loc in Hv. rewrite Hone, Hnone in Hv. injection Hv as <-.
    exact Hv'.
Qed.

End RunOutcomes.

Lemma run_tagging_repeated_sessions_witness :
  run_tagging study_groups study_conditions study_links study_tags
              study_responses ["s1"; "s4"; "s1"] study_workflows
  = Done ["No risk;No risk"; "High risk"; "No risk;No risk"].
Proof.
  apply (run_tagging_repeated_sessions study_groups study_conditions
           study_links study_tags study_responses ["s1"; "s4"; "s1"]
           study_workflows study_titles).
  intros sid [<-|[<-|[<-|[]]]]; vm_compute; reflexivity.
Defined.

Lemma run_tagging_missing_tag_witness :
  exists k,
    run_tagging study_groups study_conditions study_links
                [{| tag_id := "tag_no"; title := Some "No risk" |}]
                study_responses study_sessions study_workflows
    = Fail (KeyError k).
Proof.
  destruct (run_tagging_missing_tag study_groups study_conditions
              study_links [{| tag_id := "tag_no"; title := Some "No risk" |}]
              study_responses study_sessions study_workflows
              "s2" (workflow "wf_some" "OR" "tag_some"))
    as [sid' [w' [_ [_ [_ H]]]]].
  - right. left. reflexivity.
  - vm_compute. left. reflexivity.
  - intros t [<-|[]]. discriminate.
  - exists (workflow_tag_id w'). exact H.
Defined.

Lemma run_tagging_ambiguous_tag_witness :
  run_tagging study_groups study_conditions study_links
              ({| tag_id := "tag_no"; title := Some "Safe" |} :: study_tags)
              study_responses study_sessions study_workflows
  = Fail JoinTypeError.
Proof.
  apply (run_tagging_ambiguous_tag study_groups study_conditions
           study_links ({| tag_id := "tag_no"; title := Some "Safe" |}
                          :: study_tags)
           study_responses study_sessions study_workflows
           "s1" (workflow "wf_no" "AND" "tag_no")
           {| tag_id := "tag_no"; title := Some "Safe" |}
           {| tag_id := "tag_no"; title := Some "No risk" |} []).
  - intros sid' w' [<-|[<-|[<-|[<-|[<-|[]]]]]] Hw'; vm_compute in Hw';
      destruct Hw' as [<-|[]];
      first
        [ exists {| tag_id := "tag_no"; title := Some "No risk" |};
          split; [cbn; auto 6|reflexivity]
        | exists {| tag_id := "tag_some"; title := Some "Some risk" |};
          split; [cbn; auto 6|reflexivity]
        | exists {| tag_id := "tag_high"; title := Some "High risk" |};
          split; [cbn; auto 6|reflexivity] ].
  - left. reflexivity.
  - vm_compute. left. reflexivity.
  - reflexivity.
Defined.

Lemma run_tagging_failure_modes_witness :
  exists sid w,
    In sid study_sessions
    /\ In w (fired_workflows study_groups study_conditions study_links
                             study_responses study_workflows sid)
    /\ ((KeyError "tag_some" = KeyError (workflow_tag_id w)
         /\ filter (fun t => String.eqb (tag_id t) (workflow_tag_id w))
                   [{| tag_id := "tag_no"; title := Some "No risk" |}] = [])
        \/ (KeyError "tag_some" = JoinTypeError
            /\ (2 <= List.length
                       (filter (fun t => String.eqb (tag_id t)
                                                    (workflow_tag_id w))
                               [{| tag_id := "tag_no";
                                   title := Some "No risk" |}]))%nat)
        \/ (KeyError "tag_some" = JoinTypeError
            /\ exists t,
                 filter (fun t => String.eqb (tag_id t) (workflow_tag_id w))
                        [{| tag_id := "tag_no"; title := Some "No risk" |}]
                 = [t]
                 /\ title t = None)).
Proof.
  apply (run_tagging_failure_modes study_groups study_conditions
           study_links [{| tag_id := "tag_no"; title := Some "No risk" |}]
           study_responses study_sessions study_workflows
           (KeyError "tag_some")).
  vm_compute. reflexivity.
Defined.

Lemma run_tagging_missing_title_witness :
  run_tagging study_groups study_conditions study_links
              [{| tag_id := "tag_no"; title := None |};
               {| tag_id := "tag_some"; title := Some "Some risk" |};
               {| tag_id := "tag_high"; title := Some "High risk" |}]
              study_responses study_sessions study_workflows
  = Fail JoinTypeError.
Proof.
  apply (run_tagging_missing_title study_groups study_conditions
           study_links
           [{| tag_id := "tag_no"; title := None |};
            {| tag_id := "tag_some"; title := Some "Some risk" |};
            {| tag_id := "tag_high"; title := Some "High risk" |}]
           study_responses study_sessions study_workflows
           "s1" (workflow "wf_no" "AND" "tag_no")
           {| tag_id := "tag_no"; title := None |}).
  - intros sid' w' [<-|[<-|[<-|[<-|[<-|[]]]]]] Hw'; vm_compute in Hw';
      destruct Hw' as [<-|[]];
      first
        [ exists {| tag_id := "tag_no"; title := None |};
          split; [cbn; auto 6|reflexivity]
        | exists {| tag_id := "tag_some"; title := Some "Some risk" |};
          split; [cbn; auto 6|reflexivity]
        | exists {| tag_id := "tag_high"; title := Some "High risk" |};
          split; [cbn; auto 6|reflexivity] ].
  - left. reflexivity.
  - vm_compute. left. reflexivity.
  - reflexivity.
  - reflexivity.
Defined.

(** ** Each session is tagged on its own responses *)

Lemma tag_session_own_responses (groups_df : list Group)
    (conditions_df : list Condition) (cond_qs_df : list CondQuestion)
    (tags_df : list Tag) (responses responses' : list ResponseRow)
    (wfs : list Workflow) (sid : string) :
  session_responses responses sid = session_responses responses' sid ->
  forall d,
    tag_session groups_df conditions_df cond_qs_df tags_df responses
                wfs sid d
    = tag_session groups_df conditions_df cond_qs_df tags_df responses'
                  wfs sid d.
Proof.
  intros H. induction wfs as [|w wfs IH]; intros d; cbn [tag_session];
    [reflexivity|].
  rewrite H.
  destruct (lift _) as [[|]|e]; cbn [run_bind]; [|apply IH|reflexivity].
  destruct (tags_loc _ _); cbn [run_bind]; [|reflexivity].
  destruct (dict_item d sid); cbn [run_bind]; [apply IH|reflexivity].
Qed.

Lemma tag_sessions_own_responses (groups_df : list Group)
    (conditions_df : list Condition) (cond_qs_df : list CondQuestion)
    (tags_df : list Tag) (responses responses' : list ResponseRow)
    (wfs : list Workflow) (ids : list string) :
  (forall sid, In sid ids ->
     session_responses responses sid = session_responses responses' sid) ->
  forall d,
    tag_sessions groups_df conditions_df cond_qs_df tags_df responses
                 wfs ids d
    = tag_sessions groups_df conditions_df cond_qs_df tags_df responses'
                   wfs ids d.
Proof.
  induction ids as [|sid ids IH]; intros H d; cbn [tag_sessions];
    [reflexivity|].
  rewrite (tag_session_own_responses groups_df conditions_df cond_qs_df
             tags_df responses responses' wfs sid
             (H sid (or_introl eq_refl))).
  destruct (tag_session _ _ _ _ _ _ _ _); cbn [run_bind]; [|reflexivity].
  apply IH. intros s Hs. apply H. now right.
Qed.

(** X14.  The rows of the responses table that belong to no listed
    session have no effect on the run, wherever they stand in the table,
    and neither has the order of two neighbouring rows that belong to
    different sessions: the result, tags or failure, is the same. *)
Theorem run_tagging_own_responses (groups_df : list Group)
    (conditions_df : list Condition) (cond_qs_df : list CondQuestion)
    (tags_df : list Tag) (before extra after : list ResponseRow)
    (a b : ResponseRow) (session_ids : list string)
    (workflows : list Workflow) :
  (forall r, In r extra -> ~ In (resp_session_id r) session_ids) ->
  resp_session_id a <> resp_session_id b ->
  run_tagging groups_df conditions_df cond_qs_df tags_df
              (before ++ extra ++ after)%list session_ids workflows
  = run_tagging groups_df conditions_df cond_qs_df tags_df
                (before ++ after)%list session_ids workflows
  /\ run_tagging groups_df conditions_df cond_qs_df tags_df
                 (before ++ a :: b :: after)%list session_ids workflows
     = run_tagging groups_df conditions_df cond_qs_df tags_df
                   (before ++ b :: a :: after)%list session_ids workflows.
Proof.
  intros Hextra Hab. split; unfold run_tagging.
  - rewrite (tag_sessions_own_responses groups_df conditions_df cond_qs_df
               tags_df (before ++ extra ++ after)%list
               (before ++ after)%list _ session_ids); [reflexivity|].
    intros sid Hin. unfold session_responses.
    rewrite !filter_app. do 2 f_equal.
    rewrite ListFacts.filter_none; [reflexivity|].
    intros r Hr. apply String.eqb_neq. intros Heq.
    apply (Hextra r Hr). now rewrite Heq.
  - rewrite (tag_sessions_own_responses groups_df conditions_df cond_qs_df
               tags_df (before ++ a :: b :: after)%list
               (before ++ b :: a :: after)%list _ session_ids);
      [reflexivity|].
    intros sid _. unfold session_responses.
    rewrite !filter_app. cbn [filter].
    destruct (String.eqb_spec (resp_session_id a) sid) as [Ha|_];
      destruct (String.eqb_spec (resp_session_id b) sid) as [Hb|_];
      try reflexivity.
    exfalso. apply Hab. now rewrite Ha, Hb.
Qed.

Lemma run_tagging_own_responses_witness :
  run_tagging study_groups study_conditions study_links study_tags
              (study_session "s1" "0" "0" ++ study_session "s9" "8" "8"
               ++ study_session "s4" "8" "0")%list
              ["s1"; "s4"] study_workflows
  = run_tagging study_groups study_conditions study_links study_tags
                (study_session "s1" "0" "0" ++ study_session "s4" "8" "0")%list
                ["s1"; "s4"] study_workflows.
Proof.
  destruct (run_tagging_own_responses study_groups study_conditions
              study_links study_tags (study_session "s1" "0" "0")
              (study_session "s9" "8" "8") (study_session "s4" "8" "0")
              {| resp_session_id := "s1";
                 resp_fields := answer "q_intent" "0" |}
              {| resp_session_id := "s4";
                 resp_fields := answer "q_intent" "8" |}
              ["s1"; "s4"] study_workflows) as [H _].
  - intros r [<-|[<-|[]]] [H|[H|[]]]; discriminate H.
  - discriminate.
  - exact H.
Defined.

End TaggingRunTheory.

(** * Further properties of the payment calculator *)

Module PaymentsFlowTheory.

Import Payments.
Import PyRun.
Import PaymentsFlow.

(** ** The participants of the sessions table *)

Lemma unique_from_In (seen l : list string) (x : string) :
  In x (unique_from seen l) <-> In x l /\ ~ In x seen.
Proof.
  revert seen. induction l as [|a l IH]; intros seen; cbn [unique_from].
  - split; [intros []|intros [[] _]].
  - destruct (Tagging.isin a seen) eqn:Ha.
    + apply TaggingRunTheory.isin_In in Ha. rewrite IH. split.
      * intros [Hin Hout]. split; [now right|assumption].
      * intros [[<-|Hin] Hout]; [contradiction|now split].
    + assert (Hout : ~ In a seen).
      { intros Hin. apply TaggingRunTheory.isin_In in Hin. congruence. }
      cbn [In]. rewrite IH. cbn [In]. split.
      * intros [<-|[Hin Hnot]]; [now split; [left|]|].
        split; [now right|]. intros Hx. apply Hnot. now right.
      * intros [[<-|Hin] Hnot]; [now left|].
        destruct (string_dec a x) as [->|Hne]; [now left|].
        right. split; [assumption|]. intros [Heq|Hx]; auto.
Qed.

Lemma unique_from_NoDup (seen l : list string) : NoDup (unique_from seen l).
Proof.
  revert seen. induction l as [|a l IH]; intros seen; cbn [unique_from].
  - constructor.
  - destruct (Tagging.isin a seen); [apply IH|].
    constructor; [|apply IH].
    intros Hin. apply unique_from_In in Hin. destruct Hin as [_ Hout].
    apply Hout. now left.
Qed.

Lemma insert_sorted_Permutation (x : string) (l : list string) :
  Permutation (insert_sorted x l) (x :: l).
Proof.
  induction l as [|a l IH]; cbn [insert_sorted]; [reflexivity|].
  destruct (String.leb x a); [reflexivity|].
  rewrite IH. apply perm_swap.
Qed.

Lemma sorted_Permutation (l : list string) : Permutation (sorted l) l.
Proof.
  unfold sorted. induction l as [|a l IH]; cbn [fold_right]; [reflexivity|].
  rewrite insert_sorted_Permutation. now constructor.
Qed.

Lemma sorted_In (l : list string) (x : string) : In x (sorted l) <-> In x l.
Proof.
  split; apply Permutation_in;
    [apply sorted_Permutation|apply Permutation_sym, sorted_Permutation].
Qed.

Lemma leb_false_ge (x y : string) : String.leb x y = false -> str_le y x.
Proof.
  intros H. destruct (String.leb_total x y) as [Hxy|Hyx]; [congruence|].
  exact Hyx.
Qed.

Lemma insert_sorted_Sorted (x : string) (l : list string) :
  Sorted str_le l -> Sorted str_le (insert_sorted x l).
Proof.
  induction l as [|a l IH]; intros Hs; cbn [insert_sorted].
  - repeat constructor.
  - destruct (String.leb x a) eqn:Hxa.
    + constructor; [assumption|]. constructor. exact Hxa.
    + apply Sorted_inv in Hs. destruct Hs as [Hs Hhd].
      constructor; [now apply IH|].
      destruct l as [|b l]; cbn [insert_sorted].
      * constructor. now apply leb_false_ge.
      * destruct (String.leb x b).
        -- constructor. now apply leb_false_ge.
        -- constructor. now inversion Hhd.
Qed.

Lemma sorted_Sorted (l : list string) : Sorted str_le (sorted l).
Proof.
  unfold sorted. induction l as [|a l IH]; cbn [fold_right].
  - constructor.
  - now apply insert_sorted_Sorted.
Qed.

Lemma get_valid_participants_In (sessions : DataFrame RawSession)
    (p : string) :
  In p (get_valid_participants sessions)
  <-> has_column "within_study_id" sessions = true
      /\ exists s, In s (rows sessions)
                   /\ astype_str (raw_within_study_id s) = p.
Proof.
  unfold get_valid_participants.
  destruct (has_column "within_study_id" sessions); cbn [negb orb].
  - destruct (rows sessions) as [|s0 rest] eqn:Hrows; cbn [Tagging.empty].
    + split; [intros []|intros [_ [s [[] _]]]].
    + rewrite sorted_In. unfold unique.
      rewrite unique_from_In, in_map_iff. split.
      * intros [[s [Hs Hin]] _]. split; [reflexivity|]. now exists s.
      * intros [_ [s [Hin Hs]]]. split; [now exists s|intros []].
  - split; [intros []|intros [H _]; discriminate H].
Qed.

(** X15.  The participants offered for selection are the identifiers
    that occur in the column [within_study_id], as strings, each one once,
    in the increasing order of the code points; there is none when the
    table lacks the column. *)
Theorem get_valid_participants_sorted_distinct
    (sessions : DataFrame RawSession) :
  Sorted str_le (get_valid_participants sessions)
  /\ NoDup (get_valid_participants sessions)
  /\ (forall p,
        In p (get_valid_participants sessions)
        <-> has_column "within_study_id" sessions = true
            /\ exists s, In s (rows sessions)
                         /\ astype_str (raw_within_study_id s) = p).
Proof.
  split; [|split; [|apply get_valid_participants_In]];
    unfold get_valid_participants;
    destruct (_ || _); try constructor.
  - apply sorted_Sorted.
  - apply (Permutation_NoDup (Permutation_sym (sorted_Permutation _))).
    apply unique_from_NoDup.
Qed.

Lemma get_valid_participants_sorted_distinct_witness :
  In "p1" (get_valid_participants
             (raw_frame [raw_session "p2" "EMA" 10; raw_session "p1" "EMA" 20;
                         raw_session "p2" "Daily" 30]))
  /\ ~ In "p3" (get_valid_participants
                  (raw_frame [raw_session "p2" "EMA" 10;
                              raw_session "p1" "EMA" 20;
                              raw_session "p2" "Daily" 30])).
Proof.
  destruct (get_valid_participants_sorted_distinct
              (raw_frame [raw_session "p2" "EMA" 10; raw_session "p1" "EMA" 20;
                          raw_session "p2" "Daily" 30]))
    as [_ [_ Hin]].
  split.
  - apply Hin. split; [reflexivity|].
    exists (raw_session "p1" "EMA" 20). split; [|reflexivity].
    right. left. reflexivity.
  - intros H. apply Hin in H. destruct H as [_ [s [Hs Hp]]].
    cbn in Hs. destruct Hs as [<-|[<-|[<-|[]]]]; discriminate Hp.
Defined.

(** ** The sessions of a participant *)

Lemma has_column_with_column (c name : string) (cols : list string) :
  existsb (String.eqb c) (with_column name cols)
  = existsb (String.eqb c) cols || String.eqb c name.
Proof.
  unfold with_column. destruct (existsb (String.eqb name) cols) eqn:Hn.
  - destruct (String.eqb c name) eqn:Hc; [|now rewrite orb_false_r].
    apply String.eqb_eq in Hc. subst c. now rewrite Hn.
  - rewrite existsb_app. cbn [existsb]. now rewrite orb_false_r.
Qed.

Lemma id_eqb_true (c : id_cell) (pid : string) :
  id_eqb c pid = true <-> c = IdText pid.
Proof.
  destruct c as [s|n]; cbn [id_eqb].
  - rewrite String.eqb_eq. split; [now intros ->|intros H; now injection H].
  - split; discriminate.
Qed.

(** X16.  For a table with the columns [within_study_id] and
    [started_at_utc], the sessions of a participant are the rows of the
    table whose identifier is equal to the given string, in the order of
    the table, each one with its instant unchanged and shown in the given
    zone; the columns of the table are kept and [local_ts] is one of the
    columns.  Some row is returned exactly when a row holds the identifier
    as a string, and the participant is then one of those offered for
    selection.  A column of numbers is equal to no string: no row is
    returned, whatever the participant, also for those that are
    offered. *)
Theorem filter_sessions_by_participant_rows
    (sessions : DataFrame RawSession) (pid : string) (tz : tzinfo) :
  has_column "within_study_id" sessions = true ->
  has_column "started_at_utc" sessions = true ->
  map (fun s => (session_id s, survey_name s, instant (local_ts s)))
      (rows (filter_sessions_by_participant sessions (Some pid) tz))
  = map (fun s => (raw_session_id s, raw_survey_name s, started_at_utc s))
        (filter (fun s => id_eqb (raw_within_study_id s) pid)
                (rows sessions))
  /\ (forall s,
        In s (rows (filter_sessions_by_participant sessions (Some pid) tz)) ->
        within_study_id s = pid /\ zone (local_ts s) = tz)
  /\ has_column "local_ts"
       (filter_sessions_by_participant sessions (Some pid) tz) = true
  /\ (forall c, has_column c sessions = true ->
        has_column c (filter_sessions_by_participant sessions (Some pid) tz)
        = true)
  /\ (rows (filter_sessions_by_participant sessions (Some pid) tz) <> []
      <-> exists s, In s (rows sessions)
                    /\ raw_within_study_id s = IdText pid)
  /\ (rows (filter_sessions_by_participant sessions (Some pid) tz) <> [] ->
      In pid (get_valid_participants sessions))
  /\ ((forall s, In s (rows sessions) ->
                 exists n, raw_within_study_id s = IdInt n) ->
      rows (filter_sessions_by_participant sessions (Some pid) tz) = []).
Proof.
  intros Hid Hstart. unfold filter_sessions_by_participant.
  rewrite Hid, Hstart. cbn [negb rows columns].
  set (mine := fun s => id_eqb (raw_within_study_id s) pid).
  assert (Hsome : forall A (f : RawSession -> A),
            map f (filter mine (rows sessions)) <> []
            <-> exists s, In s (rows sessions)
                          /\ raw_within_study_id s = IdText pid).
  { intros A f. split.
    - intros Hne.
      destruct (filter mine (rows sessions)) as [|r rest] eqn:Hf;
        [now destruct Hne|].
      assert (Hr : In r (filter mine (rows sessions)))
        by (rewrite Hf; now left).
      apply filter_In in Hr. destruct Hr as [Hin Hr].
      exists r. split; [assumption|]. now apply id_eqb_true.
    - intros [s [Hin Hs]] Hnil. apply map_eq_nil in Hnil.
      pose proof (TaggingRunTheory.filter_nil_no_match _ _ Hnil s Hin) as Hf.
      unfold mine in Hf. rewrite Hs in Hf. cbn [id_eqb] in Hf.
      rewrite String.eqb_refl in Hf. discriminate. }
  split; [|split; [|split; [|split; [|split; [|split]]]]].
  - rewrite map_map. reflexivity.
  - intros s Hin. apply in_map_iff in Hin. destruct Hin as [r [<- Hr]].
    apply filter_In in Hr. destruct Hr as [_ Hr].
    apply id_eqb_true in Hr. cbn. rewrite Hr. now split.
  - unfold has_column. cbn [columns].
    rewrite !has_column_with_column. cbn. now rewrite orb_true_r.
  - intros c Hc. unfold has_column in *. cbn [columns].
    rewrite !has_column_with_column, Hc. reflexivity.
  - apply Hsome.
  - intros Hne. apply Hsome in Hne. destruct Hne as [s [Hin Hs]].
    apply get_valid_participants_In. split; [exact Hid|].
    exists s. split; [assumption|]. now rewrite Hs.
  - intros Hnum. rewrite ListFacts.filter_none; [reflexivity|].
    intros s Hin. destruct (Hnum s Hin) as [n Hn].
    unfold mine. now rewrite Hn.
Qed.

Lemma filter_sessions_by_participant_rows_witness :
  In "12" (get_valid_participants
             (raw_frame [numbered_session 12 "EMA" 10;
                         numbered_session 7 "EMA" 20]))
  /\ rows (filter_sessions_by_participant
             (raw_frame [numbered_session 12 "EMA" 10;
                         numbered_session 7 "EMA" 20])
             (Some "12") new_york) = []
  /\ In "p2" (get_valid_participants
                (raw_frame [raw_session "p2" "EMA" 10;
                            raw_session "p1" "EMA" 20])).
Proof.
  split; [|split].
  - vm_compute. auto.
  - apply (proj2 (proj2 (proj2 (proj2 (proj2 (proj2
             (filter_sessions_by_participant_rows
                (raw_frame [numbered_session 12 "EMA" 10;
                            numbered_session 7 "EMA" 20])
                "12" new_york eq_refl eq_refl))))))).
    intros s [<-|[<-|[]]]; eexists; reflexivity.
  - apply (proj1 (proj2 (proj2 (proj2 (proj2 (proj2
             (filter_sessions_by_participant_rows
                (raw_frame [raw_session "p2" "EMA" 10;
                            raw_session "p1" "EMA" 20])
                "p2" new_york eq_refl eq_refl))))))).
    vm_compute. discriminate.
Defined.

(** ** The rate of a schema *)

Lemma filter_first_match {A : Type} (f : A -> bool) (pre post : list A)
    (a : A) :
  (forall x, In x pre -> f x = false) -> f a = true ->
  filter f (pre ++ a :: post) = a :: filter f post.
Proof.
  intros Hpre Ha. rewrite filter_app, (ListFacts.filter_none f pre Hpre).
  cbn [app filter]. now rewrite Ha.
Qed.

(** X17.  In a rates table with the columns [id], [reason] and
    [rate_amount], the reason and the amount of a rate identifier are read
    from the first row that has the identifier; an identifier that no row
    has gives the empty reason and the amount 0.0, and so does the empty
    identifier, also when a row has it. *)
Theorem rate_of_identifier (rates : DataFrame Rate) (rate_id : string) :
  has_column "id" rates = true -> has_column "reason" rates = true ->
  has_column "rate_amount" rates = true ->
  (rate_id = ""
   \/ (forall r, In r (rows rates) -> Payments.rate_id r <> rate_id) ->
   get_rate_reason rates rate_id = ""
   /\ get_rate_amount rates rate_id = S754_zero false)
  /\ (forall pre r post,
        rate_id <> "" -> rows rates = (pre ++ r :: post)%list ->
        Payments.rate_id r = rate_id ->
        (forall r', In r' pre -> Payments.rate_id r' <> rate_id) ->
        get_rate_reason rates rate_id = reason r
        /\ get_rate_amount rates rate_id = rate_amount r).
Proof.
  intros Hid Hreason Hamount. unfold get_rate_reason, get_rate_amount.
  rewrite Hid, Hreason, Hamount. cbn [negb orb]. split.
  - intros [->|Hnone].
    + rewrite !orb_true_r. now split.
    + rewrite ListFacts.filter_none.
      * split; destruct (_ || _); reflexivity.
      * intros r Hr. apply String.eqb_neq. now apply Hnone.
  - intros pre r post Hne Hrows Hr Hpre.
    apply String.eqb_neq in Hne. rewrite Hne, !orb_false_r.
    assert (Hfull : df_empty rates = false).
    { unfold df_empty, has_column in *. rewrite Hrows.
      destruct (columns rates); [discriminate Hid|].
      now destruct pre. }
    rewrite Hfull, Hrows.
    rewrite filter_first_match.
    + now split.
    + intros x Hx. apply String.eqb_neq. now apply Hpre.
    + now apply String.eqb_eq.
Qed.

Lemma rate_of_identifier_witness :
  get_rate_reason
    (rates_frame [{| rate_id := "x"; reason := "Foo";
                     rate_amount := PyFloat.dyadic 1 0 |};
                  {| rate_id := "x"; reason := "Bar";
                     rate_amount := PyFloat.dyadic 2 0 |}]) "x" = "Foo"
  /\ get_rate_reason
       (rates_frame [{| rate_id := ""; reason := "Foo";
                        rate_amount := PyFloat.dyadic 1 0 |}]) "" = "".
Proof.
  split.
  - apply (proj2 (rate_of_identifier
                    (rates_frame [{| rate_id := "x"; reason := "Foo";
                                     rate_amount := PyFloat.dyadic 1 0 |};
                                  {| rate_id := "x"; reason := "Bar";
                                     rate_amount := PyFloat.dyadic 2 0 |}])
                    "x" eq_refl eq_refl eq_refl)
             [] {| rate_id := "x"; reason := "Foo";
                   rate_amount := PyFloat.dyadic 1 0 |}
             [{| rate_id := "x"; reason := "Bar";
                 rate_amount := PyFloat.dyadic 2 0 |}]);
      [discriminate|reflexivity|reflexivity|intros r' []].
  - apply (proj1 (rate_of_identifier
                    (rates_frame [{| rate_id := ""; reason := "Foo";
                                     rate_amount := PyFloat.dyadic 1 0 |}])
                    "" eq_refl eq_refl eq_refl)).
    left. reflexivity.
Defined.

(** ** Sessions after the end of a schema *)

Lemma local_date_after (ts : Timestamp) (stop : date) :
  stop < local_date ts <-> combine stop time_max < wall_clock ts.
Proof.
  unfold local_date, wall_clock, combine, time_max, day_us.
  set (w := instant ts + zone ts (instant ts)).
  pose proof (Z.div_mod w 86400000000 ltac:(lia)) as Hdm.
  pose proof (Z.mod_pos_bound w 86400000000 ltac:(lia)) as Hmod.
  split; intros H; nia.
Qed.

(** X18.  On a machine whose zone is the zone of the timestamps, at a
    constant offset from UTC, [has_sessions_after_end] holds exactly when
    some session took place, in that zone, on a day after the last of the
    [days] days from [start_date]. *)
Theorem has_sessions_after_end_same_zone (hours : Z)
    (sessions : DataFrame Session) (start_date : date) (days : Z) :
  has_column "local_ts" sessions = true ->
  (forall s, In s (rows sessions) ->
     zone (local_ts s) (instant (local_ts s)) = hours * hour_us) ->
  has_sessions_after_end (mktime_fixed hours) sessions start_date days
                         (fixed_offset hours) = true
  <-> exists s, In s (rows sessions)
                /\ start_date + (days - 1) < local_date (local_ts s).
Proof.
  intros Hts Hzone. unfold has_sessions_after_end. rewrite Hts.
  cbn [negb orb combine_astimezone instant].
  assert (Hex : existsb (fun s => mktime_fixed hours
                                    (combine (start_date + (days - 1))
                                             time_max)
                                  <? instant (local_ts s)) (rows sessions)
                = true
                <-> exists s, In s (rows sessions)
                              /\ start_date + (days - 1)
                                 < local_date (local_ts s)).
  { rewrite existsb_exists. split; intros [s [Hin Hs]]; exists s;
      (split; [assumption|]).
    - apply local_date_after. unfold wall_clock. rewrite (Hzone s Hin).
      apply Z.ltb_lt in Hs. unfold mktime_fixed in Hs. lia.
    - apply local_date_after in Hs. unfold wall_clock in Hs.
      rewrite (Hzone s Hin) in Hs. apply Z.ltb_lt. unfold mktime_fixed. lia. }
  destruct (df_empty sessions) eqn:Hempty; [|exact Hex].
  split; [discriminate|]. intros [s [Hin _]].
  unfold df_empty, has_column in *.
  destruct (columns sessions); [discriminate Hts|].
  destruct (rows sessions); [destruct Hin|discriminate].
Qed.

Lemma has_sessions_after_end_same_zone_witness :
  has_sessions_after_end (mktime_fixed (-4)) (sessions_frame [evening_session])
    (ymd 2025 5 2) 3 new_york = true.
Proof.
  apply (has_sessions_after_end_same_zone (-4)
           (sessions_frame [evening_session]) (ymd 2025 5 2) 3 eq_refl).
  - intros s [<-|[]]. reflexivity.
  - exists evening_session. split; [now left|]. vm_compute. reflexivity.
Defined.

(** ** The automatic counts of the calculator *)

Lemma dict_get_fold_set {V : Type} (f : string -> V) (keys : list string)
    (k : string) :
  forall d : dict V,
  Tagging.dict_get
    (fold_left (fun d kv => dict_set d (fst kv) (snd kv))
               (map (fun k => (k, f k)) keys) d) k
  = if Tagging.isin k keys then Some (f k) else Tagging.dict_get d k.
Proof.
  induction keys as [|a keys IH]; intros d; cbn [map fold_left fst snd];
    [reflexivity|].
  rewrite IH. unfold Tagging.isin. cbn [existsb]. fold (Tagging.isin k keys).
  destruct (Tagging.isin k keys); [now rewrite orb_true_r|].
  rewrite orb_false_r.
  destruct (String.eqb k a) eqn:Hk.
  - apply String.eqb_eq in Hk. subst. apply TaggingRunTheory.dict_get_set_same.
  - apply String.eqb_neq in Hk.
    now apply TaggingRunTheory.dict_get_set_other.
Qed.

Lemma to_dict_fun {V : Type} (f : string -> V) (keys : list string)
    (k : string) :
  Tagging.dict_get (to_dict (map (fun k => (k, f k)) keys)) k
  = if Tagging.isin k keys then Some (f k) else None.
Proof. unfold to_dict. now rewrite dict_get_fold_set. Qed.

Lemma isin_unique (k : string) (l : list string) :
  Tagging.isin k (unique l) = Tagging.isin k l.
Proof.
  apply eq_true_iff_eq. rewrite !TaggingRunTheory.isin_In.
  unfold unique. rewrite unique_from_In. split.
  - now intros [H _].
  - intros H. split; [exact H|intros []].
Qed.

Lemma filter_sessions_by_participant_some (sessions : DataFrame RawSession)
    (pid : string) (tz : tzinfo) :
  has_column "within_study_id" sessions = true ->
  has_column "started_at_utc" sessions = true ->
  filter_sessions_by_participant sessions (Some pid) tz
  = {| columns :=
         with_column "local_day" (with_column "local_ts" (columns sessions));
       rows :=
         map (fun s =>
                {| session_id := raw_session_id s;
                   within_study_id := astype_str (raw_within_study_id s);
                   survey_name := raw_survey_name s;
                   local_ts := {| instant := started_at_utc s;
                                  zone := tz |} |})
             (filter (fun s => id_eqb (raw_within_study_id s) pid)
                     (rows sessions)) |}.
Proof.
  intros Hid Hstart. unfold filter_sessions_by_participant.
  now rewrite Hid, Hstart.
Qed.

Lemma compute_base_rate_counts_columns (sessions : DataFrame Session)
    (rates : DataFrame Rate) :
  columns (compute_base_rate_counts sessions rates)
  = ["rate_reason"; "rate_amount"; "count"].
Proof.
  unfold compute_base_rate_counts. now destruct (_ || _).
Qed.

(** X19.  For a sessions table with the columns [within_study_id],
    [started_at_utc] and [survey_name] and a rates table with reasons and
    amounts that is not empty, the calculation returns the sessions of the
    participant and a dictionary whose keys are the reasons of the rates:
    the empty reason counts 0, and every other reason counts the rows
    whose identifier is equal to the string of the participant and whose
    survey name contains the reason, whatever the case of the letters.
    A column of identifiers that holds numbers is equal to no string:
    every reason counts 0 then, whatever the participant. *)
Theorem perform_payment_calculations_counts
    (sessions : DataFrame RawSession) (pid : string)
    (rates : DataFrame Rate) (tz : tzinfo) :
  has_column "within_study_id" sessions = true ->
  has_column "started_at_utc" sessions = true ->
  has_column "survey_name" sessions = true ->
  has_column "reason" rates = true ->
  has_column "rate_amount" rates = true ->
  rows rates <> [] ->
  exists auto : dict Z,
    perform_payment_calculations (Some sessions) (Some pid) rates tz
    = Done (filter_sessions_by_participant sessions (Some pid) tz, auto)
    /\ (forall k, (forall r, In r (rows rates) -> reason r <> k) ->
          Tagging.dict_get auto k = None)
    /\ (forall r, In r (rows rates) -> reason r = "" ->
          Tagging.dict_get auto "" = Some 0)
    /\ (forall r, In r (rows rates) -> reason r <> "" ->
          exists n,
            Tagging.dict_get auto (reason r) = Some n
            /\ counts (session_for pid (reason r)) (rows sessions) n)
    /\ ((forall s, In s (rows sessions) ->
                   exists n, raw_within_study_id s = IdInt n) ->
        forall r, In r (rows rates) ->
          Tagging.dict_get auto (reason r) = Some 0).
Proof.
  intros Hid Hstart Hname Hreason Hamount Hrows.
  set (mine := fun s => id_eqb (raw_within_study_id s) pid).
  set (cnt := fun k : string =>
         match k with
         | EmptyString => 0
         | _ => size (filter (fun s => mine s
                                       && PyStr.contains
                                            (PyStr.lower k)
                                            (PyStr.lower (raw_survey_name s)))
                             (rows sessions))
         end).
  assert (Hfull : df_empty rates = false).
  { unfold df_empty, has_column in *.
    destruct (columns rates); [discriminate Hreason|].
    destruct (rows rates); [now destruct Hrows|reflexivity]. }
  assert (Hauto : exists auto : dict Z,
            perform_payment_calculations (Some sessions) (Some pid) rates tz
            = Done (filter_sessions_by_participant sessions (Some pid) tz,
                    auto)
            /\ forall k,
                 Tagging.dict_get auto k
                 = if Tagging.isin k (map reason (rows rates))
                   then Some (cnt k) else None).
  { unfold perform_payment_calculations. rewrite Hfull, Hreason.
    cbn [negb].
    rewrite (filter_sessions_by_participant_some sessions pid tz Hid Hstart).
    set (df_part := {| columns := _; rows := _ |}).
    assert (Hcol : has_column "survey_name" df_part = true).
    { unfold has_column in *. cbn [df_part columns].
      now rewrite !has_column_with_column, Hname. }
    destruct (filter mine (rows sessions)) as [|s0 rest] eqn:Hmine.
    - assert (Hempty : df_empty df_part = true).
      { unfold df_empty. cbn [df_part rows columns]. fold mine.
        rewrite Hmine. cbn [map]. now destruct (with_column _ _). }
      rewrite Hempty. cbn [negb].
      eexists. split; [reflexivity|]. intros k.
      rewrite (to_dict_fun (fun _ => 0)), isin_unique.
      destruct (Tagging.isin k _); [|reflexivity]. f_equal.
      destruct k as [|c k]; [reflexivity|]. cbn [cnt].
      rewrite <- ListFacts.filter_filter, Hmine. reflexivity.
    - assert (Hpart : df_empty df_part = false).
      { unfold df_empty. cbn [df_part rows columns]. fold mine.
        rewrite Hmine. unfold has_column in Hcol.
        cbn [df_part columns] in Hcol. cbn [map].
        destruct (with_column _ _); [discriminate Hcol|reflexivity]. }
      rewrite Hpart. cbn [negb].
      assert (Htable : df_empty (compute_base_rate_counts df_part rates)
                       = false).
      { unfold df_empty.
        rewrite compute_base_rate_counts_columns,
          (PaymentsTheory.rate_count_row df_part rates Hcol Hfull Hreason
             Hamount).
        destruct (rows rates); [now destruct Hrows|reflexivity]. }
      rewrite Htable. cbn [negb].
      eexists. split; [reflexivity|]. intros k.
      rewrite (PaymentsTheory.rate_count_row df_part rates Hcol Hfull
                 Hreason Hamount).
      rewrite map_map. cbn [rc_rate_reason rc_count].
      rewrite <- (map_map reason
                    (fun k => (k,
                       match k with
                       | EmptyString => 0
                       | _ => size (filter
                                      (fun s => PyStr.contains
                                                  (PyStr.lower k)
                                                  (PyStr.lower (survey_name s)))
                                      (rows df_part))
                       end))).
      rewrite to_dict_fun.
      destruct (Tagging.isin k _); [|reflexivity]. f_equal.
      destruct k as [|c k]; [reflexivity|]. cbn [cnt df_part rows].
      rewrite PaymentsTheory.size_filter_map, ListFacts.filter_filter.
      reflexivity. }
  destruct Hauto as [auto [Hrun Hget]].
  exists auto. split; [exact Hrun|]. split; [|split; [|split]].
  - intros k Hk. rewrite Hget.
    destruct (Tagging.isin k (map reason (rows rates))) eqn:Hin;
      [|reflexivity].
    apply TaggingRunTheory.isin_In, in_map_iff in Hin.
    destruct Hin as [r [Hr Hin]]. now destruct (Hk r Hin).
  - intros r Hin Hr. rewrite Hget.
    assert (H : Tagging.isin "" (map reason (rows rates)) = true).
    { apply TaggingRunTheory.isin_In, in_map_iff. now exists r. }
    now rewrite H.
  - intros r Hin Hr. exists (cnt (reason r)). split.
    + rewrite Hget.
      assert (H : Tagging.isin (reason r) (map reason (rows rates)) = true).
      { apply TaggingRunTheory.isin_In, in_map_iff. now exists r. }
      now rewrite H.
    + destruct (reason r) as [|c k] eqn:Hk; [now destruct Hr|]. cbn [cnt].
      apply PaymentsTheory.counts_filter. intros s. unfold session_for, mine.
      rewrite andb_true_iff, id_eqb_true.
      now rewrite PaymentsTheory.contains_ci_lower.
  - intros Hnum r Hin. rewrite Hget.
    assert (H : Tagging.isin (reason r) (map reason (rows rates)) = true).
    { apply TaggingRunTheory.isin_In, in_map_iff. now exists r. }
    rewrite H. f_equal.
    destruct (reason r) as [|c k]; [reflexivity|]. cbn [cnt].
    rewrite ListFacts.filter_none; [reflexivity|].
    intros s Hs. destruct (Hnum s Hs) as [n Hn].
    unfold mine. now rewrite Hn.
Qed.

Lemma perform_payment_calculations_counts_witness :
  (exists auto : dict Z,
     perform_payment_calculations
       (Some (raw_frame [raw_session "p1" "Completed an EMA survey" 10;
                         raw_session "p2" "EMA" 20]))
       (Some "p1") (rates_frame [rate "ema survey"; rate ""]) new_york
     = Done (filter_sessions_by_participant
               (raw_frame [raw_session "p1" "Completed an EMA survey" 10;
                           raw_session "p2" "EMA" 20])
               (Some "p1") new_york,
             auto)
     /\ Tagging.dict_get auto "" = Some 0)
  /\ (exists auto : dict Z,
        perform_payment_calculations
          (Some (raw_frame [numbered_session 12 "EMA survey" 10;
                            numbered_session 7 "EMA survey" 20]))
          (Some "12") (rates_frame [rate "ema survey"; rate ""]) new_york
        = Done (filter_sessions_by_participant
                  (raw_frame [numbered_session 12 "EMA survey" 10;
                              numbered_session 7 "EMA survey" 20])
                  (Some "12") new_york,
                auto)
        /\ Tagging.dict_get auto "ema survey" = Some 0).
Proof.
  split.
  - destruct (perform_payment_calculations_counts
                (raw_frame [raw_session "p1" "Completed an EMA survey" 10;
                            raw_session "p2" "EMA" 20])
                "p1" (rates_frame [rate "ema survey"; rate ""]) new_york
                eq_refl eq_refl eq_refl eq_refl eq_refl)
      as [auto [Hrun [_ [Hzero _]]]].
    + discriminate.
    + exists auto. split; [exact Hrun|].
      apply (Hzero (rate "")); [right; left; reflexivity|reflexivity].
  - destruct (perform_payment_calculations_counts
                (raw_frame [numbered_session 12 "EMA survey" 10;
                            numbered_session 7 "EMA survey" 20])
                "12" (rates_frame [rate "ema survey"; rate ""]) new_york
                eq_refl eq_refl eq_refl eq_refl eq_refl)
      as [auto [Hrun [_ [_ [_ Hnum]]]]].
    + discriminate.
    + exists auto. split; [exact Hrun|].
      apply (Hnum ltac:(intros s [<-|[<-|[]]]; eexists; reflexivity)
                  (rate "ema survey")).
      left. reflexivity.
Defined.

(** ** The participant selected from the text of the input field *)

Lemma get_valid_participants_NoDup (sessions : DataFrame RawSession) :
  NoDup (get_valid_participants sessions).
Proof.
  unfold get_valid_participants. destruct (_ || _); [constructor|].
  apply (Permutation_NoDup (Permutation_sym (sorted_Permutation _))).
  apply unique_from_NoDup.
Qed.

Lemma contains_ci_trans (p q r : string) :
  contains_ci p q -> contains_ci q r -> contains_ci p r.
Proof.
  intros [b1 [a1 H1]] [b2 [a2 H2]].
  exists (b2 ++ b1)%string, (a1 ++ a2)%string.
  rewrite H2, H1. now rewrite !PyStrTheory.append_assoc.
Qed.

Lemma filter_only {A : Type} (f : A -> bool) (l : list A) (p : A) :
  NoDup l -> In p l -> f p = true ->
  (forall q, In q l -> f q = true -> q = p) ->
  filter f l = [p].
Proof.
  induction l as [|a l IH]; intros Hnd Hin Hp Honly; [destruct Hin|].
  inversion Hnd as [|? ? Hout Hnd']; subst. cbn [filter].
  destruct Hin as [->|Hin].
  - rewrite Hp. f_equal. apply ListFacts.filter_none.
    intros q Hq. destruct (f q) eqn:Hfq; [|reflexivity].
    assert (q = p) by (apply Honly; [now right|assumption]).
    subst. contradiction.
  - destruct (f a) eqn:Ha.
    + assert (a = p) by (apply Honly; [now left|assumption]).
      subst. contradiction.
    + apply IH; try assumption.
      intros q Hq. apply Honly. now right.
Qed.

Lemma selected_participant_only (sessions : DataFrame RawSession)
    (input p : string) :
  selected_participant (get_valid_participants sessions) input = Some p
  <-> input <> ""
      /\ In p (get_valid_participants sessions)
      /\ contains_ci input p
      /\ (forall q, In q (get_valid_participants sessions) ->
            contains_ci input q -> q = p).
Proof.
  set (valid := get_valid_participants sessions).
  set (matches := fun pid => PyStr.contains (PyStr.lower input)
                                            (PyStr.lower pid)).
  assert (Hm : forall q, matches q = true <-> contains_ci input q)
    by (intros q; apply PaymentsTheory.contains_ci_lower).
  split.
  - intros Hsel. unfold selected_participant in Hsel.
    destruct input as [|c input]; [discriminate|].
    fold matches valid in Hsel.
    destruct (filter matches valid) as [|x [|y rest]] eqn:Hf;
      try discriminate.
    injection Hsel as ->.
    assert (Hp : In p (filter matches valid)) by (rewrite Hf; now left).
    apply filter_In in Hp. destruct Hp as [Hin Hp].
    split; [discriminate|]. split; [exact Hin|].
    split; [now apply Hm|].
    intros q Hq Hcq.
    assert (Hq' : In q (filter matches valid))
      by (apply filter_In; split; [assumption|now apply Hm]).
    rewrite Hf in Hq'. destruct Hq' as [<-|[]]. reflexivity.
  - intros [Hne [Hin [Hc Honly]]]. unfold selected_participant.
    destruct input as [|c input]; [now destruct Hne|].
    fold matches valid.
    rewrite (filter_only matches valid p); [reflexivity| | | |].
    + apply get_valid_participants_NoDup.
    + exact Hin.
    + now apply Hm.
    + intros q Hq Hfq. apply Honly; [assumption|now apply Hm].
Qed.

(** X20.  A participant whose identifier is contained, whatever the case
    of the letters, in the identifier of another participant cannot be
    selected, whatever is typed in the input field, also not by the whole
    identifier: a text that its identifier contains is contained in the
    other identifier too. *)
Theorem selected_participant_shadowed (sessions : DataFrame RawSession)
    (p q : string) :
  In p (get_valid_participants sessions) ->
  In q (get_valid_participants sessions) ->
  q <> p -> contains_ci p q ->
  forall input,
    selected_participant (get_valid_participants sessions) input <> Some p.
Proof.
  intros Hp Hq Hne Hpq input Hsel.
  apply selected_participant_only in Hsel.
  destruct Hsel as [_ [_ [Hc Honly]]].
  apply Hne, Honly; [assumption|].
  now apply (contains_ci_trans input p q).
Qed.

Lemma selected_participant_shadowed_witness :
  selected_participant
    (get_valid_participants
       (raw_frame [raw_session "p1" "EMA" 10; raw_session "P10" "EMA" 20]))
    "p1" <> Some "p1".
Proof.
  apply (selected_participant_shadowed
           (raw_frame [raw_session "p1" "EMA" 10; raw_session "P10" "EMA" 20])
           "p1" "P10").
  - vm_compute. auto.
  - vm_compute. auto.
  - discriminate.
  - exists "", "0". reflexivity.
Defined.

(** X21.  The text typed in the input field selects the participant [p]
    exactly when it is not empty and [p] is the only participant of the
    sessions table whose identifier, as a string, contains it, whatever
    the case of the letters. *)
Theorem selected_participant_only_match (sessions : DataFrame RawSession)
    (input p : string) :
  selected_participant (get_valid_participants sessions) input = Some p
  <-> input <> ""
      /\ (has_column "within_study_id" sessions = true
          /\ exists s, In s (rows sessions)
                       /\ astype_str (raw_within_study_id s) = p)
      /\ contains_ci input p
      /\ (forall s, In s (rows sessions) ->
            contains_ci input (astype_str (raw_within_study_id s)) ->
            astype_str (raw_within_study_id s) = p).
Proof.
  rewrite selected_participant_only, get_valid_participants_In.
  split; intros [Hne [Hin [Hc Honly]]];
    (split; [exact Hne|]); (split; [exact Hin|]); (split; [exact Hc|]).
  - intros s Hs Hcs. apply Honly; [|exact Hcs].
    apply get_valid_participants_In. split; [apply Hin|]. now exists s.
  - intros q Hq Hcq. apply get_valid_participants_In in Hq.
    destruct Hq as [_ [s [Hs <-]]]. now apply Honly.
Qed.

Lemma selected_participant_only_match_witness :
  selected_participant
    (get_valid_participants
       (raw_frame [raw_session "p1" "EMA" 10; raw_session "P10" "EMA" 20]))
    "p10" = Some "P10".
Proof.
  apply (selected_participant_only_match
           (raw_frame [raw_session "p1" "EMA" 10; raw_session "P10" "EMA" 20])
           "p10" "P10").
  split; [discriminate|]. split; [|split].
  - split; [reflexivity|].
    exists (raw_session "P10" "EMA" 20). split; [|reflexivity].
    right. left. reflexivity.
  - exists "", "". reflexivity.
  - intros s [<-|[<-|[]]] [before [after H]]; [|reflexivity].
    exfalso. cbn in H.
    destruct before as [|c before]; [discriminate H|].
    injection H as _ H.
    destruct before as [|c' before]; [discriminate H|].
    injection H as _ H.
    destruct before; discriminate H.
Defined.

(** ** The daily counts *)

Lemma total_map_zero {A : Type} (l : list A) : total (map (fun _ => 0) l) = 0.
Proof.
  unfold total. induction l as [|a l IH]; cbn [map fold_right]; lia.
Qed.

Lemma total_map_add {A : Type} (f g : A -> Z) (l : list A) :
  total (map (fun a => f a + g a) l) = total (map f l) + total (map g l).
Proof.
  unfold total. induction l as [|a l IH]; cbn [map fold_right]; lia.
Qed.

Lemma total_indicator (x : Z) (idx : list Z) :
  NoDup idx ->
  total (map (fun d => if Z.eqb x d then 1 else 0) idx)
  = if existsb (Z.eqb x) idx then 1 else 0.
Proof.
  unfold total. induction idx as [|d idx IH]; intros Hnd;
    cbn [map fold_right existsb]; [reflexivity|].
  inversion Hnd as [|? ? Hout Hnd']; subst. rewrite (IH Hnd').
  destruct (Z.eqb_spec x d) as [->|Hne]; cbn [orb]; [|lia].
  destruct (existsb (Z.eqb d) idx) eqn:Hex; [|reflexivity].
  apply existsb_exists in Hex. destruct Hex as [y [Hy Heq]].
  apply Z.eqb_eq in Heq. subst. contradiction.
Qed.

Lemma size_nonneg {A : Type} (l : list A) : 0 <= size l.
Proof. unfold size. lia. Qed.

Lemma size_filter_le {A : Type} (f : A -> bool) (l : list A) :
  size (filter f l) <= size l.
Proof.
  induction l as [|a l IH]; cbn [filter]; [lia|].
  destruct (f a); rewrite ?PaymentsTheory.size_cons; lia.
Qed.

(** The sessions counted day by day over distinct days are the sessions of
    these days. *)
Lemma total_sizes_by_day {A : Type} (f : A -> bool) (g : A -> Z)
    (idx : list Z) (l : list A) :
  NoDup idx ->
  total (map (fun d => size (filter (fun s => f s && Z.eqb (g s) d) l)) idx)
  = size (filter (fun s => f s && existsb (Z.eqb (g s)) idx) l).
Proof.
  intros Hnd. induction l as [|a l IH]; cbn [filter].
  - apply total_map_zero.
  - rewrite (map_ext
               (fun d =>
                  size (if f a && Z.eqb (g a) d
                        then a :: filter (fun s => f s && Z.eqb (g s) d) l
                        else filter (fun s => f s && Z.eqb (g s) d) l))
               (fun d => (if f a && Z.eqb (g a) d then 1 else 0)
                         + size (filter (fun s => f s && Z.eqb (g s) d) l))).
    + rewrite total_map_add, IH.
      destruct (f a); cbn [andb].
      * rewrite (total_indicator (g a) idx Hnd).
        destruct (existsb _ idx); rewrite ?PaymentsTheory.size_cons; lia.
      * rewrite total_map_zero. lia.
    + intros d. destruct (f a && Z.eqb (g a) d);
        rewrite ?PaymentsTheory.size_cons; lia.
Qed.

Lemma date_range_NoDup (start stop : date) : NoDup (date_range start stop).
Proof.
  unfold date_range. generalize (Z.to_nat (stop - start + 1)) as n.
  generalize 0%nat as a.
  intros a n. revert a. induction n as [|n IH]; intros a; cbn [seq map].
  - constructor.
  - constructor; [|apply IH].
    intros Hin. apply in_map_iff in Hin. destruct Hin as [i [Hi Hin]].
    apply in_seq in Hin. lia.
Qed.

Lemma date_range_existsb (start stop x : date) :
  existsb (Z.eqb x) (date_range start stop)
  = (start <=? x) && (x <=? stop).
Proof.
  apply eq_true_iff_eq.
  rewrite existsb_exists, andb_true_iff, !Z.leb_le. split.
  - intros [d [Hd Heq]]. apply Z.eqb_eq in Heq. subst.
    now apply PaymentsTheory.date_range_In.
  - intros H. exists x. split; [now apply PaymentsTheory.date_range_In|].
    apply Z.eqb_refl.
Qed.

Lemma date_range_length (start : date) (days : Z) :
  List.length (date_range start (start + (days - 1))) = Z.to_nat days.
Proof.
  unfold date_range. rewrite length_map, length_seq. f_equal. lia.
Qed.

Lemma firstn_seq_min (n a len : nat) :
  firstn n (seq a len) = seq a (Nat.min n len).
Proof.
  revert a len. induction n as [|n IH]; intros a [|len];
    cbn [firstn seq Nat.min]; try reflexivity.
  now rewrite IH.
Qed.

Lemma firstn_date_range (start : date) (days e : Z) :
  0 <= e <= Z.max 0 days ->
  firstn (Z.to_nat e) (date_range start (start + (days - 1)))
  = date_range start (start + (e - 1)).
Proof.
  intros He. unfold date_range. rewrite firstn_map, firstn_seq_min.
  do 2 f_equal. lia.
Qed.

(** X22.  On a machine whose zone is the zone of the timestamps, at a
    constant offset from UTC, the daily table has one row for each of the
    [days] days from [start_date], in order, and the count of a day is the
    number of sessions of that day in that zone among those whose survey
    name the filter finds; without a filter, or with the empty one, every
    session of the day counts. *)
Theorem compute_daily_counts_own_zone (hours : Z)
    (re : string -> exc (string -> bool))
    (sessions : DataFrame Session) (start_date : date) (days : Z)
    (reason_filter : option string) (search : string -> bool) :
  has_column "local_ts" sessions = true ->
  has_column "survey_name" sessions = true ->
  (forall s, In s (rows sessions) ->
     zone (local_ts s) (instant (local_ts s)) = hours * hour_us) ->
  match reason_filter with
  | None | Some "" => Ok (fun _ => true)
  | Some pat => re pat
  end = Ok search ->
  exists daily,
    compute_daily_counts (mktime_fixed hours) re sessions start_date days
      (fixed_offset hours) reason_filter = Ok daily
    /\ map day (rows daily) = date_range start_date (start_date + (days - 1))
    /\ forall r, In r (rows daily) ->
         count r
         = size (filter (fun s => search (survey_name s)
                                  && Z.eqb (local_date (local_ts s)) (day r))
                        (rows sessions)).
Proof.
  intros Hts Hname Hzone Hsearch.
  rewrite (PaymentsTheory.compute_daily_counts_same_zone hours re sessions
             start_date days reason_filter search Hts Hname Hzone Hsearch).
  eexists. split; [reflexivity|]. cbn [daily_frame rows]. split.
  - rewrite map_map. cbn [day]. apply map_id.
  - intros r Hr. apply in_map_iff in Hr. destruct Hr as [d [<- _]].
    reflexivity.
Qed.

Lemma compute_daily_counts_own_zone_witness :
  exists daily,
    compute_daily_counts (mktime_fixed (-4)) (fun _ => Raise ReError)
      (sessions_frame [evening_session]) (ymd 2025 5 2) 4 new_york None
    = Ok daily
    /\ map day (rows daily) = date_range (ymd 2025 5 2) (ymd 2025 5 2 + (4 - 1))
    /\ forall r, In r (rows daily) ->
         count r
         = size (filter (fun s => true
                                  && Z.eqb (local_date (local_ts s)) (day r))
                        [evening_session]).
Proof.
  apply (compute_daily_counts_own_zone (-4) (fun _ => Raise ReError)
           (sessions_frame [evening_session]) (ymd 2025 5 2) 4 None
           (fun _ => true) eq_refl eq_refl).
  - intros s [<-|[]]. reflexivity.
  - reflexivity.
Defined.

Lemma daily_rows_shape (idx : list date) (c : date -> Z) (n : Z) :
  (forall d, 0 <= c d) -> total (map c idx) <= n ->
  map day (map (fun d => {| day := d; count := c d |}) idx) = idx
  /\ (forall r, In r (map (fun d => {| day := d; count := c d |}) idx) ->
        0 <= count r)
  /\ total (map count (map (fun d => {| day := d; count := c d |}) idx)) <= n.
Proof.
  intros Hc Hsum. rewrite !map_map. cbn [day count]. split; [apply map_id|].
  split; [|exact Hsum].
  intros r Hr. apply in_map_iff in Hr. destruct Hr as [d [<- _]]. apply Hc.
Qed.

Lemma total_sizes_le (idx L : list date) :
  NoDup idx ->
  total (map (fun d => size (filter (Z.eqb d) L)) idx) <= size L.
Proof.
  intros Hnd.
  rewrite (map_ext _ (fun d => size (filter (fun x => true && Z.eqb x d) L))).
  - rewrite (total_sizes_by_day (fun _ => true) (fun x => x) idx L Hnd).
    apply size_filter_le.
  - intros d. f_equal. apply filter_ext. intros x. apply Z.eqb_sym.
Qed.

Lemma compute_daily_counts_rows (mktime : Z -> Z)
    (re : string -> exc (string -> bool))
    (sessions : DataFrame Session) (start_date : date) (days : Z)
    (tz : tzinfo) (reason_filter : option string)
    (daily : DataFrame DailyRow) :
  compute_daily_counts mktime re sessions start_date days tz reason_filter
  = Ok daily ->
  columns daily = ["date"; "count"]
  /\ map day (rows daily) = date_range start_date (start_date + (days - 1))
  /\ List.length (rows daily) = Z.to_nat days
  /\ (forall r, In r (rows daily) -> 0 <= count r)
  /\ total (map count (rows daily)) <= size (rows sessions).
Proof.
  intros H.
  set (idx := date_range start_date (start_date + (days - 1))).
  assert (Hshape : forall c n,
            (forall d, 0 <= c d) -> total (map c idx) <= n ->
            n <= size (rows sessions) ->
            daily = daily_frame
                      (map (fun d => {| day := d; count := c d |}) idx) ->
            columns daily = ["date"; "count"]
            /\ map day (rows daily) = idx
            /\ List.length (rows daily) = Z.to_nat days
            /\ (forall r, In r (rows daily) -> 0 <= count r)
            /\ total (map count (rows daily)) <= size (rows sessions)).
  { intros c n Hc Hsum Hn ->. cbn [daily_frame columns rows].
    destruct (daily_rows_shape idx c n Hc Hsum) as [Hday [Hpos Hle]].
    split; [reflexivity|]. split; [exact Hday|]. split.
    - rewrite length_map. apply date_range_length.
    - split; [exact Hpos|lia]. }
  assert (Hzeros : daily = daily_frame
                             (map (fun d => {| day := d; count := 0 |}) idx)
                   -> columns daily = ["date"; "count"]
                      /\ map day (rows daily) = idx
                      /\ List.length (rows daily) = Z.to_nat days
                      /\ (forall r, In r (rows daily) -> 0 <= count r)
                      /\ total (map count (rows daily))
                         <= size (rows sessions)).
  { apply (Hshape (fun _ => 0) 0); [lia| |apply size_nonneg].
    rewrite total_map_zero. lia. }
  unfold compute_daily_counts in H. fold idx in H.
  destruct (_ || _); [injection H as H; now apply Hzeros|].
  set (windowed := filter _ (rows sessions)) in H.
  assert (Hwin : size windowed <= size (rows sessions))
    by apply size_filter_le.
  destruct (match reason_filter with
            | None | Some "" => Ok windowed
            | Some _ => _
            end) as [kept|e] eqn:Hk; cbn [bind] in H; [|discriminate].
  assert (Hkept : size kept <= size (rows sessions)).
  { destruct reason_filter as [[|ch pat]|].
    - injection Hk as <-. exact Hwin.
    - destruct (re (String ch pat)) as [search|e]; cbn [bind] in Hk;
        [|discriminate].
      injection Hk as <-.
      pose proof (size_filter_le (fun s => search (survey_name s)) windowed).
      lia.
    - injection Hk as <-. exact Hwin. }
  destruct kept as [|s0 rest]; injection H as H; [now apply Hzeros|].
  rewrite PaymentsTheory.merge_left_groupby_size in H.
  apply (Hshape
           (fun d => size (filter (Z.eqb d)
                             (map (fun s => local_date (local_ts s))
                                  (s0 :: rest))))
           (size (map (fun s => local_date (local_ts s)) (s0 :: rest)))).
  - intros d. apply size_nonneg.
  - apply total_sizes_le, date_range_NoDup.
  - unfold size in *. rewrite length_map. exact Hkept.
  - symmetry. exact H.
Qed.



(** ** The numbers of a schema tab *)

Lemma compute_stats_counts (now : Z) (start_date : date) (tz : tzinfo)
    (schema_row : Schema) (daily_rows : list DailyRow) :
  compute_stats now start_date tz schema_row (daily_frame daily_rows)
  = (days_elapsed (local_date {| instant := now; zone := tz |}) start_date
       schema_row
     * num_possible_per_day schema_row,
     int64 (total (map count
                     (firstn (Z.to_nat
                                (days_elapsed
                                   (local_date {| instant := now;
                                                  zone := tz |})
                                   start_date schema_row))
                             daily_rows)))).
Proof.
  unfold compute_stats.
  set (today := local_date {| instant := now; zone := tz |}).
  assert (Hel : (if Z.min (today - start_date + 1) (num_days schema_row) <? 0
                 then 0
                 else Z.min (today - start_date + 1) (num_days schema_row))
                = days_elapsed today start_date schema_row).
  { unfold days_elapsed.
    destruct (Z.ltb_spec (Z.min (today - start_date + 1)
                            (num_days schema_row)) 0); lia. }
  rewrite Hel. f_equal.
  destruct daily_rows as [|r rs];
    cbn [andb orb negb has_column daily_frame columns rows df_empty existsb
         String.eqb Ascii.eqb Bool.eqb];
    [now rewrite firstn_nil|apply PaymentsTheory.sum_int64].
Qed.

Lemma compute_bonus_days_counts (idx : list date) (c : date -> Z)
    (threshold : Z) :
  compute_bonus_days
    (daily_frame (map (fun d => {| day := d; count := c d |}) idx)) threshold
  = if threshold <=? 0 then 0
    else size (filter (fun d => threshold <=? c d) idx).
Proof.
  unfold compute_bonus_days. destruct (threshold <=? 0); [reflexivity|].
  destruct idx as [|d idx]; [reflexivity|].
  cbn [orb negb has_column daily_frame columns rows df_empty existsb
       String.eqb Ascii.eqb Bool.eqb map].
  apply (PaymentsTheory.size_filter_map
           (fun r => threshold <=? count r)
           (fun d => {| day := d; count := c d |}) (d :: idx)).
Qed.

(** X24.  On a machine whose zone is the zone of the timestamps, at a
    constant offset from UTC, and for a participant with fewer than [2^63]
    sessions, so that the int64 sum of the counts is exact, the tab of a
    schema shows: as bonus days, for a positive threshold, the days of
    the schema on which the participant has at least the threshold of
    sessions that the filter on the reason of the schema finds, and 0 for
    a threshold that is not positive; as possible sessions, the elapsed days times the sessions
    possible per day; as completed sessions, the sessions that the filter
    finds on the elapsed days of the schema. *)
Theorem schema_tab_numbers_own_zone (hours now : Z)
    (re : string -> exc (string -> bool))
    (df_part : DataFrame Session) (rates_df : DataFrame Rate)
    (start_date : date) (schema_row : Schema) (search : string -> bool) :
  has_column "local_ts" df_part = true ->
  has_column "survey_name" df_part = true ->
  (forall s, In s (rows df_part) ->
     zone (local_ts s) (instant (local_ts s)) = hours * hour_us) ->
  size (rows df_part) < 2 ^ 63 ->
  match get_rate_reason rates_df (schema_rate_id schema_row) with
  | EmptyString => Ok (fun _ => true)
  | pat => re pat
  end = Ok search ->
  let today := local_date {| instant := now; zone := fixed_offset hours |} in
  let elapsed := days_elapsed today start_date schema_row in
  let on_day := fun d =>
    size (filter (fun s => search (survey_name s)
                           && Z.eqb (local_date (local_ts s)) d)
                 (rows df_part)) in
  schema_tab_numbers (mktime_fixed hours) now re df_part rates_df start_date
    (fixed_offset hours) schema_row
  = Ok (if bonus_threshold schema_row <=? 0 then 0
        else size (filter (fun d => bonus_threshold schema_row <=? on_day d)
                          (date_range start_date
                             (start_date + (num_days schema_row - 1)))),
        (elapsed * num_possible_per_day schema_row,
         size (filter (fun s => search (survey_name s)
                                && ((start_date <=? local_date (local_ts s))
                                    && (local_date (local_ts s)
                                        <? start_date + elapsed)))
                      (rows df_part)))).
Proof.
  intros Hts Hname Hzone Hrows Hsearch today elapsed on_day.
  unfold schema_tab_numbers.
  rewrite (PaymentsTheory.compute_daily_counts_same_zone hours re df_part
             start_date (num_days schema_row) _ search Hts Hname Hzone).
  - cbn [bind]. fold on_day.
    rewrite (compute_bonus_days_counts _ on_day), compute_stats_counts.
    fold today elapsed. do 3 f_equal.
    rewrite firstn_map, (firstn_date_range start_date (num_days schema_row)
                           elapsed)
      by (unfold elapsed, days_elapsed; lia).
    rewrite map_map. cbn [count]. unfold on_day.
    rewrite (total_sizes_by_day (fun s => search (survey_name s))
               (fun s => local_date (local_ts s)))
      by apply date_range_NoDup.
    rewrite PaymentsTheory.int64_small.
    + f_equal. apply filter_ext. intros s. f_equal.
      rewrite date_range_existsb. f_equal.
      destruct (Z.leb_spec (local_date (local_ts s))
                  (start_date + (elapsed - 1))),
               (Z.ltb_spec (local_date (local_ts s)) (start_date + elapsed));
        try reflexivity; lia.
    + match goal with
      | |- _ <= size (filter ?f ?l) < _ =>
          pose proof (size_nonneg (filter f l));
          pose proof (size_filter_le f l)
      end.
      lia.
  - destruct (get_rate_reason rates_df (schema_rate_id schema_row));
      exact Hsearch.
Qed.

Lemma schema_tab_numbers_own_zone_witness :
  schema_tab_numbers (mktime_fixed 0)
    (combine (ymd 2025 5 3) (9 * hour_us)) (fun _ => Raise ReError)
    (sessions_frame (five_sessions (fixed_offset 0)))
    (rates_frame [rate ""]) (ymd 2025 5 1) (fixed_offset 0)
    {| schema_name := "S"; schema_rate_id := "1";
       num_possible_per_day := 1; num_days := 10; bonus_rate_id := "";
       bonus_threshold := 1 |}
  = Ok (5, (3, 3)).
Proof.
  apply (schema_tab_numbers_own_zone 0
           (combine (ymd 2025 5 3) (9 * hour_us)) (fun _ => Raise ReError)
           (sessions_frame (five_sessions (fixed_offset 0)))
           (rates_frame [rate ""]) (ymd 2025 5 1)
           {| schema_name := "S"; schema_rate_id := "1";
              num_possible_per_day := 1; num_days := 10; bonus_rate_id := "";
              bonus_threshold := 1 |}
           (fun _ => true) eq_refl eq_refl).
  - intros s Hs. cbn in Hs.
    repeat (destruct Hs as [<-|Hs]; [reflexivity|]). destruct Hs.
  - vm_compute. reflexivity.
  - reflexivity.
Defined.

(** ** Completed sessions never exceed the sessions *)

Lemma total_firstn_le {A : Type} (f : A -> Z) (n : nat) (l : list A) :
  (forall a, In a l -> 0 <= f a) ->
  0 <= total (map f (firstn n l)) <= total (map f l).
Proof.
  unfold total. revert n. induction l as [|a l IH]; intros n Hpos.
  - rewrite firstn_nil. cbn. lia.
  - assert (Ha : 0 <= f a) by (apply Hpos; now left).
    assert (Hl : forall x, In x l -> 0 <= f x)
      by (intros x Hx; apply Hpos; now right).
    pose proof (IH 0%nat Hl) as H0. cbn [firstn map fold_right] in H0.
    destruct n as [|n]; cbn [firstn map fold_right].
    + lia.
    + pose proof (IH n Hl). lia.
Qed.

(** X25.  Whatever the zone of the machine, the zone asked for and the
    filter, the statistics computed from a daily table that
    [compute_daily_counts] returns for fewer than [2^63] sessions, so
    that the int64 sum of the counts is exact, never show more completed
    sessions than the participant has sessions, nor a negative number;
    and when
    the sessions possible per day are not negative, the possible sessions
    lie between 0 and the days of the schema times the sessions possible
    per day. *)
Theorem completed_sessions_bounded (mktime : Z -> Z) (now : Z)
    (re : string -> exc (string -> bool))
    (sessions : DataFrame Session) (start_date : date) (tz : tzinfo)
    (reason_filter : option string) (schema_row : Schema)
    (daily : DataFrame DailyRow) :
  compute_daily_counts mktime re sessions start_date (num_days schema_row)
    tz reason_filter = Ok daily ->
  size (rows sessions) < 2 ^ 63 ->
  0 <= snd (compute_stats now start_date tz schema_row daily)
    <= size (rows sessions)
  /\ (0 <= num_possible_per_day schema_row ->
      0 <= fst (compute_stats now start_date tz schema_row daily)
        <= Z.max 0 (num_days schema_row) * num_possible_per_day schema_row).
Proof.
  intros Hdaily Hrows.
  destruct (compute_daily_counts_rows mktime re sessions start_date
              (num_days schema_row) tz reason_filter daily Hdaily)
    as [Hcols [_ [_ [Hpos Hsum]]]].
  assert (Hframe : daily = daily_frame (rows daily)).
  { destruct daily as [cols rws]. cbn [columns rows] in *.
    now rewrite Hcols. }
  rewrite Hframe, compute_stats_counts. cbn [fst snd rows daily_frame].
  split.
  - pose proof (total_firstn_le count
                  (Z.to_nat (days_elapsed
                               (local_date {| instant := now; zone := tz |})
                               start_date schema_row))
                  (rows daily) Hpos).
    rewrite PaymentsTheory.int64_small; lia.
  - intros Hper. unfold days_elapsed. nia.
Qed.

Lemma completed_sessions_bounded_witness :
  0 <= snd (compute_stats (combine (ymd 2025 5 6) (9 * hour_us))
              (ymd 2025 5 2) new_york schema_10_1
              (daily_frame
                 (map (fun d => {| day := d;
                                   count := if d =? ymd 2025 5 5 then 1
                                            else 0 |})
                      (date_range (ymd 2025 5 2) (ymd 2025 5 2 + (10 - 1))))))
    <= size (rows (sessions_frame [evening_session])).
Proof.
  apply (completed_sessions_bounded (mktime_fixed 0)
           (combine (ymd 2025 5 6) (9 * hour_us)) (fun _ => Raise ReError)
           (sessions_frame [evening_session]) (ymd 2025 5 2) new_york None
           schema_10_1);
    vm_compute; reflexivity.
Defined.

(** ** Invariants of the bonus days, the rate counts and the statistics *)

Lemma size_filter_mono {A : Type} (f g : A -> bool) (l : list A) :
  (forall a, In a l -> f a = true -> g a = true) ->
  size (filter f l) <= size (filter g l).
Proof.
  induction l as [|a l IH]; intros H; cbn [filter]; [lia|].
  assert (Hl : size (filter f l) <= size (filter g l))
    by (apply IH; intros x Hx; apply H; now right).
  pose proof (size_nonneg (filter g l)).
  destruct (f a) eqn:Hf.
  - rewrite (H a (or_introl eq_refl) Hf), !PaymentsTheory.size_cons. lia.
  - destruct (g a); rewrite ?PaymentsTheory.size_cons; lia.
Qed.

(** X26.  The bonus days never exceed the rows of the daily table and
    are never negative, and raising a positive threshold never raises the
    bonus days. *)
Theorem compute_bonus_days_monotone (daily_counts : DataFrame DailyRow)
    (threshold threshold' : Z) :
  0 < threshold <= threshold' ->
  0 <= compute_bonus_days daily_counts threshold'
    <= compute_bonus_days daily_counts threshold
  /\ compute_bonus_days daily_counts threshold <= size (rows daily_counts).
Proof.
  intros Ht. unfold compute_bonus_days.
  destruct (Z.leb_spec threshold 0) as [H0|_]; [lia|].
  destruct (Z.leb_spec threshold' 0) as [H0|_]; [lia|].
  cbn [orb].
  pose proof (size_nonneg (rows daily_counts)).
  destruct (_ || _); [lia|].
  pose proof (size_nonneg (filter (fun r => threshold' <=? count r)
                                  (rows daily_counts))).
  pose proof (size_filter_le (fun r => threshold <=? count r)
                (rows daily_counts)).
  pose proof (size_filter_mono (fun r => threshold' <=? count r)
                (fun r => threshold <=? count r) (rows daily_counts)) as Hm.
  split; [split; [assumption|]|assumption].
  apply Hm. intros r _ Hr. apply Z.leb_le in Hr. apply Z.leb_le. lia.
Qed.

Lemma compute_bonus_days_monotone_witness :
  0 <= compute_bonus_days (counts_frame [0; 1; 5; 2]) 3
    <= compute_bonus_days (counts_frame [0; 1; 5; 2]) 2
  /\ compute_bonus_days (counts_frame [0; 1; 5; 2]) 2
     <= size (rows (counts_frame [0; 1; 5; 2])).
Proof.
  apply (compute_bonus_days_monotone (counts_frame [0; 1; 5; 2]) 2 3). lia.
Defined.

(** X27.  In the table of [compute_base_rate_counts] no count is negative
    or exceeds the number of sessions, and a reason that contains another
    reason, whatever the case of the letters, never has the larger count
    of the two: a session counted for it is counted for the other one
    too. *)
Theorem compute_base_rate_counts_nested_reasons
    (sessions : DataFrame Session) (rates : DataFrame Rate)
    (row1 row2 : RateCount) :
  In row1 (rows (compute_base_rate_counts sessions rates)) ->
  In row2 (rows (compute_base_rate_counts sessions rates)) ->
  0 <= rc_count row1 <= size (rows sessions)
  /\ (rc_rate_reason row1 <> "" ->
      contains_ci (rc_rate_reason row1) (rc_rate_reason row2) ->
      rc_count row2 <= rc_count row1).
Proof.
  unfold compute_base_rate_counts.
  destruct (_ || _); cbn [rows]; [intros []|].
  rewrite !in_map_iff. intros [r1 [<- _]] [r2 [<- _]].
  cbn [rc_count rc_rate_reason].
  set (names := map (fun s => PyStr.lower (survey_name s)) (rows sessions)).
  assert (Hsize : size names = size (rows sessions))
    by (unfold size, names; now rewrite length_map).
  assert (Hcnt : forall k,
            0 <= size (filter (PyStr.contains (PyStr.lower k)) names)
              <= size (rows sessions)).
  { intros k. rewrite <- Hsize. split; [apply size_nonneg|].
    apply size_filter_le. }
  split.
  - destruct (reason r1); [pose proof (size_nonneg (rows sessions)); lia|].
    apply Hcnt.
  - intros Hne Hsub.
    destruct (reason r1) as [|c1 k1] eqn:H1; [now destruct Hne|].
    destruct (reason r2) as [|c2 k2] eqn:H2; [apply Hcnt|].
    apply size_filter_mono. intros name Hname Hc.
    unfold names in Hname. apply in_map_iff in Hname.
    destruct Hname as [s [<- _]].
    apply PaymentsTheory.contains_ci_lower.
    apply PaymentsTheory.contains_ci_lower in Hc.
    now apply (contains_ci_trans _ (String c2 k2)).
Qed.

Lemma compute_base_rate_counts_nested_reasons_witness :
  rc_count {| rc_rate_reason := "ema survey";
              rc_rate_amount := PyFloat.dyadic 2 0; rc_count := 5 |}
  <= rc_count {| rc_rate_reason := "EMA";
                 rc_rate_amount := PyFloat.dyadic 2 0; rc_count := 5 |}.
Proof.
  apply (proj2 (compute_base_rate_counts_nested_reasons
                  (sessions_frame (five_sessions new_york))
                  (rates_frame [rate "ema survey"; rate "EMA"])
                  {| rc_rate_reason := "EMA";
                     rc_rate_amount := PyFloat.dyadic 2 0; rc_count := 5 |}
                  {| rc_rate_reason := "ema survey";
                     rc_rate_amount := PyFloat.dyadic 2 0; rc_count := 5 |}
                  (or_intror (or_introl eq_refl)) (or_introl eq_refl))).
  - discriminate.
  - exists "", " survey". reflexivity.
Defined.

Lemma total_firstn_mono {A : Type} (f : A -> Z) (l : list A) :
  (forall a, In a l -> 0 <= f a) ->
  forall n m, (n <= m)%nat ->
  total (map f (firstn n l)) <= total (map f (firstn m l)).
Proof.
  unfold total. induction l as [|a l IH]; intros Hpos n m Hnm.
  - rewrite !firstn_nil. lia.
  - assert (Ha : 0 <= f a) by (apply Hpos; now left).
    assert (Hl : forall x, In x l -> 0 <= f x)
      by (intros x Hx; apply Hpos; now right).
    destruct n as [|n], m as [|m]; cbn [firstn map fold_right]; try lia.
    + pose proof (total_firstn_le f m l Hl) as H. unfold total in H. lia.
    + pose proof (IH Hl n m ltac:(lia)). lia.
Qed.

(** X28.  In a zone at a constant offset from UTC the statistics never
    go down as time passes: for sessions possible per day and daily counts
    that are not negative, and counts whose sum stays below [2^63] so that
    the int64 additions do not overflow, a later call shows at least as
    many possible and as many completed sessions as an earlier one, for
    the same start date, schema and daily table. *)
Theorem compute_stats_monotone_in_time (hours now now' : Z)
    (start_date : date) (schema_row : Schema) (daily : DataFrame DailyRow) :
  now <= now' ->
  0 <= num_possible_per_day schema_row ->
  (forall r, In r (rows daily) -> 0 <= count r) ->
  total (map count (rows daily)) < 2 ^ 63 ->
  fst (compute_stats now start_date (fixed_offset hours) schema_row daily)
  <= fst (compute_stats now' start_date (fixed_offset hours) schema_row daily)
  /\ snd (compute_stats now start_date (fixed_offset hours) schema_row daily)
     <= snd (compute_stats now' start_date (fixed_offset hours) schema_row
               daily).
Proof.
  intros Hnow Hper Hpos Htotal. unfold compute_stats. cbn [fst snd].
  set (today := local_date {| instant := now; zone := fixed_offset hours |}).
  set (today' := local_date {| instant := now';
                               zone := fixed_offset hours |}).
  assert (Htoday : today <= today').
  { unfold today, today', local_date, fixed_offset, day_us.
    cbn [instant zone]. apply Z.div_le_mono; lia. }
  set (e := if Z.min (today - start_date + 1) (num_days schema_row) <? 0
            then 0 else Z.min (today - start_date + 1) (num_days schema_row)).
  set (e' := if Z.min (today' - start_date + 1) (num_days schema_row) <? 0
             then 0
             else Z.min (today' - start_date + 1) (num_days schema_row)).
  assert (He : 0 <= e <= e').
  { unfold e, e'.
    destruct (Z.ltb_spec (Z.min (today - start_date + 1)
                            (num_days schema_row)) 0),
             (Z.ltb_spec (Z.min (today' - start_date + 1)
                            (num_days schema_row)) 0); lia. }
  split; [nia|].
  destruct (_ && _); [|lia].
  rewrite !PaymentsTheory.sum_int64.
  pose proof (total_firstn_le count (Z.to_nat e) (rows daily) Hpos) as Hle.
  pose proof (total_firstn_le count (Z.to_nat e') (rows daily) Hpos) as Hle'.
  pose proof (total_firstn_mono count (rows daily) Hpos (Z.to_nat e)
                (Z.to_nat e') ltac:(lia)) as Hmono.
  unfold total in *.
  rewrite !PaymentsTheory.int64_small; lia.
Qed.

Lemma compute_stats_monotone_in_time_witness :
  fst (compute_stats (combine (ymd 2025 5 3) (9 * hour_us)) (ymd 2025 5 1)
         (fixed_offset (-4)) schema_10_1 (counts_frame [1; 0; 2]))
  <= fst (compute_stats (combine (ymd 2025 5 6) (9 * hour_us)) (ymd 2025 5 1)
            (fixed_offset (-4)) schema_10_1 (counts_frame [1; 0; 2]))
  /\ snd (compute_stats (combine (ymd 2025 5 3) (9 * hour_us)) (ymd 2025 5 1)
            (fixed_offset (-4)) schema_10_1 (counts_frame [1; 0; 2]))
     <= snd (compute_stats (combine (ymd 2025 5 6) (9 * hour_us))
               (ymd 2025 5 1) (fixed_offset (-4)) schema_10_1
               (counts_frame [1; 0; 2])).
Proof.
  apply (compute_stats_monotone_in_time (-4)
           (combine (ymd 2025 5 3) (9 * hour_us))
           (combine (ymd 2025 5 6) (9 * hour_us)) (ymd 2025 5 1) schema_10_1
           (counts_frame [1; 0; 2])).
  - vm_compute. discriminate.
  - vm_compute. discriminate.
  - intros r Hr. cbn in Hr.
    repeat (destruct Hr as [<-|Hr]; [cbn; lia|]). destruct Hr.
  - vm_compute. reflexivity.
Defined.

End PaymentsFlowTheory.
